(* ===== verification/_CoqProject ===== *)
-Q . S2P
Prelude.v
Slugify.v
Normalize.v
Html.v
Url.v
Session.v
Csv.v
Scrape.v
Pipeline.v
Download.v
Cli.v
