(* ===== verification/Prelude.v ===== *)
(** * A verification development for recipies_csv_creater

    The repository is two Python scripts.

    - [src/scrape_recipes.py] fetches a start page, collects the links
      whose [href] contains "recipe" ([extract_recipe_links]), parses each
      linked page with BeautifulSoup ([parse_recipe]), deduplicates the
      ingredient lines ([normalize_ingredients]), optionally translates
      every text field through DeepL ([translate]), writes three text
      files per recipe named by [slugify] of the recipe name, and streams
      one CSV row per recipe ([main]).
    - [src/download_images.py] reads every [*_photos.txt] file written by
      the first script and downloads each URL it lists
      ([download_from_txt], [download_image], [main]).

    Each ends in an [if __name__ == "__main__":] block that reads
    [sys.argv]. The two scripts interact only through the file system:
    the [{slug}_photos.txt] files that [scrape_recipes.main] writes are
    the input of [download_images.main].

    ** Files of the development (in dependency order)

    - [Prelude.v] (this file): the Python string model shared by every
      component (characters, [str.strip], [str.lower], [in], [endswith],
      [split], [join]), Python exceptions as the inductive [exn], the
      [result] type with its bind, the state/exception monad [PyM] with a
      [for_each] loop, the generic first-occurrence deduplication
      [dedup_by] (Section [DedupBy]) and the loop lemma [dedup_loop_spec]
      (Section [DedupLoop]) that [normalize_ingredients] and
      [dict.fromkeys] both instantiate, the hint databases and tactics.
    - [Slugify.v], Module [Slugify]: [slugify] (scrape_recipes.py lines
      35-38), with the two [re.sub] calls written as functions and the
      greedy matcher of [re.sub] as a fuelled reference [re_sub_runs].
      Theorems: idempotence (C3), the output alphabet and no doubled
      hyphen (C14), equivalence with the reference (C15), leading and
      trailing hyphens survive (C27).
    - [Normalize.v], Module [Normalize]: [normalize_ingredients] (lines
      104-112) as a [fold_left] of [step] over a [loop_state] holding a
      [gset] of seen keys. Theorems: first occurrence per key (C2),
      equivalence with [dedup_by norm_key] (C11), the loop invariant
      (C12), sublist and unique keys (C13), and the effect of one more
      line: kept exactly when its key [strip (lower x)] is new, so case
      and surrounding whitespace are ignored but [lower] is not case
      folding (C28).
    - [Html.v], Module [Html]: the BeautifulSoup queries the parser uses,
      as the class [HtmlQuery] ([select], [get_text], [get_attr]) with its
      law class [HtmlQueryLaws], and the instance [tree_query] over a
      document tree of [node]s with the selector forms of the source.
    - [Url.v], Module [Url]: CPython 3.12's [urlsplit], [urlparse],
      [urlunsplit], [urlunparse], [urljoin] and [os.path.basename], and
      the predicates of a plain host ([host_char]) and of a plain path
      ([path_char], [dot_segment]). Theorem: an absolute-path [href] or
      [src] resolves against an http(s) page URL onto the page's scheme
      and host, its path unchanged (C36), through one lemma per stage
      ([urlsplit_http], [urlparse_abs_path], [resolve_segments_plain],
      [urlunparse_abs]).
    - [Session.v], Module [Session]: the [requests] session's
      [Retry(total=3, backoff_factor=1, status_forcelist=...)] as
      urllib3 runs it ([is_retry] with its [Retry-After] branch,
      [retry_sleep], [retry_loop]) and [raise_for_status], with the
      lemmas on the loop the session's theorems use.
    - [Csv.v], Module [Csv]: [writer.writerow] in the [excel] dialect
      [main] writes ([csv_field], [csv_row]), and the reader of that
      dialect as the state machine of CPython's [parse_process_char]
      ([read_rows]), a specification the writer is checked against.
      Theorems: any rows written read back as exactly those rows (C31),
      and a row with no comma, quote or line break is written unquoted
      (C29).
    - [Scrape.v], Module [Scrape]: [session_get], [fetch_soup],
      [extract_recipe_links] (lines 50-60) and [parse_recipe] (lines
      63-101), in a Section over any [HtmlQuery] instance and any server
      (a function from a URL and an attempt number to an outcome).
      Theorems: links are unique first occurrences in document order
      (C4), no h1 raises [AttributeError] (C8), absent optional fields are
      empty (C9), retries and back-off (C16-C18), a 413, 429 or 503
      with [Retry-After] retried after the header's delay (C30), at most
      four requests per call (C37), the photo loop against an
      independent statement of its filter (non-empty, lower-case suffix
      .jpg, .jpeg or .png) (C19), and, on the document tree
      ([tree_query]), trimmed text fields on every page (C20) and the
      gluing of inline text by [get_text(strip=True)] for any two words
      (C26).
    - [Pipeline.v], Module [Pipeline]: [main] of the scraper (lines
      115-168) as a [PyM] program over a file system record [fs] (files
      as a [gmap], directories as a [gset], printed lines), with
      [export_recipe] for the per-recipe writes and [process_url] for one
      loop iteration; [import_deepl] is the optional import of lines
      29-32 that fills [env.deepl]. Theorems: the CSV [main] writes without a
      translator (C1) and that it reads back as the header and the
      parsed records (C32), what [export_recipe] writes (C5), a
      translation error aborts [main] (C6), a parse error is printed and
      skipped (C7), two recipes with one slug overwrite each other's
      files (C21), [export_recipe] writes nothing outside [output/text]
      but its CSV row (C39), and the translator is called only on the
      non-empty text fields (C40).
    - [Download.v], Module [Download]: download_images.py
      ([download_image], [download_from_txt], [main]) over its own file
      system state. Theorems: the photo file the scraper writes is read
      back as exactly the recipe's photo URLs (C10), a failed request is
      printed and skipped (C22), the file name has no [/] (C23), two URLs
      with one basename write one file (C24), an unbalanced bracket in a
      URL aborts the run after the lines before it, for any photo file
      (C25), and every URL of every
      photo file is attempted, in order (C38).
    - [Cli.v], Module [Cli]: the two [__main__] blocks
      ([scrape_recipes_cli], [download_images_cli]) and the exit status
      of a run ([exit_status]). Theorems: too few arguments print the
      usage and exit with status 1 (C33), the default output directory
      (C34), and a failure part-way through exits with status 1 although
      output was written (C35; the downloader's case is a concrete run,
      [download_cli_partial_failure_status]).

    ** Bounds and fuel

    The only fuel is that of [Slugify.re_sub_runs], the reference
    matcher, which is given [length s] steps: every step consumes at
    least one character, so this is enough, and C15 proves the reference
    equal to the structural [sub_sep_runs] for every input. The retry
    loop recurses structurally on the remaining retry count ([total = 3],
    so at most 4 attempts, as [Retry(total=3)] allows; C37 shows nothing
    after the fourth is read). The CSV reader is structural on the text.
    Every other loop is structural on a list.

    ** Not modelled

    The HTML tokenizer of [html.parser] (pages are given as trees), the
    network (a server is a function), the DeepL client (a translator is
    any function that may raise), the session's [User-Agent] header and
    the adapter mounts (they change no behaviour the scripts observe),
    redirects and an unparsable [Retry-After] value, whether the
    [deepl] package is installed (the argument of [import_deepl]), the
    NFKC check of a netloc and the validation of IPv6 hosts in
    [urlsplit] (every URL of the fixtures is ASCII with a named host),
    the bytes of the downloaded images, the
    real sleeps of the back-off (only their durations are recorded), and
    code points from U+0100 up.

    ** Modelling choices

    A Python [str] is modelled as [list ascii], each [ascii] read as the
    code point [nat_of_ascii c] (0 to 255, i.e. Latin-1). Every Python
    string predicate used by the code ([str.isspace] as used by [strip]
    and by the regex class [\s], the regex class [\w], [str.lower]) is
    written out exactly for these 256 code points, so the model is exact
    for strings whose characters are below U+0100.

    Python exceptions are the constructors of [exn]; a function that may
    raise returns [result A]; a function that also changes the file
    system is a [PyM] computation, a state transformer that returns the
    state reached at the point where the exception was raised, as Python
    keeps every write made before a [raise]. *)

From stdpp Require Export base list gmap strings.
From Stdlib Require Export Ascii String ZArith Lia.

Declare Scope py_scope.
Delimit Scope py_scope with py.
Open Scope py_scope.

(** ** Python strings *)

Abbreviation str := (list ascii).

(** [length] and [concat] are the list functions; Stdlib's [String.length]
    and [String.concat] stay qualified. *)
Abbreviation length := List.length.
Abbreviation concat := List.concat.

(** A Rocq string literal as a Python [str]. *)
Definition lit (s : string) : str := list_ascii_of_string s.
Arguments lit : simpl never.
Notation "⟪ s ⟫" := (lit s%string) (format "⟪ s ⟫") : py_scope.

Definition code (c : ascii) : nat := nat_of_ascii c.

Definition in_range (lo hi n : nat) : bool := (lo <=? n) && (n <=? hi).

(** [str.isspace] for one character (also the regex class [\s] of a
    [str] pattern): 9-13, the separators 28-31, space, U+0085, U+00A0. *)
Definition is_space (c : ascii) : bool :=
  let n := code c in
  in_range 9 13 n || in_range 28 32 n || (n =? 133) || (n =? 160).

(** Upper-case letters of Latin-1: [str.lower] maps them 32 code points up. *)
Definition is_upper (c : ascii) : bool :=
  let n := code c in
  in_range 65 90 n || (in_range 192 222 n && negb (n =? 215)).

(** [str.isalnum] for one character below U+0100: digits, letters,
    the ordinal indicators, micro sign, superscript digits and the
    vulgar fractions (numeric), the Latin-1 letters. *)
Definition is_alnum (c : ascii) : bool :=
  let n := code c in
  in_range 48 57 n || in_range 65 90 n || in_range 97 122 n
  || (n =? 170) || (n =? 178) || (n =? 179) || (n =? 181)
  || (n =? 185) || (n =? 186) || in_range 188 190 n
  || in_range 192 214 n || in_range 216 246 n || in_range 248 255 n.

(** The regex class [\w] of a [str] pattern. *)
Definition is_word (c : ascii) : bool := is_alnum c || (code c =? 95).

Definition lower_char (c : ascii) : ascii :=
  if is_upper c then ascii_of_nat (code c + 32) else c.

(** [str.lower] *)
Definition lower (s : str) : str := map lower_char s.

Fixpoint lstrip (s : str) : str :=
  match s with
  | [] => []
  | c :: s' => if is_space c then lstrip s' else s
  end.

Definition rstrip (s : str) : str := reverse (lstrip (reverse s)).

(** [str.strip()] with no argument. *)
Definition strip (s : str) : str := rstrip (lstrip s).

Fixpoint prefixb (p s : str) : bool :=
  match p, s with
  | [], _ => true
  | a :: p', b :: s' => bool_decide (a = b) && prefixb p' s'
  | _ :: _, [] => false
  end.

(** [needle in hay] *)
Fixpoint contains (needle hay : str) : bool :=
  prefixb needle hay ||
  match hay with
  | [] => false
  | _ :: hay' => contains needle hay'
  end.

(** [s.endswith(suf)] *)
Definition endswith (s suf : str) : bool := prefixb (reverse suf) (reverse s).

(** [sep.join(l)] *)
Fixpoint join (sep : str) (l : list str) : str :=
  match l with
  | [] => []
  | [x] => x
  | x :: l' => x ++ sep ++ join sep l'
  end.

(** [s.split(c)] for a one-character separator. *)
Fixpoint split_on (c : ascii) (s : str) : list str :=
  match s with
  | [] => [[]]
  | a :: s' =>
      if bool_decide (a = c) then [] :: split_on c s'
      else match split_on c s' with
           | [] => [[a]]
           | w :: ws => (a :: w) :: ws
           end
  end.

(** The index of the first character satisfying [p] ([str.find]). *)
Fixpoint find_index (p : ascii -> bool) (s : str) : option nat :=
  match s with
  | [] => None
  | c :: s' => if p c then Some 0 else S <$> find_index p s'
  end.

(** [s.split(c, 1)] when [c in s]: the text before the first [c] and
    the text after it; [None] when [c] does not occur. *)
Definition split_once (c : ascii) (s : str) : option (str * str) :=
  match find_index (fun x => bool_decide (x = c)) s with
  | Some i => Some (take i s, drop (S i) s)
  | None => None
  end.

(** [s.split()] with no argument: the maximal runs of non-whitespace;
    [cur] holds the current word reversed. *)
Fixpoint split_ws_go (cur : str) (s : str) : list str :=
  match s with
  | [] => match cur with [] => [] | _ => [reverse cur] end
  | c :: s' =>
      if is_space c then
        match cur with [] => [] | _ => [reverse cur] end ++ split_ws_go [] s'
      else split_ws_go (c :: cur) s'
  end.

Definition split_ws (s : str) : list str := split_ws_go [] s.

(** ** Python exceptions and results *)

Inductive exn :=
  | HTTPError (status : Z)          (** [Response.raise_for_status] *)
  | RetryError                      (** retries exhausted on a listed status *)
  | ConnectionError                 (** no response: refused, reset, timeout *)
  | AttributeError                  (** [None.get_text()] *)
  | ValueError                      (** [urlsplit]: unbalanced brackets in the host *)
  | KeyError (key : str)            (** [tag[key]] on a missing attribute *)
  | FileNotFoundError (path : str)  (** [open(path)] of a missing file *)
  | DeepLException (msg : str)      (** [translator.translate_text] failed *)
  | SystemExit (code : Z).          (** [sys.exit(code)] *)

Inductive result (A : Type) : Type :=
  | Ok (a : A)
  | Err (e : exn).
Arguments Ok {A} a.
Arguments Err {A} e.

Definition rbind {A B} (r : result A) (k : A -> result B) : result B :=
  match r with Ok a => k a | Err e => Err e end.

Notation "x <- r ;; k" := (rbind r (fun x => k))
  (at level 60, r at next level, right associativity) : py_scope.

Definition rfmap {A B} (f : A -> B) (r : result A) : result B :=
  match r with Ok a => Ok (f a) | Err e => Err e end.

(** A traversal that stops at the first exception, as a Python loop does. *)
Fixpoint rmapM {A B} (f : A -> result B) (l : list A) : result (list B) :=
  match l with
  | [] => Ok []
  | x :: xs => y <- f x ;; ys <- rmapM f xs ;; Ok (y :: ys)
  end.

Lemma rmapM_ok_length {A B} (f : A -> result B) l l' :
  rmapM f l = Ok l' -> length l' = length l.
Proof.
  revert l'. induction l as [|x l IH]; intros l' H; simpl in H.
  - by injection H as <-.
  - destruct (f x); [|done]. destruct (rmapM f l) eqn:E; [|done].
    injection H as <-. simpl. by rewrite (IH _ eq_refl).
Qed.

Lemma rmapM_map {A B} (f : A -> result B) (g : A -> B) l :
  (forall x, x ∈ l -> f x = Ok (g x)) -> rmapM f l = Ok (map g l).
Proof.
  induction l as [|x l IH]; intros H; [done|]. simpl.
  rewrite H by set_solver. simpl. rewrite IH by set_solver. done.
Qed.

Lemma rmapM_ok_forall2 {A B} (f : A -> result B) l l' :
  rmapM f l = Ok l' -> Forall2 (fun x y => f x = Ok y) l l'.
Proof.
  revert l'. induction l as [|x l IH]; intros l' H; simpl in H.
  - injection H as <-. constructor.
  - destruct (f x) eqn:Ef; [|done]. destruct (rmapM f l) eqn:E; [|done].
    injection H as <-. constructor; [done|]. by apply IH.
Qed.

(** ** A state/exception monad for code that writes files and may raise *)

Definition PyM (S A : Type) : Type := S -> result A * S.

Definition pret {S A} (a : A) : PyM S A := fun s => (Ok a, s).

Definition pbind {S A B} (m : PyM S A) (k : A -> PyM S B) : PyM S B :=
  fun s => match m s with
           | (Ok a, s') => k a s'
           | (Err e, s') => (Err e, s')
           end.

Definition praise {S A} (e : exn) : PyM S A := fun s => (Err e, s).

(** Lift a pure computation that may raise. *)
Definition plift {S A} (r : result A) : PyM S A := fun s => (r, s).

(** A state change that cannot raise. *)
Definition pmodify {S} (f : S -> S) : PyM S unit := fun s => (Ok tt, f s).

Notation "x <-- m ;;; k" := (pbind m (fun x => k))
  (at level 60, m at next level, right associativity) : py_scope.
Notation "m ;;; k" := (pbind m (fun _ => k))
  (at level 60, right associativity) : py_scope.

(** A [for x in l:] loop whose body may raise: the first exception ends it. *)
Fixpoint for_each {S A} (f : A -> PyM S unit) (l : list A) : PyM S unit :=
  match l with
  | [] => pret tt
  | x :: xs => f x ;;; for_each f xs
  end.

Lemma for_each_app {S A} (f : A -> PyM S unit) l1 l2 s :
  for_each f (l1 ++ l2) s =
  match for_each f l1 s with
  | (Ok _, s') => for_each f l2 s'
  | (Err e, s') => (Err e, s')
  end.
Proof.
  revert s. induction l1 as [|x l1 IH]; intros s; simpl; [done|].
  unfold pbind. destruct (f x s) as [[]]; [apply IH|done].
Qed.

Lemma for_each_ok {S A} (f : A -> PyM S unit) l s :
  (forall x s, x ∈ l -> fst (f x s) = Ok tt) -> fst (for_each f l s) = Ok tt.
Proof.
  revert s. induction l as [|x l IH]; intros s Hf; simpl; [done|].
  unfold pbind. pose proof (Hf x s ltac:(set_solver)) as Hx.
  destruct (f x s) as [[] s']; [|done]. apply IH. intros y s'' Hy. apply Hf. set_solver.
Qed.

Lemma for_each_ext {S A} (f g : A -> PyM S unit) l s :
  (forall x s, x ∈ l -> f x s = g x s) -> for_each f l s = for_each g l s.
Proof.
  revert s. induction l as [|x l IH]; intros s Hfg; simpl; [done|].
  unfold pbind. rewrite Hfg by set_solver. destruct (g x s) as [[] s']; [|done].
  apply IH. intros y s'' Hy. apply Hfg. set_solver.
Qed.

Lemma split_on_app c p t : c ∉ p -> split_on c (p ++ c :: t) = p :: split_on c t.
Proof.
  induction p as [|a p IH]; intros Hp; simpl.
  - by rewrite bool_decide_true.
  - rewrite bool_decide_false by set_solver. rewrite IH by set_solver. done.
Qed.

Lemma split_on_nonempty c s : exists w ws, split_on c s = w :: ws.
Proof.
  induction s as [|a s [w [ws IH]]]; simpl; [by eexists _, _|].
  case_bool_decide; [by eexists _, _|]. rewrite IH. by eexists _, _.
Qed.

Lemma join_cons_head sep a w ws : join sep ((a :: w) :: ws) = a :: join sep (w :: ws).
Proof. by destruct ws. Qed.

(** [sep.join(s.split(sep)) == s] *)
Lemma join_split_on c s : join [c] (split_on c s) = s.
Proof.
  induction s as [|a s IH]; [done|]. cbn [split_on].
  destruct (split_on_nonempty c s) as (w & ws & E). rewrite E in IH |- *.
  case_bool_decide as Ha.
  - subst a. change (join [c] ([] :: w :: ws)) with ([] ++ [c] ++ join [c] (w :: ws)).
    by rewrite IH.
  - by rewrite join_cons_head, IH.
Qed.

Lemma find_index_app_miss p l1 l2 :
  Forall (fun c => p c = false) l1 -> find_index p (l1 ++ l2) = Nat.add (length l1) <$> find_index p l2.
Proof.
  induction 1 as [|c l1 Hc _ IH]; simpl; [by destruct (find_index p l2)|].
  rewrite Hc, IH. by destruct (find_index p l2).
Qed.

Lemma find_index_all_false p s : Forall (fun c => p c = false) s -> find_index p s = None.
Proof. intros H. rewrite <- (app_nil_r s), find_index_app_miss by done. done. Qed.

Lemma find_index_some p s i :
  find_index p s = Some i -> i < length s /\ Forall (fun c => p c = false) (take i s).
Proof.
  revert i. induction s as [|c s IH]; intros i; simpl; [done|].
  destruct (p c) eqn:Hc.
  - intros [= <-]. split; [lia|constructor].
  - destruct (find_index p s) as [j|] eqn:E; simpl; [|done]. intros [= <-].
    destruct (IH j eq_refl) as [Hl Hf]. split; [lia|by constructor].
Qed.

Lemma find_index_none p s : find_index p s = None -> Forall (fun c => p c = false) s.
Proof.
  induction s as [|c s IH]; simpl; [done|].
  destruct (p c) eqn:Hc; [done|]. destruct (find_index p s); [done|].
  intros _. constructor; [done|by apply IH].
Qed.

(** ** Automation *)

Create HintDb py discriminated.
Create Rewrite HintDb pyrw.

Ltac py_bools :=
  repeat match goal with
  | H : _ && _ = true |- _ => apply andb_prop in H as [? ?]
  | H : _ || _ = false |- _ => apply orb_false_elim in H as [? ?]
  | H : Nat.eqb _ _ = true |- _ => apply Nat.eqb_eq in H
  | H : Nat.leb _ _ = true |- _ => apply Nat.leb_le in H
  end.

(** A decidable goal on closed data, decided by evaluation. *)
Ltac decide_closed :=
  match goal with |- ?P => apply (bool_decide_unpack P) end; vm_compute; exact I.

(** ** Shared lemmas on the string model *)

Lemma code_lt_256 c : code c < 256.
Proof. unfold code. destruct (nat_ascii_bounded c); lia. Qed.

Lemma code_inj c d : code c = code d -> c = d.
Proof.
  unfold code. intros H. rewrite <- (ascii_nat_embedding c), <- (ascii_nat_embedding d).
  by rewrite H.
Qed.

Lemma code_ascii_of_nat n : n < 256 -> code (ascii_of_nat n) = n.
Proof. unfold code. apply nat_ascii_embedding. Qed.

Lemma in_range_spec lo hi n : in_range lo hi n = true <-> lo <= n <= hi.
Proof.
  unfold in_range. rewrite andb_true_iff, !Nat.leb_le. done.
Qed.

Lemma lstrip_app_l s t :
  Forall (fun c => is_space c = true) s -> lstrip (s ++ t) = lstrip t.
Proof. induction 1 as [|c s Hc _ IH]; simpl; [done|]. by rewrite Hc. Qed.

Lemma lstrip_head s :
  match lstrip s with [] => True | c :: _ => is_space c = false end.
Proof.
  induction s as [|c s IH]; simpl; [done|].
  destruct (is_space c) eqn:E; [done|]. exact E.
Qed.

Lemma lstrip_idem s : lstrip (lstrip s) = lstrip s.
Proof.
  induction s as [|c s IH]; simpl; [done|].
  destruct (is_space c) eqn:E; [done|]. simpl. by rewrite E.
Qed.

Lemma lstrip_no_space s :
  Forall (fun c => is_space c = false) s -> lstrip s = s.
Proof. destruct 1 as [|c s Hc _]; simpl; [done|]. by rewrite Hc. Qed.

Lemma rstrip_no_space s :
  Forall (fun c => is_space c = false) s -> rstrip s = s.
Proof.
  intros H. unfold rstrip. rewrite lstrip_no_space.
  - apply reverse_involutive.
  - by apply Forall_reverse.
Qed.

Lemma strip_no_space s :
  Forall (fun c => is_space c = false) s -> strip s = s.
Proof. intros H. unfold strip. by rewrite lstrip_no_space, rstrip_no_space. Qed.

Lemma lstrip_suffix s : lstrip s `suffix_of` s.
Proof.
  induction s as [|c s IH]; simpl; [done|].
  destruct (is_space c); [|done]. by apply suffix_cons_r.
Qed.

Lemma rstrip_prefix s : rstrip s `prefix_of` s.
Proof.
  unfold rstrip. destruct (lstrip_suffix (reverse s)) as [k Hk].
  exists (reverse k). apply (f_equal reverse) in Hk.
  by rewrite reverse_involutive, reverse_app in Hk.
Qed.

Lemma strip_sublist s : strip s `sublist_of` s.
Proof.
  unfold strip. destruct (rstrip_prefix (lstrip s)) as [k Hk].
  destruct (lstrip_suffix s) as [j Hj].
  rewrite Hj at 2. rewrite Hk at 2. rewrite <- (app_nil_r (rstrip _)) at 1.
  apply sublist_inserts_l, sublist_app; [done|apply sublist_nil_l].
Qed.

Lemma prefixb_spec p s : prefixb p s = true <-> p `prefix_of` s.
Proof.
  revert s. induction p as [|a p IH]; intros [|b s]; simpl.
  - split; [intros; apply prefix_nil|done].
  - split; [intros; apply prefix_nil|done].
  - split; [done|intros H; by apply prefix_nil_not in H].
  - rewrite andb_true_iff, bool_decide_eq_true, IH. split.
    + intros [-> ?]. by apply prefix_cons.
    + intros H. destruct (prefix_cons_inv_1 _ _ _ _ H). subst.
      split; [done|]. by apply prefix_cons_inv_2 in H.
Qed.

Lemma endswith_spec s suf : endswith s suf = true <-> suf `suffix_of` s.
Proof. unfold endswith. by rewrite prefixb_spec, suffix_prefix_reverse. Qed.

#[export] Hint Rewrite lstrip_idem : pyrw.
#[export] Hint Resolve strip_sublist lstrip_suffix : py.

(** A statement about every one of the 256 characters, checked one by one. *)
Ltac by_all_chars :=
  intros;
  match goal with c : ascii |- _ => destruct c as [[] [] [] [] [] [] [] []] end;
  vm_compute in *; first [reflexivity | discriminate].

Lemma lower_char_idem c : lower_char (lower_char c) = lower_char c.
Proof. by_all_chars. Qed.

Lemma is_upper_lower_char c : is_upper (lower_char c) = false.
Proof. by_all_chars. Qed.

Lemma is_space_lower_char c : is_space (lower_char c) = is_space c.
Proof. by_all_chars. Qed.

Lemma is_word_lower_char c : is_word (lower_char c) = is_word c.
Proof. by_all_chars. Qed.

Lemma lower_char_not_upper c : is_upper c = false -> lower_char c = c.
Proof. unfold lower_char. by intros ->. Qed.

Lemma lower_idem s : lower (lower s) = lower s.
Proof. unfold lower. rewrite map_map. apply map_ext, lower_char_idem. Qed.

#[export] Hint Rewrite lower_char_idem is_upper_lower_char is_space_lower_char
  is_word_lower_char lower_idem : pyrw.

Lemma Forall_sublist_of {A} (P : A -> Prop) (l k : list A) :
  l `sublist_of` k -> Forall P k -> Forall P l.
Proof. induction 1; inversion_clear 1; auto. Qed.

Lemma filter_all_true {A} (P : A -> Prop) `{!forall x, Decision (P x)} (l : list A) :
  Forall P l -> filter P l = l.
Proof. induction 1; [done|]. rewrite filter_cons_True by done. by f_equal. Qed.

Lemma filter_all_false {A} (P : A -> Prop) `{!forall x, Decision (P x)} (l : list A) :
  Forall (fun x => ~ P x) l -> filter P l = [].
Proof. induction 1; [done|]. by rewrite filter_cons_False. Qed.

(** ** First occurrences by key

    Two loops of the program keep the first line of each key in input
    order: [normalize_ingredients] (key [ing.lower().strip()]) and
    [dict.fromkeys] in [extract_recipe_links] (key the URL itself). Both
    are proved equal to [dedup_by key], whose properties are proved here
    once. *)

Section DedupBy.
Context {A K : Type} `{!EqDecision K} (key : A -> K).

Fixpoint dedup_by (l : list A) : list A :=
  match l with
  | [] => []
  | x :: xs => x :: filter (fun y => key y <> key x) (dedup_by xs)
  end.

Lemma dedup_by_sublist l : dedup_by l `sublist_of` l.
Proof.
  induction l as [|x l IH]; simpl; [done|]. apply sublist_skip.
  etransitivity; [apply sublist_filter|done].
Qed.

Lemma dedup_by_key_filter l k :
  filter (fun y => key y = k) (dedup_by l) = take 1 (filter (fun y => key y = k) l).
Proof.
  induction l as [|x l IH]; simpl; [done|].
  rewrite !filter_cons. destruct (decide (key x = k)) as [<-|Hne].
  - rewrite list_filter_filter, filter_all_false; [done|].
    apply Forall_forall. naive_solver.
  - rewrite list_filter_filter, <- IH. apply list_filter_iff. naive_solver.
Qed.

Lemma dedup_by_nodup_id l : NoDup (map key l) -> dedup_by l = l.
Proof.
  induction l as [|x l IH]; simpl; [done|]. intros [Hx Hl]%NoDup_cons.
  rewrite IH by done. f_equal. apply filter_all_true.
  apply Forall_forall. intros y Hy Heq. apply Hx. rewrite <- Heq.
  by apply (list_elem_of_fmap_2 key).
Qed.

Lemma dedup_by_nodup l : NoDup (map key (dedup_by l)).
Proof.
  induction l as [|x l IH]; simpl; constructor.
  - intros (y & Hxy & Hy)%list_elem_of_fmap.
    apply list_elem_of_filter in Hy. naive_solver.
  - eapply sublist_NoDup; [exact IH|]. apply fmap_sublist, sublist_filter.
Qed.

Lemma dedup_by_idem l : dedup_by (dedup_by l) = dedup_by l.
Proof. apply dedup_by_nodup_id, dedup_by_nodup. Qed.

Lemma elem_of_dedup_by l x : x ∈ l -> exists y, y ∈ dedup_by l /\ key y = key x.
Proof.
  intros Hx. destruct (filter (fun y => key y = key x) (dedup_by l)) as [|y ys] eqn:E.
  - rewrite dedup_by_key_filter in E.
    assert (x ∈ filter (fun y => key y = key x) l) as Hin
      by (apply list_elem_of_filter; done).
    destruct (filter _ l); [set_solver|done].
  - exists y. assert (y ∈ y :: ys) as Hy by set_solver.
    rewrite <- E in Hy. apply list_elem_of_filter in Hy. naive_solver.
Qed.
End DedupBy.

(** ** [strip] fixes exactly the strings whose ends are not whitespace *)

Lemma lstrip_app s t : lstrip s <> [] -> lstrip (s ++ t) = lstrip s ++ t.
Proof.
  induction s as [|c s IH]; simpl; [done|].
  destruct (is_space c); [exact IH|done].
Qed.

Lemma lstrip_app_nil s t : lstrip s = [] -> lstrip (s ++ t) = lstrip t.
Proof.
  induction s as [|c s IH]; simpl; [done|].
  destruct (is_space c); [exact IH|done].
Qed.

Lemma rstrip_snoc_space s d : is_space d = true -> rstrip (s ++ [d]) = rstrip s.
Proof. intros Hd. unfold rstrip. rewrite reverse_snoc. simpl. by rewrite Hd. Qed.

Lemma rstrip_snoc_nonspace s d : is_space d = false -> rstrip (s ++ [d]) = s ++ [d].
Proof.
  intros Hd. unfold rstrip. rewrite reverse_snoc. simpl. rewrite Hd.
  by rewrite <- reverse_snoc, reverse_involutive.
Qed.

Lemma rstrip_idem s : rstrip (rstrip s) = rstrip s.
Proof. unfold rstrip. by rewrite reverse_involutive, lstrip_idem. Qed.

Lemma strip_cons_space c s : is_space c = true -> strip (c :: s) = strip s.
Proof. intros Hc. unfold strip. simpl. by rewrite Hc. Qed.

Lemma strip_snoc_space s d : is_space d = true -> strip (s ++ [d]) = strip s.
Proof.
  intros Hd. unfold strip. destruct (decide (lstrip s = [])) as [E|E].
  - rewrite lstrip_app_nil, E by done. simpl. by rewrite Hd.
  - rewrite lstrip_app by done. by apply rstrip_snoc_space.
Qed.

Lemma strip_length s : length (strip s) <= length s.
Proof. apply sublist_length, strip_sublist. Qed.

Lemma strip_fixed_head s c s' : strip s = s -> s = c :: s' -> is_space c = false.
Proof.
  intros Hs ->. destruct (is_space c) eqn:Hc; [|done]. exfalso.
  rewrite strip_cons_space in Hs by done.
  pose proof (strip_length s') as Hl. rewrite Hs in Hl. simpl in Hl. lia.
Qed.

Lemma strip_fixed_last s d s' : strip s = s -> s = s' ++ [d] -> is_space d = false.
Proof.
  intros Hs ->. destruct (is_space d) eqn:Hd; [|done]. exfalso.
  rewrite strip_snoc_space in Hs by done.
  pose proof (strip_length s') as Hl. rewrite Hs, length_app in Hl. simpl in Hl. lia.
Qed.

Lemma strip_edges s :
  (forall c s', s = c :: s' -> is_space c = false) ->
  (forall d s', s = s' ++ [d] -> is_space d = false) ->
  strip s = s.
Proof.
  intros Hh Hl. unfold strip. destruct s as [|c s'] eqn:E; [done|].
  simpl. rewrite (Hh c s') by done. rewrite <- E.
  assert (s <> []) as Hne by (by rewrite E).
  destruct (exists_last Hne) as [u [d Hu]].
  rewrite Hu. apply rstrip_snoc_nonspace. apply (Hl d u). by rewrite <- E.
Qed.

Lemma strip_idem s : strip (strip s) = strip s.
Proof.
  apply strip_edges.
  - intros c s' Hs. unfold strip in Hs. pose proof (lstrip_head s) as Hh.
    destruct (rstrip_prefix (lstrip s)) as [k Hk].
    destruct (lstrip s) as [|c' t]; [done|]. rewrite Hs in Hk. simpl in Hk.
    by injection Hk as <-.
  - intros d s' Hs. unfold strip in Hs.
    assert (rstrip (s' ++ [d]) = s' ++ [d]) as Hr by (rewrite <- Hs; apply rstrip_idem).
    destruct (is_space d) eqn:Hd; [|done].
    rewrite rstrip_snoc_space in Hr by done.
    pose proof (prefix_length _ _ (rstrip_prefix s')) as Hl.
    rewrite Hr, length_app in Hl. simpl in Hl. lia.
Qed.

(** A concatenation of non-empty stripped pieces is stripped. *)
Lemma strip_concat ps :
  Forall (fun p => p <> [] /\ strip p = p) ps -> strip (concat ps) = concat ps.
Proof.
  intros Hps. apply strip_edges.
  - intros c s' E. destruct Hps as [|p ps [Hp Hs] _]; [done|].
    destruct p as [|c' p]; [done|]. simpl in E. injection E as <- _.
    by eapply strip_fixed_head.
  - intros d s' E. assert (ps <> []) as Hne by (intros ->; by destruct s').
    destruct (exists_last Hne) as [qs [p ->]]. apply Forall_app in Hps as [_ [[Hp Hs] _]%Forall_cons].
    destruct (exists_last Hp) as [p' [d' ->]].
    rewrite concat_app in E. simpl in E. rewrite app_nil_r, app_assoc in E.
    apply app_inj_tail in E as [_ <-]. by eapply strip_fixed_last.
Qed.

(** A loop that keeps the first element of each key, over any state with
    a notion of "key already seen" and a list of kept elements, computes
    [dedup_by]. [normalize_ingredients] (a set and a list) and
    [dict.fromkeys] (an ordered dict) are instances. *)
Section DedupLoop.
Context {A K S : Type} `{!EqDecision K} (key : A -> K).
Variable seen : S -> K -> Prop.
Context `{!forall s k, Decision (seen s k)}.
Variable kept : S -> list A.
Variable step : S -> A -> S.
Hypothesis step_seen : forall s x, seen s (key x) ->
  kept (step s x) = kept s /\ forall k, seen (step s x) k <-> seen s k.
Hypothesis step_new : forall s x, ~ seen s (key x) ->
  kept (step s x) = kept s ++ [x] /\ forall k, seen (step s x) k <-> k = key x \/ seen s k.

Lemma dedup_loop_spec l s :
  kept (fold_left step l s) = kept s ++ filter (fun y => ~ seen s (key y)) (dedup_by key l).
Proof.
  revert s. induction l as [|x l IH]; intros s; simpl.
  { by rewrite filter_nil, app_nil_r. }
  rewrite IH. destruct (decide (seen s (key x))) as [Hin|Hnin].
  - destruct (step_seen s x Hin) as [-> Hk].
    rewrite filter_cons_False by naive_solver. rewrite list_filter_filter.
    f_equal. apply list_filter_iff. intros y. rewrite Hk.
    split; [|tauto]. intros Hy. split; [done|]. intros Heq. apply Hy. by rewrite Heq.
  - destruct (step_new s x Hnin) as [-> Hk].
    rewrite filter_cons_True by done. rewrite <- app_assoc. f_equal. f_equal.
    rewrite list_filter_filter. apply list_filter_iff. intros y. rewrite Hk. tauto.
Qed.
End DedupLoop.
