(* ===== verification/Slugify.v ===== *)
(** * [slugify] (src/scrape_recipes.py, lines 35-38)

    [slugify] turns a recipe name into the stem of the three text files
    the exporter writes. It is two regular-expression substitutions
    around [strip] and [lower]:
    - [re.sub(r"[^\w\s-]", "", value)] deletes every character outside
      [\w], [\s] and the hyphen ([remove_disallowed]);
    - [re.sub(r"[\s-]+", "-", value)] replaces every maximal run of
      whitespace and hyphens by one hyphen ([sub_sep_runs], a one-pass
      scan with a flag saying whether the scan is inside a run).
    The greedy left-to-right matching of [re.sub] is also written out as
    [re_sub_runs] (match the longest run at the current position, emit
    the replacement, continue after it), and the two are proved equal. *)

From S2P Require Import Prelude.

Module Slugify.

Definition hyphen : ascii := "-"%char.

Definition is_hyphen (c : ascii) : bool := code c =? 45.

(** The class [[\w\s-]]. *)
Definition keep_char (c : ascii) : bool := is_word c || is_space c || is_hyphen c.

(** [re.sub(r"[^\w\s-]", "", value)] *)
Definition remove_disallowed (value : str) : str := List.filter keep_char value.

(** The class [[\s-]]. *)
Definition is_sep (c : ascii) : bool := is_space c || is_hyphen c.

(** [re.sub(r"[\s-]+", "-", value)]: [in_run] is true when the previous
    character belonged to a run that has already been replaced. *)
Fixpoint collapse_seps (in_run : bool) (s : str) : str :=
  match s with
  | [] => []
  | c :: s' =>
      if is_sep c then
        if in_run then collapse_seps true s' else hyphen :: collapse_seps true s'
      else c :: collapse_seps false s'
  end.

Definition sub_sep_runs (value : str) : str := collapse_seps false value.

(** [slugify]: the first substitution, [strip], [lower], then the second. *)
Definition slugify (value : str) : str :=
  let value := lower (strip (remove_disallowed value)) in
  sub_sep_runs value.

(** The greedy matcher of [re.sub]: [skip_seps] is what remains after
    the longest match of [[\s-]+] at the head. *)
Fixpoint skip_seps (s : str) : str :=
  match s with
  | [] => []
  | c :: s' => if is_sep c then skip_seps s' else s
  end.

Fixpoint re_sub_runs (fuel : nat) (s : str) : str :=
  match fuel with
  | O => s
  | S fuel' =>
      match s with
      | [] => []
      | c :: s' =>
          if is_sep c then hyphen :: re_sub_runs fuel' (skip_seps s')
          else c :: re_sub_runs fuel' s'
      end
  end.

(** Each step consumes at least one character, so [length s] steps suffice. *)
Definition re_sub_ref (s : str) : str := re_sub_runs (length s) s.

(** The characters a slug is made of: lower-case word characters and the hyphen. *)
Definition slug_char (c : ascii) : bool := (is_word c && negb (is_upper c)) || is_hyphen c.

(** The shape of the output of [collapse_seps in_run]: no whitespace, no
    two hyphens in a row, and no leading hyphen after a replaced run. *)
Fixpoint shaped (in_run : bool) (s : str) : bool :=
  match s with
  | [] => true
  | c :: s' =>
      if is_space c then false
      else if is_hyphen c then negb in_run && shaped true s'
      else shaped false s'
  end.

(** ** Lemmas *)

Lemma is_sep_hyphen : is_sep hyphen = true.
Proof. reflexivity. Qed.

Lemma slug_char_not_space c : slug_char c = true -> is_space c = false.
Proof. by_all_chars. Qed.

Lemma slug_char_keep c : slug_char c = true -> keep_char c = true.
Proof. by_all_chars. Qed.

Lemma slug_char_lower c : slug_char c = true -> lower_char c = c.
Proof. by_all_chars. Qed.

Lemma keep_nonsep_slug c :
  keep_char c = true -> is_sep c = false -> is_upper c = false -> slug_char c = true.
Proof. by_all_chars. Qed.

Lemma keep_char_lower c : keep_char (lower_char c) = keep_char c.
Proof. by_all_chars. Qed.

Lemma is_sep_lower_char c : is_sep (lower_char c) = is_sep c.
Proof. by_all_chars. Qed.

Lemma is_hyphen_spec c : is_hyphen c = true -> c = hyphen.
Proof. by_all_chars. Qed.

Lemma hyphen_not_space : is_space hyphen = false.
Proof. reflexivity. Qed.

Lemma collapse_seps_shaped b s : shaped b (collapse_seps b s) = true.
Proof.
  revert b. induction s as [|c s IH]; intros b; simpl; [done|].
  destruct (is_sep c) eqn:Hs.
  - destruct b; [apply IH|]. simpl. by rewrite IH.
  - simpl. unfold is_sep in Hs. apply orb_false_elim in Hs as [-> ->]. apply IH.
Qed.

Lemma collapse_seps_shaped_id b s : shaped b s = true -> collapse_seps b s = s.
Proof.
  revert b. induction s as [|c s IH]; intros b; simpl; [done|].
  unfold is_sep. destruct (is_space c); [done|].
  destruct (is_hyphen c) eqn:Eh; simpl; intros H.
  - destruct b; simpl in H; [done|]. by rewrite (is_hyphen_spec c Eh), IH.
  - by rewrite IH.
Qed.

Lemma collapse_seps_chars b s :
  Forall (fun c => keep_char c = true /\ is_upper c = false) s ->
  Forall (fun c => slug_char c = true) (collapse_seps b s).
Proof.
  revert b. induction s as [|c s IH]; intros b Hs; simpl; [done|].
  apply Forall_cons in Hs as [[Hk Hu] Hs].
  destruct (is_sep c) eqn:E; [destruct b|]; auto.
  constructor; [by apply keep_nonsep_slug|auto].
Qed.

Lemma collapse_seps_length b s : length (collapse_seps b s) <= length s.
Proof.
  revert b. induction s as [|c s IH]; intros b; simpl; [lia|].
  pose proof (IH true). pose proof (IH false).
  destruct (is_sep c); [destruct b|]; simpl; lia.
Qed.

Lemma collapse_seps_true_skip s :
  collapse_seps true s = collapse_seps false (skip_seps s).
Proof.
  induction s as [|c s IH]; simpl; [done|].
  destruct (is_sep c) eqn:E; [done|]. simpl. by rewrite E.
Qed.

Lemma skip_seps_length s : length (skip_seps s) <= length s.
Proof.
  induction s as [|c s IH]; simpl; [lia|]. destruct (is_sep c); simpl; lia.
Qed.

Lemma re_sub_runs_collapse fuel s :
  length s <= fuel -> re_sub_runs fuel s = collapse_seps false s.
Proof.
  revert s. induction fuel as [|fuel IH]; intros [|c s] Hlen; simpl in *; try done; [lia|].
  destruct (is_sep c).
  - rewrite collapse_seps_true_skip, IH; [done|].
    pose proof (skip_seps_length s). lia.
  - rewrite IH; [done|lia].
Qed.

Lemma remove_disallowed_chars value :
  Forall (fun c => keep_char c = true) (remove_disallowed value).
Proof. apply List.Forall_forall. intros c Hc. by apply filter_In in Hc as [_ ?]. Qed.

Lemma remove_disallowed_id s :
  Forall (fun c => keep_char c = true) s -> remove_disallowed s = s.
Proof.
  induction 1 as [|c s Hc _ IH]; simpl; [done|]. unfold remove_disallowed in *.
  simpl. by rewrite Hc, IH.
Qed.

Lemma lower_id s : Forall (fun c => is_upper c = false) s -> lower s = s.
Proof.
  induction 1 as [|c s Hc _ IH]; simpl; [done|]. unfold lower in *.
  simpl. by rewrite lower_char_not_upper, IH.
Qed.

Lemma lower_keep_chars s :
  Forall (fun c => keep_char c = true) s ->
  Forall (fun c => keep_char c = true /\ is_upper c = false) (lower s).
Proof.
  intros H. apply Forall_map. eapply Forall_impl; [exact H|].
  intros c Hc. by rewrite keep_char_lower, is_upper_lower_char.
Qed.

(** Every character of a slug is a slug character. *)
Lemma slugify_chars value : Forall (fun c => slug_char c = true) (slugify value).
Proof.
  unfold slugify, sub_sep_runs. apply collapse_seps_chars, lower_keep_chars.
  eapply Forall_sublist_of; [apply strip_sublist|apply remove_disallowed_chars].
Qed.

Lemma slugify_shaped value : shaped false (slugify value) = true.
Proof. apply collapse_seps_shaped. Qed.

Lemma slug_char_not_upper c : slug_char c = true -> is_upper c = false.
Proof. by_all_chars. Qed.

(** A string made of slug characters and shaped like a slug is its own slug. *)
Lemma slugify_fixed s :
  Forall (fun c => slug_char c = true) s -> shaped false s = true -> slugify s = s.
Proof.
  intros Hc Hs. unfold slugify, sub_sep_runs.
  rewrite remove_disallowed_id by (eapply Forall_impl; [exact Hc|apply slug_char_keep]).
  rewrite strip_no_space by (eapply Forall_impl; [exact Hc|apply slug_char_not_space]).
  rewrite lower_id by (eapply Forall_impl; [exact Hc|apply slug_char_not_upper]).
  by apply collapse_seps_shaped_id.
Qed.

Lemma shaped_no_double b s a t : shaped b s = true -> s <> a ++ hyphen :: hyphen :: t.
Proof.
  revert b s. induction a as [|x a IH]; intros b s Hs ->; simpl in Hs.
  - by destruct b.
  - destruct (is_space x); [done|].
    destruct (is_hyphen x); [apply andb_prop in Hs as [_ Hs]|];
      by eapply IH; [exact Hs|].
Qed.

Lemma filter_length_le {A} (f : A -> bool) (l : list A) :
  length (List.filter f l) <= length l.
Proof. induction l as [|x l IH]; simpl; [lia|]. destruct (f x); simpl; lia. Qed.

(** ** Properties of [slugify] *)

(** C3: [slugify] is idempotent: the slug of a slug is the slug itself,
    so a file stem produced once is stable under a second normalisation. *)
Theorem slugify_idempotent value : slugify (slugify value) = slugify value.
Proof. apply slugify_fixed; [apply slugify_chars|apply slugify_shaped]. Qed.

(** C14: a slug consists only of lower-case word characters ([\w] minus
    the upper-case letters) and hyphens, contains no whitespace, and never
    contains two hyphens in a row. *)
Theorem slugify_output_format value :
  Forall (fun c => slug_char c = true /\ is_space c = false) (slugify value)
  /\ forall a t, slugify value <> a ++ hyphen :: hyphen :: t.
Proof.
  split.
  - eapply Forall_impl; [apply slugify_chars|]. intros c Hc. split; [done|].
    by apply slug_char_not_space.
  - intros a t. apply (shaped_no_double false), slugify_shaped.
Qed.

(** C15: the one-pass scan [sub_sep_runs] computes exactly the greedy
    left-to-right substitution of [re.sub(r"[\s-]+", "-", value)]. *)
Theorem sub_sep_runs_greedy s : sub_sep_runs s = re_sub_ref s.
Proof. unfold re_sub_ref, sub_sep_runs. symmetry. by apply re_sub_runs_collapse. Qed.

(** C27: a hyphen at the start of the name survives: when the name, once
    the disallowed characters are removed and the whitespace stripped,
    starts with a hyphen, the slug starts with a hyphen. The spec says a
    slug has no leading or trailing hyphen; the code does not strip them. *)
Theorem slugify_leading_hyphen value rest :
  strip (remove_disallowed value) = hyphen :: rest ->
  head (slugify value) = Some hyphen.
Proof. intros H. unfold slugify, sub_sep_runs. by rewrite H. Qed.

Lemma slugify_leading_hyphen_witness :
  strip (remove_disallowed ⟪"-Apple Pie-"⟫) = hyphen :: ⟪"Apple Pie-"⟫
  /\ head (slugify ⟪"-Apple Pie-"⟫) = Some hyphen.
Proof.
  split; [reflexivity|]. apply (slugify_leading_hyphen _ ⟪"Apple Pie-"⟫). reflexivity.
Defined.

(** A slug is never longer than the name it is made from. *)
Theorem slugify_length value : length (slugify value) <= length value.
Proof.
  unfold slugify, sub_sep_runs, lower.
  etransitivity; [apply collapse_seps_length|]. rewrite length_map.
  etransitivity; [apply sublist_length, strip_sublist|]. apply filter_length_le.
Qed.

Example slugify_example :
  slugify ⟪"  Grandma's Apple-Pie (Easy!)  "⟫ = ⟪"grandmas-apple-pie-easy"⟫.
Proof. reflexivity. Qed.

Example slugify_trailing_hyphen : slugify ⟪"Pie -"⟫ = ⟪"pie-"⟫.
Proof. reflexivity. Qed.

End Slugify.
