(* ===== verification/Normalize.v ===== *)
(** * [normalize_ingredients] (src/scrape_recipes.py, lines 104-112)

    The loop keeps a Python [set] [seen] of keys [ing.lower().strip()]
    and a list [result]; a line is appended when its key is new. The loop
    state is the record [loop_state], one iteration is [step], and the
    function is [fold_left step] from the empty state, as the [for] loop
    runs it.

    The reference [dedup_by norm_key] (Prelude) keeps the head and removes the later lines
    with the same key from the deduplicated tail; the loop is proved
    equal to it, and the properties of the spec (sublist, unique keys,
    exactly the first line of each key) are proved of the reference. *)

From S2P Require Import Prelude.

Module Normalize.

(** [norm = ing.lower().strip()] *)
Definition norm_key (ing : str) : str := strip (lower ing).

Record loop_state := mk_loop_state { seen : gset str; result : list str }.

Definition loop_init : loop_state := mk_loop_state ∅ [].

(** One iteration of the [for] loop. *)
Definition step (st : loop_state) (ing : str) : loop_state :=
  let norm := norm_key ing in
  if decide (norm ∈ seen st) then st
  else mk_loop_state ({[norm]} ∪ seen st) (result st ++ [ing]).

Definition normalize_ingredients (ingredients : list str) : list str :=
  result (fold_left step ingredients loop_init).

(** The loop invariant: [seen] is the set of keys of [result]. *)
Definition loop_inv (st : loop_state) : Prop :=
  seen st = list_to_set (map norm_key (result st)).

(** ** Lemmas *)

Lemma fold_step_spec l st :
  result (fold_left step l st)
  = result st ++ filter (fun y => ~ norm_key y ∈ seen st) (dedup_by norm_key l).
Proof.
  apply (@dedup_loop_spec _ _ _ _ norm_key (fun st k => k ∈ seen st)
           (fun st k => decide_rel (∈) k (seen st)) result step).
  - intros s x Hx. unfold step. by rewrite decide_True.
  - intros s x Hx. unfold step. rewrite decide_False by done. cbn [seen result].
    split; [done|]. intros k. rewrite elem_of_union, elem_of_singleton. done.
Qed.

Lemma normalize_dedup_rec l : normalize_ingredients l = dedup_by norm_key l.
Proof.
  unfold normalize_ingredients. rewrite fold_step_spec. simpl.
  rewrite filter_all_true; [done|]. apply Forall_forall. set_solver.
Qed.

Lemma step_preserves_inv st ing : loop_inv st -> loop_inv (step st ing).
Proof.
  unfold loop_inv, step. intros Hinv.
  destruct (decide (norm_key ing ∈ seen st)); [done|]. cbn [seen result].
  rewrite map_app, list_to_set_app_L, Hinv. simpl. set_solver.
Qed.

Lemma fold_preserves_inv l st : loop_inv st -> loop_inv (fold_left step l st).
Proof.
  revert st. induction l as [|x l IH]; intros st Hst; simpl; [done|].
  by apply IH, step_preserves_inv.
Qed.

(** The kept lines have the keys of all the lines. *)
Lemma keys_dedup l k : k ∈ map norm_key (dedup_by norm_key l) <-> k ∈ map norm_key l.
Proof.
  rewrite !list_elem_of_In, !in_map_iff. split; intros (y & <- & Hy); apply list_elem_of_In in Hy.
  - exists y. split; [done|]. apply list_elem_of_In.
    by apply (sublist_subseteq (dedup_by norm_key l) l (dedup_by_sublist norm_key l)).
  - destruct (elem_of_dedup_by norm_key l y Hy) as (z & Hz & Hk). exists z.
    split; [done|]. by apply list_elem_of_In.
Qed.

(** ** Properties of [normalize_ingredients] *)

(** C11: the loop computes the reference: [normalize_ingredients] keeps a
    line exactly when no earlier line has the same key, in input order. *)
Theorem normalize_ingredients_reference l : normalize_ingredients l = dedup_by norm_key l.
Proof. apply normalize_dedup_rec. Qed.

(** C2: for every key [k], the output lines with key [k] are exactly the
    first input line with key [k], if there is one: one line per key that
    occurs, and it is the first occurrence, in its original casing. *)
Theorem normalize_first_occurrence l k :
  filter (fun y => norm_key y = k) (normalize_ingredients l)
  = take 1 (filter (fun y => norm_key y = k) l).
Proof. rewrite normalize_dedup_rec. apply dedup_by_key_filter. Qed.

(** C12: the loop invariant: after every prefix of the input, [seen] is
    exactly the set of keys of the lines kept in [result]. *)
Theorem normalize_loop_invariant l :
  seen (fold_left step l loop_init)
  = list_to_set (map norm_key (result (fold_left step l loop_init))).
Proof. apply fold_preserves_inv. unfold loop_inv. done. Qed.

(** C13: the output is a subsequence of the input (order kept, lines
    unchanged) and no two output lines share a key. *)
Theorem normalize_sublist_nodup l :
  normalize_ingredients l `sublist_of` l /\ NoDup (map norm_key (normalize_ingredients l)).
Proof. rewrite normalize_dedup_rec. split; [apply dedup_by_sublist|apply dedup_by_nodup]. Qed.

(** "Straße" with the Latin-1 sharp s (code point 223). *)
Definition strasse_lower : str := ⟪"Stra"⟫ ++ ["223"%char] ++ ⟪"e"⟫.

(** C28: one more input line is kept exactly when its key
    [line.lower().strip()] is new among the keys of the lines before it:
    lines that differ only in letter case or surrounding whitespace are
    merged, and any other line is appended. The key is [str.lower], not
    case folding, so "Straße" and "STRASSE" are both kept. *)
Theorem normalize_snoc l x :
  normalize_ingredients (l ++ [x])
  = normalize_ingredients l
    ++ (if bool_decide (strip (lower x) ∈ map (fun y => strip (lower y)) l) then [] else [x]).
Proof.
  change (fun y => strip (lower y)) with norm_key. change (strip (lower x)) with (norm_key x).
  unfold normalize_ingredients at 1. rewrite fold_left_app. cbn [fold_left].
  pose proof (fold_preserves_inv l loop_init eq_refl) as Hinv. unfold loop_inv in Hinv.
  pose proof (normalize_dedup_rec l) as Hr. unfold normalize_ingredients in Hr.
  set (st := fold_left step l loop_init) in *. unfold step.
  case_decide as Hin; rewrite Hinv, elem_of_list_to_set, Hr, keys_dedup in Hin; cbn [result];
    rewrite Hr, normalize_dedup_rec; case_bool_decide; try done.
  by rewrite app_nil_r.
Qed.

Example normalize_lower_not_casefold :
  normalize_ingredients [strasse_lower; ⟪"STRASSE"⟫] = [strasse_lower; ⟪"STRASSE"⟫].
Proof. vm_compute. reflexivity. Qed.

Example normalize_example :
  normalize_ingredients [⟪"Salt"⟫; ⟪"2 eggs"⟫; ⟪"  salt "⟫; ⟪"SALT"⟫; ⟪"2 Eggs"⟫]
  = [⟪"Salt"⟫; ⟪"2 eggs"⟫].
Proof. vm_compute. reflexivity. Qed.

End Normalize.
