(* ===== verification/Html.v ===== *)
(** * The BeautifulSoup queries the scraper uses

    The scraper parses every page with [BeautifulSoup(response.text,
    "html.parser")] and reads it through a handful of queries:
    [soup.find(name)], [soup.find(name, class_=c)], [soup.select(css)],
    [soup.select_one(css)], [tag.get_text(strip=True)], [tag["href"]]
    and [tag.get("src")]. BeautifulSoup is a library, so this file states
    what the scraper relies on as an interface, the class [HtmlQuery], and
    gives one implementation of it, [tree_query], over a document tree:
    the parser's theorems are proved against the interface, and the
    concrete documents of the witnesses are trees.

    The CSS selectors the code passes are modelled as the data type
    [selector] of the forms that occur in the source: a tag name
    (["img"], ["h1"]), a tag with a class (["li.ingredient"],
    ["time.prep"], [find("div", class_="type")]), a tag with an attribute
    (["a[href]"]) and the descendant combinator (["div.steps p"]).

    The tree is what [html.parser] builds: element names are lower case,
    attributes are kept in source order and a repeated attribute takes
    its last value (BeautifulSoup's default [on_duplicate_attribute]),
    and [class] is split on whitespace. Comments are nodes that
    [get_text] skips. The parsing of the HTML text itself is not
    modelled. *)

From S2P Require Import Prelude.

Module Html.

Inductive selector :=
  | SelTag (name : str)
  | SelClass (name cls : str)
  | SelAttr (name attr : str)
  | SelDescendant (anc sel : selector).

(** What the scraper needs from a parsed page. *)
Class HtmlQuery (Doc El : Type) := {
  (** [soup.select(css)]: the matching elements in document order. *)
  select : Doc -> selector -> list El;
  (** [tag.get_text(strip=True)] *)
  get_text : El -> str;
  (** [tag.get(name)], [None] when the attribute is absent *)
  get_attr : El -> str -> option str;
}.

(** What the scraper assumes of [get_text(strip=True)]: its result is
    stripped, as BeautifulSoup strips every string it joins. *)
Class HtmlQueryLaws (Doc El : Type) `{!HtmlQuery Doc El} := {
  get_text_stripped : forall el, strip (get_text el) = get_text el;
}.

(** [soup.select_one(css)], and [soup.find] for the same condition: the
    first match in document order, [None] when there is none. *)
Definition select_one {Doc El} `{!HtmlQuery Doc El} (d : Doc) (s : selector) : option El :=
  head (select d s).

(** ** The document tree *)

Inductive node :=
  | Element (name : str) (attrs : list (str * str)) (children : list node)
  | TextNode (s : str)
  | CommentNode (s : str).

(** The [BeautifulSoup] object: the top-level nodes of the page. *)
Abbreviation document := (list node).

(** The value of attribute [a]: the last one written. *)
Definition attr_lookup (attrs : list (str * str)) (a : str) : option str :=
  fold_left (fun acc kv => if decide (kv.1 = a) then Some kv.2 else acc) attrs None.

Definition node_attr (n : node) (a : str) : option str :=
  match n with
  | Element _ attrs _ => attr_lookup attrs a
  | _ => None
  end.

Definition node_name (n : node) : option str :=
  match n with Element name _ _ => Some name | _ => None end.

(** The class list of an element: its [class] attribute split on whitespace. *)
Definition classes (n : node) : list str :=
  match node_attr n ⟪"class"⟫ with Some v => split_ws v | None => [] end.

(** Every node of the page with its ancestors (nearest first), in
    document order. *)
Fixpoint with_ancestors (ancs : list node) (n : node) : list (list node * node) :=
  match n with
  | Element _ _ cs => (ancs, n) :: concat (map (with_ancestors (n :: ancs)) cs)
  | _ => [(ancs, n)]
  end.

Definition doc_nodes (d : document) : list (list node * node) :=
  concat (map (with_ancestors []) d).

Fixpoint any_ancestor (p : list node -> node -> bool) (ancs : list node) : bool :=
  match ancs with
  | [] => false
  | a :: rest => p rest a || any_ancestor p rest
  end.

Fixpoint sel_matches (s : selector) (ancs : list node) (n : node) : bool :=
  match s with
  | SelTag name => bool_decide (node_name n = Some name)
  | SelClass name cls =>
      bool_decide (node_name n = Some name) && bool_decide (cls ∈ classes n)
  | SelAttr name a =>
      bool_decide (node_name n = Some name) && bool_decide (is_Some (node_attr n a))
  | SelDescendant anc sel =>
      sel_matches sel ancs n && any_ancestor (sel_matches anc) ancs
  end.

Definition tree_select (d : document) (s : selector) : list node :=
  map snd (List.filter (fun an => sel_matches s an.1 an.2) (doc_nodes d)).

(** The strings of a node in document order, comments left out. *)
Fixpoint texts (n : node) : list str :=
  match n with
  | Element _ _ cs => concat (map texts cs)
  | TextNode s => [s]
  | CommentNode _ => []
  end.

(** [get_text(strip=True)]: every string stripped, the empty ones
    dropped, the rest joined with the empty separator. *)
Definition tree_get_text (n : node) : str :=
  concat (List.filter (fun s => negb (bool_decide (s = []))) (map strip (texts n))).

#[export] Instance tree_query : HtmlQuery document node := {|
  select := tree_select;
  get_text := tree_get_text;
  get_attr := node_attr;
|}.

Lemma tree_get_text_stripped n : strip (tree_get_text n) = tree_get_text n.
Proof.
  unfold tree_get_text. apply strip_concat, List.Forall_forall. intros p Hp.
  apply filter_In in Hp as [Hp Hne]. apply in_map_iff in Hp as (s & <- & _).
  split; [|apply strip_idem]. intros E. by rewrite E in Hne.
Qed.

#[export] Instance tree_query_laws : HtmlQueryLaws document node.
Proof. constructor. apply tree_get_text_stripped. Qed.

End Html.
