(* ===== verification/Url.v ===== *)
(** * [urllib.parse] and [os.path.basename] as the scripts use them

    [extract_recipe_links] and [parse_recipe] resolve every [href] and
    [src] with [urljoin(page_url, ref)]; [download_image] names a file
    [os.path.basename(urlparse(url).path)]. These are library functions;
    this file writes out CPython 3.12's algorithms for them ([urlsplit],
    [urlparse] with its [;params] split, [urlunsplit], [urlunparse],
    [urljoin] with the RFC 3986 removal of dot segments) so that the
    scripts' outputs can be computed and reasoned about.

    Not modelled: the NFKC check [_checknetloc] applies to hosts with
    non-ASCII characters and the validation of a bracketed IPv6 host; the
    only [ValueError] modelled is the unbalanced bracket.

    The lemmas follow [urljoin] stage by stage on an http(s) base and an
    absolute-path reference: [urlsplit_http] and [urlparse_http] for the
    base, [urlparse_abs_path] for the reference, [resolve_segments_plain]
    for the segment loop and [urlunparse_abs] for the result; C36 composes
    them. *)

From S2P Require Import Prelude.

Module Url.

Record split_result := mk_split {
  sr_scheme : str; sr_netloc : str; sr_path : str; sr_query : str; sr_fragment : str }.

Record parse_result := mk_parse {
  pr_scheme : str; pr_netloc : str; pr_path : str; pr_params : str;
  pr_query : str; pr_fragment : str }.

Definition schemes_of (l : list string) : list str := map lit l.

Definition uses_relative : list str := schemes_of
  [""; "ftp"; "http"; "gopher"; "nntp"; "imap"; "wais"; "file"; "https"; "shttp";
   "mms"; "prospero"; "rtsp"; "rtsps"; "rtspu"; "sftp"; "svn"; "svn+ssh"; "ws"; "wss"].

Definition uses_netloc : list str := schemes_of
  [""; "ftp"; "http"; "gopher"; "nntp"; "telnet"; "imap"; "wais"; "file"; "mms";
   "https"; "shttp"; "snews"; "prospero"; "rtsp"; "rtsps"; "rtspu"; "rsync"; "svn";
   "svn+ssh"; "sftp"; "nfs"; "git"; "git+ssh"; "ws"; "wss"; "itms-services"].

Definition uses_params : list str := schemes_of
  [""; "ftp"; "hdl"; "prospero"; "http"; "imap"; "https"; "shttp"; "rtsp"; "rtsps";
   "rtspu"; "sip"; "sips"; "mms"; "sftp"; "tel"].

(** [_WHATWG_C0_CONTROL_OR_SPACE]: code points 0 to 32. *)
Definition is_c0_or_space (c : ascii) : bool := code c <=? 32.

(** [_UNSAFE_URL_BYTES_TO_REMOVE]: tab, carriage return, line feed. *)
Definition is_unsafe (c : ascii) : bool := (code c =? 9) || (code c =? 13) || (code c =? 10).

Fixpoint lstrip_by (p : ascii -> bool) (s : str) : str :=
  match s with
  | [] => []
  | c :: s' => if p c then lstrip_by p s' else s
  end.

Definition strip_by (p : ascii -> bool) (s : str) : str :=
  reverse (lstrip_by p (reverse (lstrip_by p s))).

Definition remove_unsafe (s : str) : str := List.filter (fun c => negb (is_unsafe c)) s.

Definition is_ascii_alpha (c : ascii) : bool :=
  in_range 65 90 (code c) || in_range 97 122 (code c).

(** [scheme_chars]: ASCII letters, digits and [+-.]. *)
Definition is_scheme_char (c : ascii) : bool :=
  is_ascii_alpha c || in_range 48 57 (code c)
  || (code c =? 43) || (code c =? 45) || (code c =? 46).

(** The scheme part of [urlsplit]: [i = url.find(':')], [i > 0], the
    first character an ASCII letter and all of [url[:i]] scheme characters. *)
Definition split_scheme (url : str) : option (str * str) :=
  match find_index (fun c => bool_decide (c = ":"%char)) url, url with
  | Some (S i'), c :: _ =>
      if is_ascii_alpha c && forallb is_scheme_char (take (S i') url)
      then Some (lower (take (S i') url), drop (S (S i')) url)
      else None
  | _, _ => None
  end.

Definition is_netloc_delim (c : ascii) : bool :=
  bool_decide (c = "/"%char) || bool_decide (c = "?"%char) || bool_decide (c = "#"%char).

(** [_splitnetloc(url, 2)] *)
Definition split_netloc (url : str) : str * str :=
  let rest := drop 2 url in
  match find_index is_netloc_delim rest with
  | Some i => (take i rest, drop i rest)
  | None => (rest, [])
  end.

Definition has_char (c : ascii) (s : str) : bool := bool_decide (c ∈ s).

Definition urlsplit (url scheme : str) : result split_result :=
  let url := remove_unsafe (lstrip_by is_c0_or_space url) in
  let scheme := remove_unsafe (strip_by is_c0_or_space scheme) in
  let '(scheme, url) := match split_scheme url with
                        | Some p => p
                        | None => (scheme, url)
                        end in
  let '(netloc, url) := if prefixb ⟪"//"⟫ url then split_netloc url else ([], url) in
  if (has_char "["%char netloc && negb (has_char "]"%char netloc))
     || (has_char "]"%char netloc && negb (has_char "["%char netloc))
  then Err ValueError
  else
    let '(url, fragment) := match split_once "#"%char url with
                            | Some p => p | None => (url, []) end in
    let '(url, query) := match split_once "?"%char url with
                         | Some p => p | None => (url, []) end in
    Ok (mk_split scheme netloc url query fragment).

(** The index of the last character satisfying [p] ([str.rfind]). *)
Definition rfind_index (p : ascii -> bool) (s : str) : option nat :=
  (fun i => length s - S i) <$> find_index p (reverse s).

(** [_splitparams]: cut at the first [;] after the last [/]. *)
Definition split_params (url : str) : str * str :=
  let semi := fun c => bool_decide (c = ";"%char) in
  match rfind_index (fun c => bool_decide (c = "/"%char)) url with
  | Some j =>
      match find_index semi (drop j url) with
      | Some i => (take (j + i) url, drop (S (j + i)) url)
      | None => (url, [])
      end
  | None =>
      match find_index semi url with
      | Some i => (take i url, drop (S i) url)
      | None => (url, [])
      end
  end.

Definition urlparse (url scheme : str) : result parse_result :=
  sr <- urlsplit url scheme ;;
  let '(path, params) :=
    if bool_decide (sr_scheme sr ∈ uses_params) && has_char ";"%char (sr_path sr)
    then split_params (sr_path sr) else (sr_path sr, []) in
  Ok (mk_parse (sr_scheme sr) (sr_netloc sr) path params (sr_query sr) (sr_fragment sr)).

Definition urlunsplit (scheme netloc url query fragment : str) : str :=
  let url :=
    if bool_decide (netloc <> []) then
      let url := if bool_decide (url <> []) && negb (prefixb ⟪"/"⟫ url)
                 then ⟪"/"⟫ ++ url else url in
      ⟪"//"⟫ ++ netloc ++ url
    else if prefixb ⟪"//"⟫ url then ⟪"//"⟫ ++ url
    else if bool_decide (scheme <> []) && bool_decide (scheme ∈ uses_netloc)
            && (bool_decide (url = []) || prefixb ⟪"/"⟫ url)
    then ⟪"//"⟫ ++ url
    else url in
  let url := if bool_decide (scheme <> []) then scheme ++ ⟪":"⟫ ++ url else url in
  let url := if bool_decide (query <> []) then url ++ ⟪"?"⟫ ++ query else url in
  if bool_decide (fragment <> []) then url ++ ⟪"#"⟫ ++ fragment else url.

Definition urlunparse (scheme netloc url params query fragment : str) : str :=
  let url := if bool_decide (params <> []) then url ++ ⟪";"⟫ ++ params else url in
  urlunsplit scheme netloc url query fragment.

(** [segments[1:-1] = filter(None, segments[1:-1])] *)
Definition filter_middle (segs : list str) : list str :=
  match segs with
  | [] | [_] => segs
  | x :: rest =>
      x :: List.filter (fun s => bool_decide (s <> [])) (removelast rest)
        ++ [default [] (last rest)]
  end.

(** The [for seg in segments] loop; [stack] is [resolved_path] reversed. *)
Fixpoint resolve_segments (stack : list str) (segs : list str) : list str :=
  match segs with
  | [] => stack
  | seg :: segs' =>
      if bool_decide (seg = ⟪".."⟫) then resolve_segments (tail stack) segs'
      else if bool_decide (seg = ⟪"."⟫) then resolve_segments stack segs'
      else resolve_segments (seg :: stack) segs'
  end.

Definition urljoin (base url : str) : result str :=
  if bool_decide (base = []) then Ok url
  else if bool_decide (url = []) then Ok base
  else
    b <- urlparse base [] ;;
    u <- urlparse url (pr_scheme b) ;;
    let scheme := pr_scheme u in
    if bool_decide (scheme <> pr_scheme b) || negb (bool_decide (scheme ∈ uses_relative))
    then Ok url
    else if bool_decide (scheme ∈ uses_netloc) && bool_decide (pr_netloc u <> [])
    then Ok (urlunparse scheme (pr_netloc u) (pr_path u) (pr_params u) (pr_query u)
                       (pr_fragment u))
    else
      let netloc := if bool_decide (scheme ∈ uses_netloc) then pr_netloc b else pr_netloc u in
      if bool_decide (pr_path u = []) && bool_decide (pr_params u = []) then
        let query := if bool_decide (pr_query u = []) then pr_query b else pr_query u in
        Ok (urlunparse scheme netloc (pr_path b) (pr_params b) query (pr_fragment u))
      else
        let base_parts := split_on "/"%char (pr_path b) in
        let base_parts := if bool_decide (last base_parts = Some [])
                          then base_parts else removelast base_parts in
        let segments :=
          if prefixb ⟪"/"⟫ (pr_path u) then split_on "/"%char (pr_path u)
          else filter_middle (base_parts ++ split_on "/"%char (pr_path u)) in
        let resolved := reverse (resolve_segments [] segments) in
        let resolved :=
          if bool_decide (last segments = Some ⟪"."⟫) || bool_decide (last segments = Some ⟪".."⟫)
          then resolved ++ [[]] else resolved in
        let path := join ⟪"/"⟫ resolved in
        let path := if bool_decide (path = []) then ⟪"/"⟫ else path in
        Ok (urlunparse scheme netloc path (pr_params u) (pr_query u) (pr_fragment u)).

(** [os.path.basename]: the text after the last [/]. *)
Definition basename (p : str) : str :=
  match rfind_index (fun c => bool_decide (c = "/"%char)) p with
  | Some i => drop (S i) p
  | None => p
  end.

(** ** Well-formed parts of a URL *)

(** The schemes the pages use. *)
Definition http_scheme (sch : str) : Prop := sch = ⟪"http"⟫ \/ sch = ⟪"https"⟫.

(** A host character: kept by [urlsplit], ending no netloc, no bracket. *)
Definition host_char (c : ascii) : bool :=
  negb (is_unsafe c || is_netloc_delim c || bool_decide (c = "["%char) || bool_decide (c = "]"%char)).

(** A path character: kept by [urlsplit], starting no query, fragment or parameters. *)
Definition path_char (c : ascii) : bool :=
  negb (is_unsafe c || bool_decide (c = "?"%char) || bool_decide (c = "#"%char)
        || bool_decide (c = ";"%char)).

Definition dot_segment (seg : str) : bool := bool_decide (seg = ⟪"."⟫) || bool_decide (seg = ⟪".."⟫).

(** ** Lemmas *)

(** The text after the last [/] has no [/]. *)
Lemma basename_no_slash p : "/"%char ∉ basename p.
Proof.
  unfold basename, rfind_index.
  destruct (find_index (fun c => bool_decide (c = "/"%char)) (reverse p)) as [i|] eqn:E; simpl.
  - apply find_index_some in E as [Hi Hf]. rewrite length_reverse in Hi.
    assert (drop (S (length p - S i)) p = reverse (take i (reverse p))) as ->.
    { set (rp := reverse p).
      assert (p = reverse (drop i rp) ++ reverse (take i rp)) as Hp.
      { rewrite <- reverse_app, take_drop. subst rp. by rewrite reverse_involutive. }
      rewrite Hp at 2. apply drop_app_length'.
      rewrite length_reverse, length_drop. subst rp. rewrite length_reverse. lia. }
    intros Hin. rewrite <- Forall_reverse, Forall_forall in Hf.
    specialize (Hf _ Hin). by rewrite bool_decide_true in Hf.
  - apply find_index_none in E. rewrite Forall_reverse, Forall_forall in E.
    intros Hin. specialize (E _ Hin). by rewrite bool_decide_true in E.
Qed.

Lemma host_char_spec c :
  host_char c = true ->
  is_unsafe c = false /\ is_netloc_delim c = false /\ c <> "["%char /\ c <> "]"%char.
Proof.
  unfold host_char. rewrite negb_true_iff. intros H. py_bools.
  rewrite !bool_decide_eq_false in *. tauto.
Qed.

Lemma path_char_spec c :
  path_char c = true ->
  is_unsafe c = false /\ c <> "?"%char /\ c <> "#"%char /\ c <> ";"%char.
Proof.
  unfold path_char. rewrite negb_true_iff. intros H. py_bools.
  rewrite !bool_decide_eq_false in *. tauto.
Qed.

Lemma remove_unsafe_app s1 s2 : remove_unsafe (s1 ++ s2) = remove_unsafe s1 ++ remove_unsafe s2.
Proof. apply List.filter_app. Qed.

Lemma remove_unsafe_id s : Forall (fun c => is_unsafe c = false) s -> remove_unsafe s = s.
Proof. induction 1 as [|c s Hc _ IH]; [done|]. unfold remove_unsafe in *. simpl. by rewrite Hc, IH. Qed.

Lemma has_char_false x s : Forall (fun c => c <> x) s -> has_char x s = false.
Proof.
  intros H. apply bool_decide_eq_false. intros Hin.
  by apply (proj1 (Forall_forall _ _) H) in Hin.
Qed.

Lemma prefixb_app p s : prefixb p (p ++ s) = true.
Proof. induction p as [|a p IH]; [done|]. simpl. by rewrite bool_decide_true. Qed.

(** The fixed parts of an http(s) URL, by evaluation. *)
Lemma http_lstrip sch rest : http_scheme sch -> lstrip_by is_c0_or_space (sch ++ rest) = sch ++ rest.
Proof. by intros [-> | ->]. Qed.

Lemma http_remove_unsafe sch : http_scheme sch -> remove_unsafe sch = sch /\ remove_unsafe ⟪"://"⟫ = ⟪"://"⟫.
Proof. by intros [-> | ->]. Qed.

Lemma http_scheme_arg sch : http_scheme sch -> remove_unsafe (strip_by is_c0_or_space sch) = sch.
Proof. by intros [-> | ->]. Qed.

Lemma http_split_scheme sch rest :
  http_scheme sch -> split_scheme (sch ++ ⟪"://"⟫ ++ rest) = Some (sch, ⟪"//"⟫ ++ rest).
Proof. intros [-> | ->]; vm_compute; reflexivity. Qed.

Lemma http_scheme_sets sch :
  http_scheme sch -> sch ∈ uses_relative /\ sch ∈ uses_netloc /\ sch ∈ uses_params /\ sch <> [].
Proof. intros [-> | ->]; split_and!; (decide_closed || discriminate). Qed.

(** [_splitnetloc] of [//host rest] when [rest] is empty or starts a path, query or fragment. *)
Lemma split_netloc_host net bp :
  Forall (fun c => is_netloc_delim c = false) net ->
  (bp = [] \/ exists c bp', bp = c :: bp' /\ is_netloc_delim c = true) ->
  split_netloc (⟪"//"⟫ ++ net ++ bp) = (net, bp).
Proof.
  intros Hnet Hbp. unfold split_netloc. cbv zeta.
  replace (drop 2 (⟪"//"⟫ ++ net ++ bp)) with (net ++ bp) by reflexivity.
  rewrite find_index_app_miss by done.
  destruct Hbp as [->|(c & bp' & -> & Hc)]; simpl.
  - by rewrite app_nil_r.
  - rewrite Hc. simpl. by rewrite Nat.add_0_r, take_app_length, drop_app_length.
Qed.

(** [urlsplit] of an http(s) URL with a well-formed host. *)
Lemma urlsplit_http sch net bp :
  http_scheme sch -> Forall (fun c => host_char c = true) net ->
  Forall (fun c => is_unsafe c = false) bp ->
  (bp = [] \/ exists c bp', bp = c :: bp' /\ is_netloc_delim c = true) ->
  exists p q fr, urlsplit (sch ++ ⟪"://"⟫ ++ net ++ bp) [] = Ok (mk_split sch net p q fr).
Proof.
  intros Hsch Hnet Hu Hbp.
  assert (Forall (fun c => is_unsafe c = false) net /\ Forall (fun c => is_netloc_delim c = false) net
          /\ Forall (fun c => c <> "["%char) net /\ Forall (fun c => c <> "]"%char) net)
    as (Hn1 & Hn2 & Hn3 & Hn4).
  { rewrite <- !Forall_and. eapply Forall_impl; [exact Hnet|]. intros c Hc.
    destruct (host_char_spec c Hc) as (? & ? & ? & ?). done. }
  destruct (http_remove_unsafe sch Hsch) as [Hr1 Hr2].
  unfold urlsplit. rewrite http_lstrip, !remove_unsafe_app, Hr1, Hr2, !remove_unsafe_id by done.
  rewrite http_split_scheme by done. cbv beta iota zeta.
  rewrite prefixb_app, split_netloc_host by done. cbv beta iota zeta.
  rewrite !has_char_false by done. cbv beta iota zeta.
  destruct (split_once "#"%char bp) as [[u fr]|];
    [destruct (split_once "?"%char u) as [[p q]|]|destruct (split_once "?"%char bp) as [[p q]|]];
    eexists _, _, _; reflexivity.
Qed.

Lemma split_once_absent x s : Forall (fun c => c <> x) s -> split_once x s = None.
Proof.
  intros H. unfold split_once. rewrite find_index_all_false; [done|].
  eapply Forall_impl; [exact H|]. intros c Hc. by apply bool_decide_eq_false.
Qed.

(** A path has no scheme. *)
Lemma split_scheme_slash p : split_scheme ("/"%char :: p) = None.
Proof. unfold split_scheme. by destruct (find_index _ _) as [[|]|]. Qed.

(** [urlparse] of an absolute path: no scheme, netloc, parameters, query
    or fragment; the default scheme is kept. *)
Lemma urlparse_abs_path sch p :
  http_scheme sch -> prefixb ⟪"/"⟫ p = false -> Forall (fun c => path_char c = true) p ->
  urlparse ("/"%char :: p) [] = Ok (mk_parse [] [] ("/"%char :: p) [] [] [])
  /\ urlparse ("/"%char :: p) sch = Ok (mk_parse sch [] ("/"%char :: p) [] [] []).
Proof.
  intros Hsch Hp Hc.
  assert (Forall (fun c => path_char c = true) ("/"%char :: p)) as Hc' by (constructor; done).
  assert (Forall (fun c => is_unsafe c = false) ("/"%char :: p) /\ Forall (fun c => c <> "?"%char) ("/"%char :: p)
          /\ Forall (fun c => c <> "#"%char) ("/"%char :: p) /\ Forall (fun c => c <> ";"%char) ("/"%char :: p))
    as (H1 & H2 & H3 & H4).
  { rewrite <- !Forall_and. eapply Forall_impl; [exact Hc'|]. intros c Hx.
    destruct (path_char_spec c Hx) as (? & ? & ? & ?). done. }
  assert (prefixb ⟪"//"⟫ ("/"%char :: p) = false) as Hpp.
  { destruct p as [|a p]; [done|]. simpl in Hp |- *. by rewrite Hp. }
  assert (forall s0, remove_unsafe (strip_by is_c0_or_space s0) = s0 ->
            urlparse ("/"%char :: p) s0 = Ok (mk_parse s0 [] ("/"%char :: p) [] [] [])) as Hgen.
  { intros s0 Hs0. unfold urlparse, urlsplit.
    change (lstrip_by is_c0_or_space ("/"%char :: p)) with ("/"%char :: p).
    rewrite remove_unsafe_id, Hs0 by done.
    rewrite split_scheme_slash. cbv beta iota zeta.
    rewrite Hpp, !split_once_absent by done. cbv beta iota zeta.
    change (has_char "["%char []) with false; change (has_char "]"%char []) with false.
    cbn [andb orb negb rbind sr_scheme sr_path].
    by rewrite has_char_false, andb_false_r. }
  split; apply Hgen; [done|]. by apply http_scheme_arg.
Qed.

(** Segments with no [.] or [..] are kept, in order. *)
Lemma resolve_segments_plain stack segs :
  Forall (fun seg => dot_segment seg = false) segs ->
  resolve_segments stack segs = reverse segs ++ stack.
Proof.
  intros H. revert stack. induction H as [|seg segs Hs _ IH]; intros stack; [done|].
  unfold dot_segment in Hs. apply orb_false_elim in Hs as [Hd Hdd]. simpl.
  rewrite Hdd, Hd, IH, reverse_cons. by rewrite <- app_assoc.
Qed.

Lemma last_plain segs :
  Forall (fun seg => dot_segment seg = false) segs ->
  bool_decide (last segs = Some ⟪"."⟫) || bool_decide (last segs = Some ⟪".."⟫) = false.
Proof.
  intros H. destruct (last segs) as [x|] eqn:E; [|done].
  apply last_Some_elem_of in E. rewrite Forall_forall in H. specialize (H x E).
  unfold dot_segment in H. apply orb_false_elim in H as [Hd Hdd].
  apply bool_decide_eq_false in Hd, Hdd. apply orb_false_intro; apply bool_decide_eq_false; congruence.
Qed.

Lemma urlparse_http sch net bp :
  http_scheme sch -> Forall (fun c => host_char c = true) net ->
  Forall (fun c => is_unsafe c = false) bp ->
  (bp = [] \/ exists c bp', bp = c :: bp' /\ is_netloc_delim c = true) ->
  exists p pa q fr, urlparse (sch ++ ⟪"://"⟫ ++ net ++ bp) [] = Ok (mk_parse sch net p pa q fr).
Proof.
  intros Hsch Hnet Hu Hbp. destruct (urlsplit_http sch net bp) as (p & q & fr & E); [done..|].
  unfold urlparse. rewrite E. cbn [rbind sr_scheme sr_path sr_netloc sr_query sr_fragment].
  destruct (_ && _); [destruct (split_params p)|]; by eexists _, _, _, _.
Qed.

(** [urlunparse] of a scheme, a host and an absolute path. *)
Lemma urlunparse_abs sch net p :
  sch <> [] -> net <> [] ->
  urlunparse sch net ("/"%char :: p) [] [] [] = sch ++ ⟪"://"⟫ ++ net ++ "/"%char :: p.
Proof.
  intros Hs Hn. unfold urlunparse, urlunsplit.
  rewrite (bool_decide_eq_false_2 ([] <> [])) by tauto.
  rewrite (bool_decide_eq_true_2 (net <> [])), (bool_decide_eq_true_2 (sch <> [])) by done.
  change (prefixb ⟪"/"⟫ ("/"%char :: p)) with true. rewrite andb_false_r. done.
Qed.

(** ** Properties *)

(** C36: [urljoin] resolves an href or [src] that is an absolute path
    against an http(s) page URL to the page's scheme and host followed by
    that path, unchanged: the host contains no character that [urlsplit]
    drops or that ends a netloc, nor brackets, the page URL's text after
    the host is empty or starts its path, query or fragment, and the path
    starts with one [/], has no [?], [#], [;] or dropped character, and no
    [.] or [..] segment. So recipe links and photo URLs given as
    [/recipe/1] stay on the host of the page that lists them. *)
Theorem urljoin_absolute_path sch net bp p :
  http_scheme sch -> net <> [] -> Forall (fun c => host_char c = true) net ->
  Forall (fun c => is_unsafe c = false) bp ->
  (bp = [] \/ exists c bp', bp = c :: bp' /\ is_netloc_delim c = true) ->
  prefixb ⟪"/"⟫ p = false -> Forall (fun c => path_char c = true) p ->
  Forall (fun seg => dot_segment seg = false) (split_on "/"%char ("/"%char :: p)) ->
  urljoin (sch ++ ⟪"://"⟫ ++ net ++ bp) ("/"%char :: p) = Ok (sch ++ ⟪"://"⟫ ++ net ++ "/"%char :: p).
Proof.
  intros Hsch Hn Hnet Hu Hbp Hp Hc Hseg.
  destruct (http_scheme_sets sch Hsch) as (Hrel & Hnl & _ & Hs).
  destruct (urlparse_http sch net bp Hsch Hnet Hu Hbp) as (bpath & bpa & bq & bfr & Eb).
  destruct (urlparse_abs_path sch p Hsch Hp Hc) as [_ Eu].
  unfold urljoin.
  rewrite (bool_decide_eq_false_2 (sch ++ _ = [])) by (intros E; apply app_eq_nil in E; tauto).
  rewrite Eb. cbn [rbind pr_scheme]. rewrite Eu. cbn [rbind pr_scheme pr_netloc pr_path pr_params].
  rewrite (bool_decide_eq_false_2 (sch <> sch)), (bool_decide_eq_true_2 (sch ∈ uses_relative)),
    (bool_decide_eq_true_2 (sch ∈ uses_netloc)), (bool_decide_eq_false_2 ([] <> [])) by tauto.
  cbn [andb orb negb]. cbv zeta.
  change (prefixb ⟪"/"⟫ ("/"%char :: p)) with true. cbv beta iota.
  rewrite resolve_segments_plain, app_nil_r, reverse_involutive, last_plain by done.
  replace (join ⟪"/"⟫ (split_on "/"%char ("/"%char :: p))) with ("/"%char :: p)
    by exact (eq_sym (join_split_on _ _)).
  rewrite (bool_decide_eq_false_2 ("/"%char :: p = [])) by done.
  by rewrite urlunparse_abs.
Qed.

(** ** Witnesses *)

Lemma urljoin_absolute_path_witness :
  urljoin ⟪"https://x.test/a/"⟫ ⟪"/recipe/1"⟫ = Ok ⟪"https://x.test/recipe/1"⟫.
Proof.
  exact (urljoin_absolute_path ⟪"https"⟫ ⟪"x.test"⟫ ⟪"/a/"⟫ ⟪"recipe/1"⟫ (or_intror eq_refl)
           ltac:(discriminate) ltac:(vm_compute; repeat constructor)
           ltac:(vm_compute; repeat constructor) ltac:(right; eexists _, _; split; reflexivity)
           eq_refl ltac:(vm_compute; repeat constructor) ltac:(vm_compute; repeat constructor)).
Defined.

End Url.
