(* ===== verification/Session.v ===== *)
(** * The HTTP session (src/scrape_recipes.py, lines 12-26)

    The scraper's module-level [session] mounts an [HTTPAdapter] with
    [Retry(total=3, backoff_factor=1, status_forcelist=[429, 500, 502,
    503, 504, 403])] for http and https. Every [session.get] then runs
    urllib3's retry loop ([urlopen] with [Retry.increment] and
    [Retry.sleep]), which is [retry_loop] here.

    - An attempt receives an [outcome]: a response (status, the value of
      its [Retry-After] header as [parse_retry_after] reads it, body) or
      no response at all (refused, reset, timed out).
    - [Retry.is_retry] retries a listed status, and also a 413, 429 or
      503 carrying [Retry-After] while retries remain
      ([RETRY_AFTER_STATUS_CODES], [respect_retry_after_header=True]).
    - A retry decrements [total]; a retry with [total] at 0 exhausts the
      budget: [MaxRetryError], which requests raises as [RetryError] for
      a status and as [ConnectionError] when no response came.
    - Before the next attempt urllib3 sleeps ([Retry.sleep]): the
      [Retry-After] seconds when the retried response has a positive
      one, else the backoff [backoff_factor * 2 ** (n - 1)] after the
      [n]-th failure (none after the first, at most 120 s).

    The sleeps are recorded as numbers of seconds. Not modelled: a
    [Retry-After] value that does not parse ([InvalidHeader]),
    redirects (requests follows them outside the retry loop), and the
    [User-Agent] header, which changes no behaviour the script sees. *)

From S2P Require Import Prelude.

Module Session.

Inductive outcome :=
  | Response (status : Z) (retry_after : option nat) (body : str)
  | NoResponse.

Record response := mk_response { status_code : Z; text : str }.

Definition retry_total : nat := 3.
Definition backoff_factor : nat := 1.
Definition status_forcelist : list Z := [429; 500; 502; 503; 504; 403]%Z.

(** [Retry.RETRY_AFTER_STATUS_CODES] *)
Definition retry_after_statuses : list Z := [413; 429; 503]%Z.

(** [Retry.get_backoff_time] after [n] failed attempts: no sleep after
    the first, then [backoff_factor * 2 ** (n - 1)], at most 120. *)
Definition backoff_time (n : nat) : nat :=
  if n <=? 1 then 0 else Nat.min 120 (backoff_factor * 2 ^ (n - 1)).

(** [Retry.is_retry("GET", status, has_retry_after)] with [left] the
    remaining [total]. *)
Definition is_retry (st : Z) (has_retry_after : bool) (left : nat) : bool :=
  bool_decide (st ∈ status_forcelist)
  || (bool_decide (left <> 0) && has_retry_after && bool_decide (st ∈ retry_after_statuses)).

(** [Retry.sleep(response)] after the [n]-th failure: [sleep_for_retry]
    when the [Retry-After] value is positive, else [_sleep_backoff]. *)
Definition retry_sleep (retry_after : option nat) (n : nat) : nat :=
  match retry_after with
  | Some s => if s =? 0 then backoff_time n else s
  | None => backoff_time n
  end.

(** The request loop: attempt [k] of the call, [total] retries left. *)
Fixpoint retry_loop (srv : nat -> outcome) (k : nat) (total : nat)
  : result response * list nat :=
  match srv k with
  | Response st ra body =>
      if is_retry st (bool_decide (is_Some ra)) total then
        match total with
        | O => (Err RetryError, [])
        | S t => let '(r, sl) := retry_loop srv (S k) t in (r, retry_sleep ra (S k) :: sl)
        end
      else (Ok (mk_response st body), [])
  | NoResponse =>
      match total with
      | O => (Err ConnectionError, [])
      | S t => let '(r, sl) := retry_loop srv (S k) t in (r, backoff_time (S k) :: sl)
      end
  end.

(** [response.raise_for_status()] *)
Definition raise_for_status (r : response) : result unit :=
  if bool_decide (400 <= status_code r < 600)%Z then Err (HTTPError (status_code r))
  else Ok tt.

(** ** The loop, one attempt at a time *)

(** An outcome the session retries with [left] retries remaining. *)
Definition transient (o : outcome) (left : nat) : bool :=
  match o with
  | NoResponse => true
  | Response st ra _ => is_retry st (bool_decide (is_Some ra)) left
  end.

(** The sleep that follows a retried outcome, after the [n]-th failure. *)
Definition sleep_of (o : outcome) (n : nat) : nat :=
  match o with
  | Response _ ra _ => retry_sleep ra n
  | NoResponse => backoff_time n
  end.

Definition retry_after_of (o : outcome) : option nat :=
  match o with Response _ ra _ => ra | NoResponse => None end.

(** What an exhausted budget raises, by the last outcome. *)
Definition exhausted_error (o : outcome) : exn :=
  match o with NoResponse => ConnectionError | Response _ _ _ => RetryError end.

Lemma retry_loop_unfold srv k t :
  retry_loop srv k t =
  if transient (srv k) t then
    match t with
    | O => (Err (exhausted_error (srv k)), [])
    | S t' => (fst (retry_loop srv (S k) t'), sleep_of (srv k) (S k) :: snd (retry_loop srv (S k) t'))
    end
  else match srv k with
       | Response st _ body => (Ok (mk_response st body), [])
       | NoResponse => (Err ConnectionError, [])
       end.
Proof.
  destruct t as [|t]; simpl; destruct (srv k) as [st ra body|]; simpl;
    [destruct (is_retry st (bool_decide (is_Some ra)) 0)| |
     destruct (is_retry st (bool_decide (is_Some ra)) (S t))|]; try done;
    by destruct (retry_loop srv (S k) t).
Qed.

(** The sleeps are those of the retried attempts, in order, at most [t]. *)
Lemma retry_loop_sleeps srv k t :
  snd (retry_loop srv k t) `prefix_of` map (fun i => sleep_of (srv (k + i)) (S (k + i))) (seq 0 t).
Proof.
  revert k. induction t as [|t IH]; intros k; rewrite retry_loop_unfold.
  - destruct (transient (srv k) 0); [done|]. destruct (srv k); apply prefix_nil.
  - destruct (transient (srv k) (S t)); simpl.
    + rewrite Nat.add_0_r. apply prefix_cons. rewrite <- seq_shift, map_map.
      replace (map (fun i => sleep_of (srv (k + S i)) (S (k + S i))) (seq 0 t))
        with (map (fun i => sleep_of (srv (S k + i)) (S (S k + i))) (seq 0 t))
        by (apply map_ext; intros i; by replace (k + S i) with (S k + i) by lia).
      apply IH.
    + destruct (srv k); apply prefix_nil.
Qed.

Lemma retry_loop_ok srv k t r :
  fst (retry_loop srv k t) = Ok r <->
  exists j ra, j <= t /\ (forall i, i < j -> transient (srv (k + i)) (t - i) = true)
    /\ srv (k + j) = Response (status_code r) ra (text r) /\ transient (srv (k + j)) (t - j) = false.
Proof.
  revert k. induction t as [|t IH]; intros k; rewrite retry_loop_unfold.
  - destruct (transient (srv k) 0) eqn:Ht.
    + split; [done|]. intros (j & ra & Hj & _ & _ & Hn). assert (j = 0) as -> by lia.
      rewrite Nat.add_0_r, Nat.sub_0_r in Hn. congruence.
    + destruct (srv k) as [st ra body|] eqn:Hk; simpl; [|done]. split.
      * intros [= <-]. exists 0, ra. rewrite Nat.add_0_r, Hk. split_and!; [lia|lia|done|done].
      * intros (j & ra' & Hj & _ & Hr & _). assert (j = 0) as -> by lia.
        rewrite Nat.add_0_r, Hk in Hr. injection Hr as -> _ ->. by destruct r.
  - destruct (transient (srv k) (S t)) eqn:Ht; simpl.
    + rewrite IH. split.
      * intros (j & ra & Hj & Hi & Hr & Hn). exists (S j), ra.
        replace (k + S j) with (S k + j) by lia. split_and!; [lia| |done|done].
        intros [|i] Hlt; [by rewrite Nat.add_0_r, Nat.sub_0_r|].
        replace (k + S i) with (S k + i) by lia. apply Hi. lia.
      * intros (j & ra & Hj & Hi & Hr & Hn). destruct j as [|j].
        { rewrite Nat.add_0_r in Hn. replace (S t - 0) with (S t) in Hn by lia. congruence. }
        exists j, ra. replace (k + S j) with (S k + j) in Hr, Hn by lia.
        split_and!; [lia| |done|done].
        intros i Hlt. replace (S k + i) with (k + S i) by lia.
        replace (t - i) with (S t - S i) by lia. apply Hi. lia.
    + destruct (srv k) as [st ra body|] eqn:Hk; simpl; [|done]. split.
      * intros [= <-]. exists 0, ra. rewrite Nat.add_0_r, Hk.
        split_and!; [lia|lia|done|by replace (S t - 0) with (S t) by lia].
      * intros (j & ra' & Hj & Hi & Hr & _). destruct j as [|j].
        -- rewrite Nat.add_0_r, Hk in Hr. injection Hr as -> _ ->. by destruct r.
        -- specialize (Hi 0 ltac:(lia)). rewrite Nat.add_0_r in Hi.
           replace (S t - 0) with (S t) in Hi by lia. congruence.
Qed.

Lemma retry_loop_exhausted srv k t :
  (forall i, i <= t -> transient (srv (k + i)) (t - i) = true) ->
  fst (retry_loop srv k t) = Err (exhausted_error (srv (k + t))).
Proof.
  revert k. induction t as [|t IH]; intros k Hi; rewrite retry_loop_unfold;
    pose proof (Hi 0 ltac:(lia)) as H0; rewrite Nat.add_0_r, Nat.sub_0_r in H0; rewrite H0.
  - by rewrite Nat.add_0_r.
  - simpl.
    rewrite IH; [by replace (S k + t) with (k + S t) by lia|]. intros i Hle.
    replace (S k + i) with (k + S i) by lia. replace (t - i) with (S t - S i) by lia.
    apply Hi. lia.
Qed.

(** The loop reads the outcomes of attempts [k] to [k + t] only. *)
Lemma retry_loop_agree srv srv' k t :
  (forall i, i <= t -> srv' (k + i) = srv (k + i)) -> retry_loop srv' k t = retry_loop srv k t.
Proof.
  revert k. induction t as [|t IH]; intros k Hi; rewrite !(retry_loop_unfold _ k);
    pose proof (Hi 0 ltac:(lia)) as H0; rewrite Nat.add_0_r in H0; rewrite H0; [done|].
  rewrite IH; [done|]. intros i Hle. replace (S k + i) with (k + S i) by lia. apply Hi. lia.
Qed.

(** Without [Retry-After], a retried outcome is followed by the backoff. *)
Lemma sleep_of_backoff o n : retry_after_of o = None -> sleep_of o n = backoff_time n.
Proof. destruct o as [st [s|] body|]; by simpl. Qed.

End Session.
