(* ===== verification/Csv.v ===== *)
(** * The [csv] module's writer, and the reader of its dialect

    [main] opens [recipes.csv] with [newline=""] and writes it through
    [csv.writer(csvfile)], the [excel] dialect: comma delimiter, the
    double quote as quote character with [doublequote=True],
    [QUOTE_MINIMAL] and the line terminator CRLF. [csv_row] is
    [writer.writerow] as CPython's [_csv.c] writes a row: a field with a
    delimiter, a quote or a line break is quoted and its quotes doubled,
    the fields are joined by commas, and a row whose only field is empty
    is written as two quotes, so that it does not read back as a blank
    line.

    The repository never reads the file back; [read_rows] is the reading
    side of the same dialect, the state machine of [_csv.c]'s
    [parse_process_char] ([strict=False]) run over the whole file, with
    CRLF, a lone CR or a lone LF ending a record as the line iteration
    of a file opened with [newline=""] does. The round trip shows the
    writer's output is read back as exactly the rows written. *)

From S2P Require Import Prelude.

Module Csv.

Definition newline : ascii := "010"%char.
Definition carriage_return : ascii := "013"%char.
Definition dquote : ascii := "034"%char.
Definition comma : ascii := ","%char.

(** The characters that make [QUOTE_MINIMAL] quote a field. *)
Definition csv_special (c : ascii) : bool :=
  bool_decide (c = comma) || bool_decide (c = dquote)
  || bool_decide (c = carriage_return) || bool_decide (c = newline).

(** A quote inside a quoted field is doubled ([doublequote=True]). *)
Definition escape_char (c : ascii) : str := if bool_decide (c = dquote) then [c; c] else [c].

Definition quote_field (f : str) : str := [dquote] ++ concat (map escape_char f) ++ [dquote].

Definition csv_field (f : str) : str := if existsb csv_special f then quote_field f else f.

Definition crlf : str := [carriage_return; newline].

(** [writer.writerow(fields)] *)
Definition csv_row (fields : list str) : str :=
  match fields with
  | [[]] => quote_field [] ++ crlf
  | _ => join [comma] (map csv_field fields) ++ crlf
  end.

(** ** The reader *)

Inductive rstate := StartRecord | StartField | InField | InQuoted | QuoteInQuoted | EatCrnl.

(** What one character does: the records it completes, the next state,
    the fields of the record so far and the field being read. *)
Record action := mk_action { emitted : list (list str); next : rstate; arow : list str; afld : str }.

Definition start_field (row : list str) (c : ascii) : action :=
  if bool_decide (c = carriage_return) then mk_action [] EatCrnl (row ++ [[]]) []
  else if bool_decide (c = newline) then mk_action [row ++ [[]]] StartRecord [] []
  else if bool_decide (c = dquote) then mk_action [] InQuoted row []
  else if bool_decide (c = comma) then mk_action [] StartField (row ++ [[]]) []
  else mk_action [] InField row [c].

Definition start_record (c : ascii) : action :=
  if bool_decide (c = carriage_return) then mk_action [] EatCrnl [] []
  else if bool_decide (c = newline) then mk_action [[]] StartRecord [] []
  else start_field [] c.

(** The end of a field outside quotes: a delimiter or a line end. *)
Definition end_field (row : list str) (fld : str) (c : ascii) (other : action) : action :=
  if bool_decide (c = comma) then mk_action [] StartField (row ++ [fld]) []
  else if bool_decide (c = carriage_return) then mk_action [] EatCrnl (row ++ [fld]) []
  else if bool_decide (c = newline) then mk_action [row ++ [fld]] StartRecord [] []
  else other.

(** [parse_process_char]; in [EatCrnl] the record is complete and held
    in [row] until the line ends. *)
Definition csv_step (st : rstate) (row : list str) (fld : str) (c : ascii) : action :=
  match st with
  | StartRecord => start_record c
  | StartField => start_field row c
  | InField => end_field row fld c (mk_action [] InField row (fld ++ [c]))
  | InQuoted =>
      if bool_decide (c = dquote) then mk_action [] QuoteInQuoted row fld
      else mk_action [] InQuoted row (fld ++ [c])
  | QuoteInQuoted =>
      if bool_decide (c = dquote) then mk_action [] InQuoted row (fld ++ [c])
      else end_field row fld c (mk_action [] InField row (fld ++ [c]))
  | EatCrnl =>
      if bool_decide (c = newline) then mk_action [row] StartRecord [] []
      else let a := start_record c in mk_action (row :: emitted a) (next a) (arow a) (afld a)
  end.

(** At the end of the data the record being read is completed. *)
Definition csv_eof (st : rstate) (row : list str) (fld : str) : list (list str) :=
  match st with
  | StartRecord => []
  | EatCrnl => [row]
  | _ => [row ++ [fld]]
  end.

Fixpoint read_go (st : rstate) (row : list str) (fld : str) (s : str) : list (list str) :=
  match s with
  | [] => csv_eof st row fld
  | c :: s' =>
      let a := csv_step st row fld c in
      emitted a ++ read_go (next a) (arow a) (afld a) s'
  end.

(** [list(csv.reader(f))] *)
Definition read_rows (s : str) : list (list str) := read_go StartRecord [] [] s.

(** ** Lemmas *)

Lemma special_false c :
  csv_special c = false ->
  c <> comma /\ c <> dquote /\ c <> carriage_return /\ c <> newline.
Proof. unfold csv_special. intros H. py_bools. rewrite !bool_decide_eq_false in *. tauto. Qed.

(** The states in which a field just read ends at a delimiter or line end. *)
Definition field_end (st : rstate) (fld : str) : Prop :=
  (st = StartField /\ fld = []) \/ st = InField \/ st = QuoteInQuoted.

Lemma step_comma st row fld :
  field_end st fld -> csv_step st row fld comma = mk_action [] StartField (row ++ [fld]) [].
Proof. by intros [[-> ->]|[->| ->]]. Qed.

Lemma step_cr st row fld :
  field_end st fld -> csv_step st row fld carriage_return = mk_action [] EatCrnl (row ++ [fld]) [].
Proof. by intros [[-> ->]|[->| ->]]. Qed.

(** An unquoted field is read character by character. *)
Lemma read_plain row fld f s :
  Forall (fun c => csv_special c = false) f ->
  read_go InField row fld (f ++ s) = read_go InField row (fld ++ f) s.
Proof.
  intros Hf. revert fld. induction Hf as [|c f Hc _ IH]; intros fld; [by rewrite app_nil_r|].
  destruct (special_false c Hc) as (H1 & _ & H3 & H4). simpl. unfold end_field.
  rewrite !bool_decide_false by done. simpl. by rewrite IH, <- app_assoc.
Qed.

(** A quoted field is read up to its closing quote, doubled quotes undone. *)
Lemma read_quoted row fld f s :
  read_go InQuoted row fld (concat (map escape_char f) ++ dquote :: s)
  = read_go QuoteInQuoted row (fld ++ f) s.
Proof.
  revert fld. induction f as [|c f IH]; intros fld; [by rewrite app_nil_r|].
  cbn [map concat]. unfold escape_char. case_bool_decide as Hc.
  - subst c. simpl. by rewrite IH, <- app_assoc.
  - simpl. rewrite bool_decide_false by done. simpl. by rewrite IH, <- app_assoc.
Qed.

Lemma read_field row f s :
  exists st, field_end st f /\ read_go StartField row [] (csv_field f ++ s) = read_go st row f s.
Proof.
  unfold csv_field. destruct (existsb csv_special f) eqn:Hq.
  - exists QuoteInQuoted. split; [by right; right|]. unfold quote_field.
    rewrite <- !app_assoc. simpl. apply read_quoted.
  - assert (Forall (fun c => csv_special c = false) f) as Hf.
    { apply Forall_forall. intros c Hc. destruct (csv_special c) eqn:E; [|done].
      apply not_true_iff_false in Hq. destruct Hq. apply existsb_exists.
      exists c. split; [by apply list_elem_of_In|done]. }
    destruct Hf as [|c f Hc Hf].
    + exists StartField. split; [by left|done].
    + exists InField. split; [by right; left|].
      destruct (special_false c Hc) as (H1 & H2 & H3 & H4). simpl. unfold start_field.
      rewrite !bool_decide_false by done. simpl. apply (read_plain row [c] f s Hf).
Qed.

(** The fields of a record, up to and including its CRLF. *)
Lemma read_fields row f fs s :
  read_go StartField row [] (join [comma] (map csv_field (f :: fs)) ++ crlf ++ s)
  = (row ++ f :: fs) :: read_go StartRecord [] [] s.
Proof.
  revert row f. induction fs as [|g fs IH]; intros row f.
  - cbn [map join]. destruct (read_field row f (crlf ++ s)) as (st & Hst & ->). simpl.
    rewrite step_cr by done. done.
  - replace (join [comma] (map csv_field (f :: g :: fs)))
      with (csv_field f ++ [comma] ++ join [comma] (map csv_field (g :: fs))) by reflexivity.
    rewrite <- !app_assoc.
    destruct (read_field row f ([comma] ++ join [comma] (map csv_field (g :: fs)) ++ crlf ++ s))
      as (st & Hst & ->).
    cbn [app read_go]. rewrite step_comma by done. cbn [emitted next arow afld app].
    rewrite (IH (row ++ [f]) g).
    by rewrite <- app_assoc.
Qed.

Lemma read_start_record c s :
  c <> carriage_return -> c <> newline ->
  read_go StartRecord [] [] (c :: s) = read_go StartField [] [] (c :: s).
Proof. intros H1 H2. simpl. unfold start_record. by rewrite !bool_decide_false. Qed.

(** A record that is not the single empty field starts with a character
    that is not a line end. *)
Lemma row_head f fs :
  f :: fs <> [[]] ->
  exists c s', join [comma] (map csv_field (f :: fs)) ++ crlf = c :: s'
               /\ c <> carriage_return /\ c <> newline.
Proof.
  intros Hne. unfold csv_field at 1. cbn [map].
  destruct (existsb csv_special f) eqn:Hq.
  - destruct fs; simpl; eexists _, _; (split; [reflexivity|done]).
  - destruct f as [|c f].
    + destruct fs as [|g fs]; [done|]. simpl. eexists _, _. split; [reflexivity|done].
    + simpl in Hq. apply orb_false_iff in Hq as [Hc _].
      destruct (special_false c Hc) as (_ & _ & H3 & H4).
      destruct fs; simpl; eexists _, _; (split; [reflexivity|done]).
Qed.

Lemma read_row fields s :
  read_go StartRecord [] [] (csv_row fields ++ s) = fields :: read_go StartRecord [] [] s.
Proof.
  destruct fields as [|f fs]; [done|].
  destruct (decide (f :: fs = [[]])) as [E|Hne].
  - rewrite E. done.
  - assert (csv_row (f :: fs) = join [comma] (map csv_field (f :: fs)) ++ crlf) as Hrow
      by (destruct f, fs; done).
    rewrite Hrow. destruct (row_head f fs Hne) as (c & s' & Hcs & H1 & H2).
    rewrite Hcs, <- app_comm_cons, read_start_record, app_comm_cons, <- Hcs, <- app_assoc
      by done.
    apply (read_fields [] f fs s).
Qed.

Lemma read_go_rows rows : read_go StartRecord [] [] (concat (map csv_row rows)) = rows.
Proof. induction rows as [|r rows IH]; [done|]. simpl. by rewrite read_row, IH. Qed.

(** A field with no delimiter, quote or line break is written as it is. *)
Lemma csv_field_plain f :
  Forall (fun c => c ∉ [comma; dquote; carriage_return; newline]) f -> csv_field f = f.
Proof.
  intros Hf. unfold csv_field. replace (existsb csv_special f) with false; [done|].
  induction Hf as [|c f Hc _ IH]; [done|]. simpl. rewrite <- IH, orb_false_r.
  rewrite !not_elem_of_cons in Hc. unfold csv_special.
  rewrite !bool_decide_eq_false_2 by tauto. done.
Qed.

Lemma csv_row_join fields :
  fields <> [[]] -> csv_row fields = join [comma] (map csv_field fields) ++ crlf.
Proof. intros H. destruct fields as [|[|c f] [|g gs]]; done. Qed.

(** ** Properties of the writer *)

(** C31: round trip of the CSV file: the rows [writer.writerow] writes,
    one after the other, are read back by the reader of the same
    dialect as exactly those rows, whatever their fields hold (commas,
    quotes, line breaks, empty fields, empty rows). *)
Theorem csv_rows_roundtrip rows : read_rows (concat (map csv_row rows)) = rows.
Proof. apply read_go_rows. Qed.

(** C29: [QUOTE_MINIMAL] quotes only what needs it: a row whose fields
    hold no comma, double quote, CR or LF is written as its fields joined
    by commas, then CRLF, with no quote added (the one exception being
    the row of a single empty field). *)
Theorem csv_row_unquoted fields :
  fields <> [[]] ->
  Forall (fun f => Forall (fun c => c ∉ [comma; dquote; carriage_return; newline]) f) fields ->
  csv_row fields = join [comma] fields ++ crlf.
Proof.
  intros Hne Hf. rewrite csv_row_join by done. do 2 f_equal.
  clear Hne. induction Hf as [|f fs Hf _ IH]; [done|]. simpl. by rewrite csv_field_plain, IH.
Qed.

Lemma csv_row_unquoted_witness :
  csv_row [⟪"Pie"⟫; ⟪"10 min"⟫; []] = ⟪"Pie,10 min,"⟫ ++ crlf.
Proof.
  refine (csv_row_unquoted [⟪"Pie"⟫; ⟪"10 min"⟫; []] _ _); [discriminate|].
  repeat constructor; decide_closed.
Defined.

Example csv_row_example :
  csv_row [⟪"Pie, apple"⟫; []; ⟪"say "⟫ ++ [dquote] ++ ⟪"hi"⟫ ++ [dquote]]
  = [dquote] ++ ⟪"Pie, apple"⟫ ++ [dquote] ++ ⟪",,"⟫
    ++ [dquote] ++ ⟪"say "⟫ ++ [dquote; dquote] ++ ⟪"hi"⟫ ++ [dquote; dquote; dquote] ++ crlf.
Proof. vm_compute. reflexivity. Qed.

Example csv_single_empty_field : csv_row [[]] = [dquote; dquote] ++ crlf.
Proof. reflexivity. Qed.

End Csv.
