(* ===== verification/Scrape.v ===== *)
(** * Fetching and parsing (src/scrape_recipes.py, lines 12-101)

    - [session_get] is [session.get(url)] on the module-level session
      (lines 12-26): the retry loop of [Session.v] run on what the server
      answers to each attempt, with the sleeps urllib3 takes between
      attempts returned alongside.
    - [extract_recipe_links] (lines 50-60) and [parse_recipe] (lines
      63-101) are written against the [HtmlQuery] interface of [Html.v];
      the HTML parser itself is the section variable [parse_html].
    - [translate] (lines 41-47) takes the translator as an optional
      function that may raise.

    The web is the section variable [server]: [server url k] is what the
    [k]-th request of one [session.get(url)] call receives. Redirects are
    not modelled.

    Most properties hold for any [HtmlQuery] instance. The two that
    depend on what [get_text(strip=True)] computes (C20, C26) are proved
    in Section [TreeProps] for the document-tree instance [tree_query]
    of [Html.v]. *)

From S2P Require Import Prelude Html Url Session.

Module Scrape.
Import Html Url Session.

(** The selectors of the source, by the line that uses them. *)
Definition sel_links : selector := SelAttr ⟪"a"⟫ ⟪"href"⟫.                    (* line 56 *)
Definition sel_h1 : selector := SelTag ⟪"h1"⟫.                                (* line 69 *)
Definition sel_type : selector := SelClass ⟪"div"⟫ ⟪"type"⟫.                  (* line 70 *)
Definition sel_ingredient : selector := SelClass ⟪"li"⟫ ⟪"ingredient"⟫.       (* line 74 *)
Definition sel_prep : selector := SelClass ⟪"time"⟫ ⟪"prep"⟫.                 (* line 77 *)
Definition sel_cook : selector := SelClass ⟪"time"⟫ ⟪"cook"⟫.                 (* line 78 *)
Definition sel_total : selector := SelClass ⟪"time"⟫ ⟪"total"⟫.               (* line 79 *)
Definition sel_steps : selector :=
  SelDescendant (SelClass ⟪"div"⟫ ⟪"steps"⟫) (SelTag ⟪"p"⟫).                 (* line 84 *)
Definition sel_img : selector := SelTag ⟪"img"⟫.                              (* line 87 *)

Section Scraper.
Context {Doc El : Type} `{!HtmlQuery Doc El}.
(** [BeautifulSoup(text, "html.parser")] *)
Variable parse_html : str -> Doc.
(** The web: what the [k]-th attempt of a GET of [url] receives. *)
Variable server : str -> nat -> outcome.

(** [session.get(url)] and the sleeps between its attempts. *)
Definition session_get_trace (url : str) : result response * list nat :=
  retry_loop (server url) 0 retry_total.

Definition session_get (url : str) : result response := fst (session_get_trace url).

(** [response = session.get(url); response.raise_for_status();
    BeautifulSoup(response.text, "html.parser")] *)
Definition fetch_soup (url : str) : result Doc :=
  r <- session_get url ;;
  _ <- raise_for_status r ;;
  Ok (parse_html (text r)).

(** [tag[key]] *)
Definition attr_or_keyerror (el : El) (key : str) : result str :=
  match get_attr el key with Some v => Ok v | None => Err (KeyError key) end.

(** The [for a in soup.select("a[href]")] loop; [links] grows by append. *)
Fixpoint collect_links (start_url : str) (anchors : list El) (links : list str)
  : result (list str) :=
  match anchors with
  | [] => Ok links
  | a :: rest =>
      href <- attr_or_keyerror a ⟪"href"⟫ ;;
      if contains ⟪"recipe"⟫ href then
        u <- urljoin start_url href ;;
        collect_links start_url rest (links ++ [u])
      else collect_links start_url rest links
  end.

(** [list(dict.fromkeys(links))]: the keys of an insertion-ordered dict. *)
Definition dict_fromkeys (keys : list str) : list str :=
  fold_left (fun d k => if decide (k ∈ d) then d else d ++ [k]) keys [].

Definition extract_recipe_links (start_url : str) : result (list str) :=
  soup <- fetch_soup start_url ;;
  links <- collect_links start_url (select soup sel_links) [] ;;
  Ok (dict_fromkeys links).

(** The dict [parse_recipe] returns. *)
Record recipe := mk_recipe {
  name : str; recipe_type : str; ingredients : list str;
  prep_time : str; cook_time : str; total_time : str;
  steps : list str; photos : list str }.

(** [x.get_text(strip=True) if x else ""] *)
Definition text_or_empty (o : option El) : str :=
  match o with Some el => get_text el | None => [] end.

Definition photo_exts : list str := [⟪".jpg"⟫; ⟪".jpeg"⟫; ⟪".png"⟫].

(** [src and any(src.lower().endswith(ext) for ext in ...)] *)
Definition is_photo_src (src : option str) : bool :=
  match src with
  | Some s => bool_decide (s <> []) && existsb (endswith (lower s)) photo_exts
  | None => false
  end.

(** The [for img in soup.select("img")] loop. *)
Fixpoint collect_photos (url : str) (imgs : list El) (photo_urls : list str)
  : result (list str) :=
  match imgs with
  | [] => Ok photo_urls
  | img :: rest =>
      let src := get_attr img ⟪"src"⟫ in
      if is_photo_src src then
        u <- urljoin url (default [] src) ;;
        collect_photos url rest (photo_urls ++ [u])
      else collect_photos url rest photo_urls
  end.

Definition parse_recipe (url : str) : result recipe :=
  soup <- fetch_soup url ;;
  name <- match select_one soup sel_h1 with
          | Some h1 => Ok (get_text h1)
          | None => Err AttributeError
          end ;;
  let recipe_type := text_or_empty (select_one soup sel_type) in
  let ingredients := map get_text (select soup sel_ingredient) in
  let prep_time := text_or_empty (select_one soup sel_prep) in
  let cook_time := text_or_empty (select_one soup sel_cook) in
  let total_time := text_or_empty (select_one soup sel_total) in
  let steps := map get_text (select soup sel_steps) in
  photo_urls <- collect_photos url (select soup sel_img) [] ;;
  Ok (mk_recipe name recipe_type ingredients prep_time cook_time total_time steps photo_urls).

(** The [src] values the photo loop keeps, in document order. *)
Definition photo_srcs (imgs : list El) : list str :=
  omap (fun img => let src := get_attr img ⟪"src"⟫ in
                   if is_photo_src src then src else None) imgs.

(** One anchor of the link loop: [Some] link, [None] when skipped. *)
Definition link_of (start_url : str) (a : El) : result (option str) :=
  href <- attr_or_keyerror a ⟪"href"⟫ ;;
  if contains ⟪"recipe"⟫ href then rfmap Some (urljoin start_url href) else Ok None.
End Scraper.
Arguments is_photo_src : simpl never.

(** ** The parser's loops as traversals *)

Section ScraperLemmas.
Context {Doc El : Type} `{!HtmlQuery Doc El}.

Lemma rfmap_app_nil {A} (r : result (list A)) : rfmap (app []) r = r.
Proof. by destruct r. Qed.

Lemma collect_photos_traverse url imgs acc :
  collect_photos url imgs acc = rfmap (app acc) (rmapM (urljoin url) (photo_srcs imgs)).
Proof.
  revert acc. induction imgs as [|img imgs IH]; intros acc; simpl.
  { by rewrite app_nil_r. }
  destruct (get_attr img ⟪"src"⟫) as [src|] eqn:Hs; simpl; [|apply IH].
  destruct (is_photo_src (Some src)); simpl; [|apply IH].
  destruct (urljoin url src) as [u|e]; simpl; [|done].
  rewrite IH. destruct (rmapM (urljoin url) (photo_srcs imgs)); simpl; [|done].
  by rewrite <- app_assoc.
Qed.

Lemma collect_links_traverse start anchors acc :
  collect_links start anchors acc
  = rfmap (fun l => acc ++ omap id l) (rmapM (link_of start) anchors).
Proof.
  revert acc. induction anchors as [|a anchors IH]; intros acc; cbn [collect_links rmapM].
  { simpl. by rewrite app_nil_r. }
  unfold link_of at 1. destruct (attr_or_keyerror a ⟪"href"⟫) as [href|e]; simpl; [|done].
  destruct (contains ⟪"recipe"⟫ href); simpl.
  - destruct (urljoin start href) as [u|e]; simpl; [|done].
    rewrite IH. destruct (rmapM (link_of start) anchors); simpl; [|done].
    by rewrite <- app_assoc.
  - rewrite IH. by destruct (rmapM (link_of start) anchors).
Qed.

Lemma dict_fromkeys_dedup keys : dict_fromkeys keys = dedup_by id keys.
Proof.
  unfold dict_fromkeys. change (fold_left ?f keys []) with (id (fold_left f keys [])).
  rewrite (@dedup_loop_spec _ _ _ _ id (fun d k => k ∈ d) (fun d k => decide_rel (∈) k d)
             id (fun d k => if decide (k ∈ d) then d else d ++ [k])).
  - simpl. apply filter_all_true, Forall_forall. set_solver.
  - intros d x Hx. by rewrite decide_True.
  - intros d x Hx. rewrite decide_False by done. split; [done|]. set_solver.
Qed.
(** The photo test of line 89: a non-empty [src] whose lower-case form
    ends with one of the three extensions. *)
Lemma is_photo_src_spec s :
  is_photo_src (Some s) = true <->
  s <> [] /\ Exists (fun ext => ext `suffix_of` lower s) [⟪".jpg"⟫; ⟪".jpeg"⟫; ⟪".png"⟫].
Proof.
  unfold is_photo_src. rewrite andb_true_iff, bool_decide_eq_true, existsb_exists, Exists_exists.
  setoid_rewrite endswith_spec. setoid_rewrite <- list_elem_of_In. done.
Qed.
End ScraperLemmas.

(** ** Translation *)

(** [translator.translate_text(text, target_lang="RU").text], which may raise. *)
Abbreviation translator := (str -> result str).

Definition translate (text : str) (tr : option translator) : result str :=
  match text with
  | [] => Ok text
  | _ => match tr with None => Ok text | Some f => f text end
  end.

(** ** Properties of fetching and parsing *)

Section ScraperProps.
Context {Doc El : Type} `{!HtmlQuery Doc El}.
Variable parse_html : str -> Doc.
Variable server : str -> nat -> outcome.

(** C18: one [session.get] sleeps at most three times, after its first,
    second and third attempts, in that order: each sleep is the positive
    [Retry-After] of the retried response, and otherwise the backoff,
    which is 0, 2 and 4 seconds (urllib3 does not sleep before the first
    retry). When no attempt sends [Retry-After] the sleeps are a prefix
    of 0, 2, 4. *)
Theorem session_backoff_schedule url :
  snd (session_get_trace server url) `prefix_of` map (fun i => sleep_of (server url i) (S i)) [0; 1; 2]
  /\ ((forall i, i < 3 -> retry_after_of (server url i) = None) ->
      snd (session_get_trace server url) `prefix_of` [0; 2; 4]).
Proof.
  pose proof (retry_loop_sleeps (server url) 0 retry_total) as Hs. split; [exact Hs|].
  intros H. etransitivity; [exact Hs|]. unfold retry_total. cbn [seq map Nat.add].
  rewrite !sleep_of_backoff by (apply H; lia). done.
Qed.

(** C16: [session.get] returns a response exactly when one of the first
    four attempts gets a response the session does not retry (a status
    outside the retry list, and not a 413, 429 or 503 with
    [Retry-After] while retries remain), every earlier attempt having
    been retried; the response is that attempt's. *)
Theorem session_get_ok url r :
  session_get server url = Ok r <->
  exists j ra, j <= 3 /\ (forall i, i < j -> transient (server url i) (3 - i) = true)
    /\ server url j = Response (status_code r) ra (text r)
    /\ transient (server url j) (3 - j) = false.
Proof. apply (retry_loop_ok (server url) 0 retry_total). Qed.

(** C17: when all four attempts are retried the call raises
    [RetryError] if the last one got a listed status and
    [ConnectionError] if it got no response. *)
Theorem session_get_exhausted url :
  (forall i, i <= 3 -> transient (server url i) (3 - i) = true) ->
  session_get server url = Err (exhausted_error (server url 3)).
Proof. intros H. apply (retry_loop_exhausted (server url) 0 retry_total), H. Qed.

(** C30: a first response with status 413, 429 or 503 that carries a
    positive [Retry-After] of [n] seconds is retried, even for 413,
    which is not in [status_forcelist], and the session sleeps [n]
    seconds before the second attempt instead of the backoff of 0. *)
Theorem session_retry_after url st n body :
  server url 0 = Response st (Some n) body -> st ∈ retry_after_statuses -> 0 < n ->
  session_get_trace server url
  = (fst (retry_loop (server url) 1 2), n :: snd (retry_loop (server url) 1 2)).
Proof.
  intros H0 Hst Hn. unfold session_get_trace. rewrite retry_loop_unfold, H0.
  assert (transient (Response st (Some n) body) retry_total = true) as -> .
  { apply orb_true_intro; right. rewrite !andb_true_iff, !bool_decide_eq_true.
    split_and!; [unfold retry_total; lia|done|done]. }
  cbn [sleep_of retry_sleep]. by rewrite (proj2 (Nat.eqb_neq n 0)) by lia.
Qed.

(** C37: [session.get] terminates after at most four requests: its
    response or exception and its sleeps depend only on what the first
    four attempts receive, so nothing the server would answer to a
    fifth request is ever observed. *)
Theorem session_get_four_requests url server' :
  (forall i, i <= 3 -> server' url i = server url i) ->
  session_get_trace server' url = session_get_trace server url.
Proof. intros H. apply (retry_loop_agree (server url) (server' url) 0 retry_total), H. Qed.

(** C8: a fetched page with no [h1] makes [parse_recipe] raise
    [AttributeError] ([soup.find("h1")] is [None]). *)
Theorem parse_recipe_no_h1 url soup :
  fetch_soup parse_html server url = Ok soup ->
  select_one soup sel_h1 = None ->
  parse_recipe parse_html server url = Err AttributeError.
Proof. intros Hf Hh. unfold parse_recipe. by rewrite Hf; simpl; rewrite Hh. Qed.

(** C9: a fetched page with an [h1] and none of the optional elements
    parses without error into a recipe whose other fields are empty. *)
Theorem parse_recipe_optional_absent url soup h1 :
  fetch_soup parse_html server url = Ok soup ->
  select_one soup sel_h1 = Some h1 ->
  Forall (fun s => select soup s = [])
    [sel_type; sel_ingredient; sel_prep; sel_cook; sel_total; sel_steps; sel_img] ->
  parse_recipe parse_html server url = Ok (mk_recipe (get_text h1) [] [] [] [] [] [] []).
Proof.
  intros Hf Hh Hs. repeat setoid_rewrite Forall_cons in Hs.
  destruct Hs as (H1 & H2 & H3 & H4 & H5 & H6 & H7 & _).
  unfold parse_recipe, select_one. rewrite Hf. simpl. unfold select_one in Hh.
  by rewrite Hh, H1, H2, H3, H4, H5, H6, H7.
Qed.

(** C19: the photo loop resolves, with [urljoin(url, src)], exactly the
    [src] values that are non-empty and whose lower-case form ends in
    .jpg, .jpeg or .png (so .JPG and .Png count), in document order,
    duplicates kept; a [ValueError] of one of them is raised. *)
Theorem collect_photos_spec url imgs :
  collect_photos url imgs [] =
  rmapM (urljoin url)
    (omap (fun img => match get_attr img ⟪"src"⟫ with
                      | Some s =>
                          if bool_decide (s <> [] /\ Exists (fun ext => ext `suffix_of` lower s)
                                                     [⟪".jpg"⟫; ⟪".jpeg"⟫; ⟪".png"⟫])
                          then Some s else None
                      | None => None
                      end) imgs).
Proof.
  rewrite collect_photos_traverse, rfmap_app_nil. f_equal. unfold photo_srcs.
  apply list_omap_ext, Forall_Forall2_diag, Forall_forall. intros img _.
  destruct (get_attr img ⟪"src"⟫) as [s|]; [|done].
  destruct (is_photo_src (Some s)) eqn:E; case_bool_decide as Hd; try done;
    [apply is_photo_src_spec in E|apply is_photo_src_spec in Hd]; congruence.
Qed.

(** C4: the links [extract_recipe_links] returns have no duplicate and
    are the first occurrences, in document order, of the resolved hrefs
    that contain "recipe". *)
Theorem extract_recipe_links_ok start links :
  extract_recipe_links parse_html server start = Ok links ->
  NoDup links /\
  exists soup raw, fetch_soup parse_html server start = Ok soup
    /\ rmapM (link_of start) (select soup sel_links) = Ok raw
    /\ links = dedup_by id (omap id raw).
Proof.
  unfold extract_recipe_links. destruct (fetch_soup parse_html server start) as [soup|e]
    eqn:Hf; simpl; [|done].
  rewrite collect_links_traverse. destruct (rmapM (link_of start) (select soup sel_links))
    as [raw|e] eqn:Hr; simpl; [|done].
  intros [= <-]. rewrite dict_fromkeys_dedup. split.
  - pose proof (dedup_by_nodup id (omap id raw)) as H. by rewrite list_fmap_id in H.
  - by exists soup, raw.
Qed.
End ScraperProps.

Section ScraperLaws.
Context {Doc El : Type} `{!HtmlQuery Doc El} `{!HtmlQueryLaws Doc El}.
Variable parse_html : str -> Doc.
Variable server : str -> nat -> outcome.

Lemma text_or_empty_stripped (o : option El) : strip (text_or_empty o) = text_or_empty o.
Proof. destruct o; [apply get_text_stripped|done]. Qed.

Lemma map_get_text_stripped (l : list El) : Forall (fun t => strip t = t) (map get_text l).
Proof. apply Forall_map, Forall_forall. intros el _. apply get_text_stripped. Qed.

(** Under the law of [get_text], every text field is stripped. *)
Lemma parse_recipe_fields_stripped url r :
  parse_recipe parse_html server url = Ok r ->
  Forall (fun t => strip t = t)
    ([name r; recipe_type r; prep_time r; cook_time r; total_time r]
     ++ ingredients r ++ steps r).
Proof.
  unfold parse_recipe. destruct (fetch_soup parse_html server url) as [soup|e]; [|done].
  simpl. destruct (select_one soup sel_h1) as [h1|]; [|done]. simpl.
  destruct (collect_photos url (select soup sel_img) []); [|done]. intros [= <-]. simpl.
  repeat constructor; try apply text_or_empty_stripped; try apply get_text_stripped.
  apply Forall_app. split; apply map_get_text_stripped.
Qed.
(** The name is the text of the first [h1]. *)
Lemma parse_recipe_name url soup h1 r :
  fetch_soup parse_html server url = Ok soup -> select_one soup sel_h1 = Some h1 ->
  parse_recipe parse_html server url = Ok r -> name r = get_text h1.
Proof.
  intros Hf Hh. unfold parse_recipe, select_one in *. rewrite Hf. simpl. rewrite Hh. simpl.
  destruct (collect_photos url (select soup sel_img) []); [|done]. by intros [= <-].
Qed.
End ScraperLaws.

(** ** Concrete pages *)

Definition a_href (h : string) : node := Element ⟪"a"⟫ [(⟪"href"⟫, lit h)] [TextNode ⟪"link"⟫].
Definition img_src (src : string) : node := Element ⟪"img"⟫ [(⟪"src"⟫, lit src)] [].
Definition elem_class (tag cls : string) (t : string) : node :=
  Element (lit tag) [(⟪"class"⟫, lit cls)] [TextNode (lit t)].

Definition index_url : str := ⟪"https://x.test/a/"⟫.

(** The start page of the spec's example. *)
Definition index_doc : document :=
  [Element ⟪"body"⟫ []
     [a_href "/recipe/1"; a_href "/other"; a_href "/recipe/1"; a_href "recipe/2"]].

Definition pie_doc : document :=
  [Element ⟪"h1"⟫ [] [TextNode ⟪"  Apple "⟫; CommentNode ⟪"x"⟫; TextNode ⟪" Pie "⟫];
   elem_class "div" "type big" " Dessert ";
   elem_class "li" "ingredient" "Flour"; elem_class "li" "ingredient" " flour ";
   elem_class "time" "prep" "10 min";
   Element ⟪"div"⟫ [(⟪"class"⟫, ⟪"steps"⟫)]
     [Element ⟪"p"⟫ [] [TextNode ⟪"Mix."⟫]; Element ⟪"p"⟫ [] [TextNode ⟪" Bake. "⟫]];
   img_src "/img/Pie.JPG"; img_src "logo.svg"; img_src "b.png"].

Definition soup_doc : document := [Element ⟪"h1"⟫ [] [TextNode ⟪"Soup"⟫]].

Definition no_h1_doc : document := [Element ⟪"p"⟫ [] [TextNode ⟪"Soup"⟫]].

(** [<h1>Apple <em>Pie</em></h1>] *)
Definition em_doc : document :=
  [Element ⟪"h1"⟫ [] [TextNode ⟪"Apple "⟫; Element ⟪"em"⟫ [] [TextNode ⟪"Pie"⟫]]].

(** [BeautifulSoup] on the bodies the fixture server sends. *)
Definition fixture_html (body : str) : document :=
  if decide (body = ⟪"index"⟫) then index_doc
  else if decide (body = ⟪"pie"⟫) then pie_doc
  else if decide (body = ⟪"soup"⟫) then soup_doc
  else if decide (body = ⟪"em"⟫) then em_doc
  else no_h1_doc.

(** The web of the fixtures: two recipes, a page without title, a host
    that answers 413 with [Retry-After: 7] once, a host that answers 503
    four times, and 404 elsewhere. *)
Definition fixture_server (url : str) (k : nat) : outcome :=
  if decide (url = index_url) then Response 200 None ⟪"index"⟫
  else if decide (url = ⟪"https://x.test/recipe/1"⟫) then Response 200 None ⟪"pie"⟫
  else if decide (url = ⟪"https://x.test/a/recipe/2"⟫) then Response 200 None ⟪"soup"⟫
  else if decide (url = ⟪"https://x.test/notitle"⟫) then Response 200 None ⟪"other"⟫
  else if decide (url = ⟪"https://x.test/em"⟫) then Response 200 None ⟪"em"⟫
  else if decide (url = ⟪"https://x.test/slow"⟫) then
    (if k =? 0 then Response 413 (Some 7) [] else Response 200 None ⟪"soup"⟫)
  else if decide (url = ⟪"https://x.test/busy"⟫) then
    (if k <? 4 then Response 503 None [] else Response 200 None ⟪"soup"⟫)
  else Response 404 None [].

(** The spec's link-extractor example: anchors "/recipe/1", "/other",
    "/recipe/1", "recipe/2" on "https://x.test/a/". *)
Example extract_recipe_links_spec_example :
  extract_recipe_links fixture_html fixture_server index_url
  = Ok [⟪"https://x.test/recipe/1"⟫; ⟪"https://x.test/a/recipe/2"⟫].
Proof. vm_compute. reflexivity. Qed.

Example parse_recipe_pie :
  parse_recipe fixture_html fixture_server ⟪"https://x.test/recipe/1"⟫
  = Ok (mk_recipe ⟪"ApplePie"⟫ ⟪"Dessert"⟫ [⟪"Flour"⟫; ⟪"flour"⟫] ⟪"10 min"⟫ [] []
          [⟪"Mix."⟫; ⟪"Bake."⟫] [⟪"https://x.test/img/Pie.JPG"⟫; ⟪"https://x.test/recipe/b.png"⟫]).
Proof. vm_compute. reflexivity. Qed.

(** ** Properties of the parser over the document tree *)

Section TreeProps.
Variable parse_html : str -> document.
Variable server : str -> nat -> outcome.

(** C20: with [get_text(strip=True)] as BeautifulSoup computes it on the
    document tree, every text field of a parsed recipe (name, type, the
    three times, each ingredient line and each step) is
    whitespace-trimmed, whatever the page. *)
Theorem parse_recipe_trimmed url r :
  parse_recipe parse_html server url = Ok r ->
  Forall (fun t => strip t = t)
    ([name r; recipe_type r; prep_time r; cook_time r; total_time r]
     ++ ingredients r ++ steps r).
Proof. apply parse_recipe_fields_stripped. Qed.

(** C26: [get_text(strip=True)] strips every text node and joins them
    with no separator, so a title whose words are split by inline markup,
    [<h1>w1 <em>w2</em></h1>] for any trimmed non-empty words and any
    inline tag, is read as [w1 ++ w2]: the space is lost in the recipe
    name, its slug and its CSV row. *)
Theorem parse_recipe_glues_inline_text url soup attrs tag attrs' w1 w2 r :
  fetch_soup parse_html server url = Ok soup ->
  select_one soup sel_h1
    = Some (Element ⟪"h1"⟫ attrs [TextNode (w1 ++ [" "%char]); Element tag attrs' [TextNode w2]]) ->
  strip w1 = w1 -> strip w2 = w2 -> w1 <> [] -> w2 <> [] ->
  parse_recipe parse_html server url = Ok r ->
  name r = w1 ++ w2.
Proof.
  intros Hf Hh H1 H2 Hn1 Hn2 Hr. rewrite (parse_recipe_name parse_html server url soup _ r Hf Hh Hr).
  cbn [get_text tree_query]. unfold tree_get_text. cbn [texts map concat app].
  rewrite strip_snoc_space, H1, H2 by reflexivity. simpl.
  rewrite !bool_decide_eq_false_2 by done. simpl. by rewrite app_nil_r.
Qed.
End TreeProps.

(** The fixture web, with no answer at all from the fifth request on. *)
Definition fixture_server_down_late (url : str) (k : nat) : outcome :=
  if k <=? 3 then fixture_server url k else NoResponse.

Lemma session_get_four_requests_witness :
  (forall i, i <= 3 -> fixture_server_down_late ⟪"https://x.test/busy"⟫ i
                       = fixture_server ⟪"https://x.test/busy"⟫ i)
  /\ session_get_trace fixture_server_down_late ⟪"https://x.test/busy"⟫
     = session_get_trace fixture_server ⟪"https://x.test/busy"⟫.
Proof.
  assert (forall i, i <= 3 -> fixture_server_down_late ⟪"https://x.test/busy"⟫ i
                              = fixture_server ⟪"https://x.test/busy"⟫ i) as H.
  { intros i Hi. unfold fixture_server_down_late. by rewrite (proj2 (Nat.leb_le i 3) Hi). }
  split; [exact H|]. apply (session_get_four_requests fixture_server), H.
Defined.

Lemma session_retry_after_witness :
  session_get_trace fixture_server ⟪"https://x.test/slow"⟫ = (Ok (mk_response 200 ⟪"soup"⟫), [7]).
Proof.
  rewrite (session_retry_after fixture_server ⟪"https://x.test/slow"⟫ 413 7 []);
    [vm_compute; reflexivity|vm_compute; reflexivity|decide_closed|lia].
Defined.

Lemma session_get_exhausted_witness :
  (forall i, i <= 3 -> transient (fixture_server ⟪"https://x.test/busy"⟫ i) (3 - i) = true)
  /\ session_get fixture_server ⟪"https://x.test/busy"⟫ = Err RetryError.
Proof.
  assert (forall i, i <= 3 -> transient (fixture_server ⟪"https://x.test/busy"⟫ i) (3 - i) = true) as H.
  { intros i Hi. destruct i as [|[|[|[|i]]]]; [vm_compute; reflexivity..|lia]. }
  split; [exact H|]. apply (session_get_exhausted fixture_server), H.
Defined.

Lemma parse_recipe_no_h1_witness :
  parse_recipe fixture_html fixture_server ⟪"https://x.test/notitle"⟫ = Err AttributeError.
Proof.
  apply (parse_recipe_no_h1 fixture_html fixture_server _ no_h1_doc);
    vm_compute; reflexivity.
Defined.

Lemma parse_recipe_optional_absent_witness :
  parse_recipe fixture_html fixture_server ⟪"https://x.test/a/recipe/2"⟫
  = Ok (mk_recipe (get_text (Element ⟪"h1"⟫ [] [TextNode ⟪"Soup"⟫])) [] [] [] [] [] [] []).
Proof.
  apply (parse_recipe_optional_absent fixture_html fixture_server _ soup_doc
           (Element ⟪"h1"⟫ [] [TextNode ⟪"Soup"⟫])); vm_compute; repeat constructor.
Defined.

Lemma parse_recipe_glues_inline_text_witness :
  exists r, parse_recipe fixture_html fixture_server ⟪"https://x.test/em"⟫ = Ok r
            /\ name r = ⟪"ApplePie"⟫.
Proof.
  eexists. split; [vm_compute; reflexivity|].
  refine (parse_recipe_glues_inline_text fixture_html fixture_server ⟪"https://x.test/em"⟫ em_doc
            [] ⟪"em"⟫ [] ⟪"Apple"⟫ ⟪"Pie"⟫ _ _ _ _ _ _ _ _);
    vm_compute; try reflexivity; discriminate.
Defined.

Lemma parse_recipe_trimmed_witness :
  Forall (fun t => strip t = t)
    [⟪"ApplePie"⟫; ⟪"Dessert"⟫; ⟪"10 min"⟫; []; []; ⟪"Flour"⟫; ⟪"flour"⟫; ⟪"Mix."⟫; ⟪"Bake."⟫].
Proof.
  apply (parse_recipe_trimmed fixture_html fixture_server ⟪"https://x.test/recipe/1"⟫
           (mk_recipe ⟪"ApplePie"⟫ ⟪"Dessert"⟫ [⟪"Flour"⟫; ⟪"flour"⟫] ⟪"10 min"⟫ [] []
              [⟪"Mix."⟫; ⟪"Bake."⟫]
              [⟪"https://x.test/img/Pie.JPG"⟫; ⟪"https://x.test/recipe/b.png"⟫])).
  vm_compute. reflexivity.
Defined.

Lemma extract_recipe_links_ok_witness :
  NoDup [⟪"https://x.test/recipe/1"⟫; ⟪"https://x.test/a/recipe/2"⟫].
Proof.
  refine (proj1 (extract_recipe_links_ok fixture_html fixture_server index_url _ _)).
  vm_compute. reflexivity.
Defined.

End Scrape.
