(* ===== verification/Pipeline.v ===== *)
(** * The scraper's [main] (src/scrape_recipes.py, lines 115-168)

    [main] runs on a state [fs]: the files (path to text content), the
    directories made, and the lines printed. Every call of the source
    that changes it is a [PyM fs] computation: [os.makedirs] is
    [makedirs], [open(p, "w")] followed by writes is [write_file], the
    CSV writer's rows are [append_file] of [Csv.csv_row] to the open file,
    [print] is [print_line].

    Per link, [process_url] is the body of the [for url in links] loop:
    a parse failure is printed and skipped ([try]/[except]/[continue]);
    otherwise the ingredients are normalised, the fields translated when
    a translator exists (an exception there is not caught and ends the
    run), and [export_recipe] writes the three text files and the row.

    The six CSV header titles are Russian; they are written here as the
    UTF-8 bytes of the titles, the one place where the model stores
    bytes where the program has characters. The file contents are the
    Python strings written, before their UTF-8 encoding. *)

From S2P Require Import Prelude Html Url Slugify Normalize Session Scrape Csv.

Module Pipeline.
Import Html Slugify Session Scrape Csv.

Inductive log_line :=
  | LogParseFailed (url : str) (e : exn)   (** [print(f"Failed to parse {url}: {exc}")] *)
  | LogSaved (csv_path : str)              (** [print(f"Saved recipes to {csv_path}")] *)
  | LogUsage.                              (** [print("Usage: python scrape_recipes.py ...")] *)

Record fs := mk_fs { files : gmap str str; dirs : gset str; stdout : list log_line }.

(** [os.path.join(a, b)] *)
Definition path_join (a b : str) : str :=
  if prefixb ⟪"/"⟫ b then b
  else if bool_decide (a = []) || endswith a ⟪"/"⟫ then a ++ b
  else a ++ ⟪"/"⟫ ++ b.

(** [os.makedirs(p, exist_ok=True)] *)
Definition makedirs (p : str) : PyM fs unit :=
  pmodify (fun s => mk_fs (files s) ({[p]} ∪ dirs s) (stdout s)).

(** [with open(p, "w") as f: f.write(...)]: the file is replaced. *)
Definition write_file (p content : str) : PyM fs unit :=
  pmodify (fun s => mk_fs (<[p := content]> (files s)) (dirs s) (stdout s)).

(** A write to a file that is open. *)
Definition append_file (p content : str) : PyM fs unit :=
  pmodify (fun s => mk_fs (<[p := default [] (files s !! p) ++ content]> (files s))
                          (dirs s) (stdout s)).

Definition print_line (l : log_line) : PyM fs unit :=
  pmodify (fun s => mk_fs (files s) (dirs s) (stdout s ++ [l])).

(** [for x in l: f.write(x + "\n")] *)
Definition lines_content (l : list str) : str := concat (map (fun x => x ++ [newline]) l).

Definition csv_header : list str :=
  [⟪"Название"⟫; ⟪"Тип"⟫; ⟪"Ингредиенты"⟫; ⟪"Время на подготовку"⟫;
   ⟪"Время на готовку"⟫; ⟪"Всего времени"⟫].

(** The environment [main] reads. *)
Record env := mk_env {
  api_key : option str;                   (** [os.environ.get("DEEPL_API_KEY")] *)
  deepl : option (str -> translator);     (** [deepl.Translator], [None] on ImportError *)
}.

(** Lines 29-32, [try: import deepl] with [except ImportError: deepl =
    None]: [installed] says whether the package imports, [client] is its
    [deepl.Translator]. *)
Definition import_deepl (installed : bool) (client : str -> translator) : option (str -> translator) :=
  if installed then Some client else None.

(** [if api_key and deepl: translator = deepl.Translator(api_key)] *)
Definition make_translator (e : env) : option translator :=
  match api_key e, deepl e with
  | Some k, Some mk => if bool_decide (k = []) then None else Some (mk k)
  | _, _ => None
  end.

(** The seven [translate] calls of lines 141-147, in order. *)
Definition translate_recipe (tr : translator) (d : recipe) : result recipe :=
  n <- translate (name d) (Some tr) ;;
  t <- translate (recipe_type d) (Some tr) ;;
  ings <- rmapM (fun i => translate i (Some tr)) (ingredients d) ;;
  p <- translate (prep_time d) (Some tr) ;;
  c <- translate (cook_time d) (Some tr) ;;
  tt' <- translate (total_time d) (Some tr) ;;
  sts <- rmapM (fun st => translate st (Some tr)) (steps d) ;;
  Ok (mk_recipe n t ings p c tt' sts (photos d)).

(** [data["ingredients"] = normalize_ingredients(data["ingredients"])] *)
Definition normalize_recipe (d : recipe) : recipe :=
  mk_recipe (name d) (recipe_type d) (Normalize.normalize_ingredients (ingredients d))
    (prep_time d) (cook_time d) (total_time d) (steps d) (photos d).

(** The row of lines 160-167. *)
Definition csv_fields (d : recipe) : list str :=
  [name d; recipe_type d; join ⟪", "⟫ (ingredients d); prep_time d; cook_time d; total_time d].

Definition text_path (output_dir slug suffix : str) : str :=
  path_join (path_join output_dir ⟪"text"⟫) (slug ++ suffix).

(** Lines 148-167. *)
Definition export_recipe (output_dir csv_path : str) (d : recipe) : PyM fs unit :=
  let slug := slugify (name d) in
  makedirs (path_join output_dir ⟪"text"⟫) ;;;
  write_file (text_path output_dir slug ⟪"_photos.txt"⟫) (lines_content (photos d)) ;;;
  write_file (text_path output_dir slug ⟪"_ingredients.txt"⟫) (lines_content (ingredients d)) ;;;
  write_file (text_path output_dir slug ⟪"_steps.txt"⟫) (lines_content (steps d)) ;;;
  append_file csv_path (csv_row (csv_fields d)).

(** ** Lemmas on paths and file writes *)

(** The directory part [os.path.join] puts before a relative [b]. *)
Definition join_prefix (a : str) : str :=
  if bool_decide (a = []) || endswith a ⟪"/"⟫ then a else a ++ ⟪"/"⟫.

Lemma path_join_rel a b : prefixb ⟪"/"⟫ b = false -> path_join a b = join_prefix a ++ b.
Proof.
  intros Hb. unfold path_join, join_prefix. rewrite Hb.
  destruct (bool_decide (a = []) || endswith a ⟪"/"⟫); [done|]. by rewrite <- app_assoc.
Qed.

Lemma path_join_suffix a b : b `suffix_of` path_join a b.
Proof.
  unfold path_join. destruct (prefixb ⟪"/"⟫ b); [done|].
  destruct (_ || _); [by apply suffix_app_r|].
  apply suffix_app_r. by apply suffix_app_r.
Qed.

Lemma suffix_same_length (l k1 k2 : str) :
  k1 `suffix_of` l -> k2 `suffix_of` l -> length k1 = length k2 -> k1 = k2.
Proof.
  intros [j1 ->] [j2 E] Hl. by apply app_inj_2 in E as [_ <-].
Qed.

Lemma slug_char_not_slash c : Slugify.slug_char c = true -> c <> "/"%char.
Proof. intros Hc ->. discriminate Hc. Qed.

(** A character that is not a slug character is in no slug. *)
Lemma slugify_no_char c n : Slugify.slug_char c = false -> c ∉ slugify n.
Proof. intros Hc Hin. apply (proj1 (Forall_forall _ _) (slugify_chars n)) in Hin. congruence. Qed.

(** A slug followed by a suffix that does not start with [/] is a
    relative path. *)
Lemma slug_path_rel n c sfx : c <> "/"%char -> prefixb ⟪"/"⟫ (slugify n ++ c :: sfx) = false.
Proof.
  intros Hc. pose proof (slugify_chars n) as Hs.
  destruct (slugify n) as [|c' t]; simpl.
  - unfold lit. simpl. by rewrite bool_decide_false by (intros ?; apply Hc; done).
  - apply Forall_cons in Hs as [Hc' _]. apply slug_char_not_slash in Hc'.
    unfold lit. simpl. by rewrite bool_decide_false by (intros ?; apply Hc'; done).
Qed.

Lemma text_path_eq out n sfx1 sfx2 c1 c2 :
  c1 <> "/"%char -> c2 <> "/"%char ->
  text_path out (slugify n) (c1 :: sfx1) = text_path out (slugify n) (c2 :: sfx2) ->
  c1 :: sfx1 = c2 :: sfx2.
Proof.
  intros H1 H2. unfold text_path.
  rewrite (path_join_rel _ (slugify n ++ c1 :: sfx1)) by (by apply slug_path_rel).
  rewrite (path_join_rel _ (slugify n ++ c2 :: sfx2)) by (by apply slug_path_rel).
  intros E. by apply app_inv_head in E; apply app_inv_head in E.
Qed.

Lemma text_path_not_csv out slug sfx :
  ⟪".txt"⟫ `suffix_of` sfx ->
  text_path out slug sfx <> path_join out ⟪"recipes.csv"⟫.
Proof.
  intros Hs E.
  assert (⟪".txt"⟫ `suffix_of` text_path out slug sfx) as H1.
  { unfold text_path. etransitivity; [exact Hs|].
    etransitivity; [apply suffix_app_r; done|apply path_join_suffix]. }
  assert (⟪".csv"⟫ `suffix_of` path_join out ⟪"recipes.csv"⟫) as H2.
  { etransitivity; [|apply path_join_suffix]. by exists ⟪"recipes"⟫. }
  rewrite E in H1. by pose proof (suffix_same_length _ _ _ H1 H2 eq_refl).
Qed.

Section Main.
Context {Doc El : Type} `{!HtmlQuery Doc El}.
Variable parse_html : str -> Doc.
Variable server : str -> nat -> outcome.

(** One iteration of the [for url in links] loop, lines 134-167. *)
Definition process_url (tr : option translator) (output_dir csv_path url : str)
  : PyM fs unit :=
  match parse_recipe parse_html server url with
  | Err e => print_line (LogParseFailed url e)
  | Ok data =>
      let data := normalize_recipe data in
      data <-- plift (match tr with Some t => translate_recipe t data | None => Ok data end) ;;;
      export_recipe output_dir csv_path data
  end.

Definition main (e : env) (start_url output_dir : str) : PyM fs unit :=
  makedirs output_dir ;;;
  let tr := make_translator e in
  links <-- plift (extract_recipe_links parse_html server start_url) ;;;
  let csv_path := path_join output_dir ⟪"recipes.csv"⟫ in
  write_file csv_path [] ;;;
  append_file csv_path (csv_row csv_header) ;;;
  for_each (process_url tr output_dir csv_path) links ;;;
  print_line (LogSaved csv_path).
End Main.

(** ** The export step *)

Definition photos_path (out n : str) : str := text_path out (slugify n) ⟪"_photos.txt"⟫.
Definition ingredients_path (out n : str) : str := text_path out (slugify n) ⟪"_ingredients.txt"⟫.
Definition steps_path (out n : str) : str := text_path out (slugify n) ⟪"_steps.txt"⟫.

Lemma export_paths_distinct out n :
  photos_path out n <> ingredients_path out n /\ photos_path out n <> steps_path out n
  /\ ingredients_path out n <> steps_path out n.
Proof.
  unfold photos_path, ingredients_path, steps_path.
  split_and!; intros E; apply text_path_eq in E; done.
Qed.

Lemma export_paths_not_csv out n :
  photos_path out n <> path_join out ⟪"recipes.csv"⟫
  /\ ingredients_path out n <> path_join out ⟪"recipes.csv"⟫
  /\ steps_path out n <> path_join out ⟪"recipes.csv"⟫.
Proof.
  split_and!; apply text_path_not_csv.
  - by exists ⟪"_photos"⟫.
  - by exists ⟪"_ingredients"⟫.
  - by exists ⟪"_steps"⟫.
Qed.

Lemma export_recipe_run out d s :
  let csv := path_join out ⟪"recipes.csv"⟫ in
  export_recipe out csv d s =
  (Ok tt, mk_fs
     (<[csv := default [] (files s !! csv) ++ csv_row (csv_fields d)]>
       (<[steps_path out (name d) := lines_content (steps d)]>
         (<[ingredients_path out (name d) := lines_content (ingredients d)]>
           (<[photos_path out (name d) := lines_content (photos d)]> (files s)))))
     ({[path_join out ⟪"text"⟫]} ∪ dirs s) (stdout s)).
Proof.
  intros csv. destruct (export_paths_not_csv out (name d)) as (H1 & H2 & H3).
  unfold photos_path, ingredients_path, steps_path in *.
  unfold export_recipe, append_file, write_file, makedirs, pbind, pmodify.
  cbn [files dirs stdout]. do 3 f_equal. rewrite !lookup_insert_ne by done. done.
Qed.

Lemma export_recipe_lookup out d s :
  let s' := snd (export_recipe out (path_join out ⟪"recipes.csv"⟫) d s) in
  files s' !! photos_path out (name d) = Some (lines_content (photos d))
  /\ files s' !! ingredients_path out (name d) = Some (lines_content (ingredients d))
  /\ files s' !! steps_path out (name d) = Some (lines_content (steps d))
  /\ files s' !! path_join out ⟪"recipes.csv"⟫
     = Some (default [] (files s !! path_join out ⟪"recipes.csv"⟫) ++ csv_row (csv_fields d)).
Proof.
  intros s'. subst s'. rewrite export_recipe_run. cbn [snd files].
  destruct (export_paths_not_csv out (name d)) as (H1 & H2 & H3).
  destruct (export_paths_distinct out (name d)) as (H4 & H5 & H6).
  split_and!.
  - rewrite lookup_insert_ne by done. rewrite !lookup_insert_ne by done.
    apply lookup_insert_eq.
  - rewrite lookup_insert_ne by done. rewrite lookup_insert_ne by done.
    apply lookup_insert_eq.
  - rewrite lookup_insert_ne by done. apply lookup_insert_eq.
  - apply lookup_insert_eq.
Qed.

(** C5: [export_recipe] writes the photo URLs, the ingredient lines and
    the steps one per line into [text/{slug}_photos.txt],
    [_ingredients.txt] and [_steps.txt], appends exactly one row (name,
    type, ingredients joined by ", ", the three times) to [recipes.csv],
    and prints nothing. *)
Theorem export_recipe_writes out d s :
  let s' := snd (export_recipe out (path_join out ⟪"recipes.csv"⟫) d s) in
  files s' !! photos_path out (name d) = Some (lines_content (photos d))
  /\ files s' !! ingredients_path out (name d) = Some (lines_content (ingredients d))
  /\ files s' !! steps_path out (name d) = Some (lines_content (steps d))
  /\ files s' !! path_join out ⟪"recipes.csv"⟫
     = Some (default [] (files s !! path_join out ⟪"recipes.csv"⟫) ++ csv_row (csv_fields d))
  /\ stdout s' = stdout s
  /\ fst (export_recipe out (path_join out ⟪"recipes.csv"⟫) d s) = Ok tt.
Proof.
  pose proof (export_recipe_lookup out d s) as (H1 & H2 & H3 & H4).
  rewrite export_recipe_run in *. by split_and!.
Qed.

(** C21: two recipes whose names have the same slug write the same
    three files: after exporting [d1] then [d2], the files named after
    [d1] hold [d2]'s photos, ingredients and steps; [d1]'s are lost. *)
Theorem export_slug_collision out d1 d2 s :
  slugify (name d1) = slugify (name d2) ->
  let csv := path_join out ⟪"recipes.csv"⟫ in
  let s' := snd (export_recipe out csv d2 (snd (export_recipe out csv d1 s))) in
  files s' !! photos_path out (name d1) = Some (lines_content (photos d2))
  /\ files s' !! ingredients_path out (name d1) = Some (lines_content (ingredients d2))
  /\ files s' !! steps_path out (name d1) = Some (lines_content (steps d2)).
Proof.
  intros Hslug csv s'. unfold photos_path, ingredients_path, steps_path. rewrite Hslug.
  pose proof (export_recipe_lookup out d2 (snd (export_recipe out csv d1 s))) as (H1 & H2 & H3 & _).
  by split_and!.
Qed.

(** ** Translation *)

(** A field after [translate] with a translator that answers [g]. *)
Definition translated (g : str -> str) (s : str) : str := if bool_decide (s = []) then [] else g s.

(** The texts [translate_recipe] may send to the translator: the
    non-empty text fields, in the order of the calls. *)
Definition nonempty_texts (d : recipe) : list str :=
  filter (fun x => x <> [])
    ([name d; recipe_type d] ++ ingredients d ++ [prep_time d; cook_time d; total_time d] ++ steps d).

Lemma translate_some (t : translator) (g : str -> str) s :
  (s <> [] -> t s = Ok (g s)) -> translate s (Some t) = Ok (translated g s).
Proof. destruct s as [|c s]; [done|]. intros H. simpl. by rewrite H. Qed.

Lemma nonempty_texts_elem (t : translator) (g : str -> str) d x :
  (forall y, y ∈ nonempty_texts d -> t y = Ok (g y)) ->
  x ∈ [name d; recipe_type d] ++ ingredients d ++ [prep_time d; cook_time d; total_time d] ++ steps d ->
  x <> [] -> t x = Ok (g x).
Proof. intros H Hx Hne. apply H. unfold nonempty_texts. by apply list_elem_of_filter. Qed.

(** C39: [export_recipe] stays in its place: it changes no file but its
    three text files and [recipes.csv], makes only [output/text], and
    each text file is [output/text/] followed by the slug and the
    suffix, where the slug has no [/] and no [.]: whatever the recipe
    is called, nothing is written outside [output/text] or over
    [recipes.csv]. *)
Theorem export_recipe_confined out d s :
  let csv := path_join out ⟪"recipes.csv"⟫ in
  let s' := snd (export_recipe out csv d s) in
  (forall q, q ∉ [photos_path out (name d); ingredients_path out (name d);
                  steps_path out (name d); csv] -> files s' !! q = files s !! q)
  /\ dirs s' = {[path_join out ⟪"text"⟫]} ∪ dirs s
  /\ (forall sfx, sfx ∈ [⟪"_photos.txt"⟫; ⟪"_ingredients.txt"⟫; ⟪"_steps.txt"⟫] ->
        text_path out (slugify (name d)) sfx
        = join_prefix (path_join out ⟪"text"⟫) ++ slugify (name d) ++ sfx)
  /\ ("/"%char ∉ slugify (name d)) /\ ("."%char ∉ slugify (name d)).
Proof.
  intros csv s'. subst s' csv. rewrite export_recipe_run. cbn [snd files dirs]. split_and!.
  - intros q Hq. rewrite !not_elem_of_cons in Hq. destruct Hq as (H1 & H2 & H3 & H4 & _).
    by rewrite !lookup_insert_ne by done.
  - done.
  - intros sfx Hsfx. unfold text_path. apply path_join_rel.
    repeat apply elem_of_cons in Hsfx as [->|Hsfx]; [..|by apply not_elem_of_nil in Hsfx];
      by apply slug_path_rel.
  - by apply slugify_no_char.
  - by apply slugify_no_char.
Qed.

(** C40: [translate_recipe] sends the translator only the non-empty
    text fields ([if not text: return text]) and never the photo URLs:
    when the translator answers [g] on each non-empty field, the recipe
    comes back with every non-empty field replaced by its translation,
    every empty field still empty, the lists translated element-wise in
    order and the photos unchanged, whatever the translator would do on
    the empty text. *)
Theorem translate_recipe_spec (t : translator) (g : str -> str) d :
  (forall x, x ∈ nonempty_texts d -> t x = Ok (g x)) ->
  translate_recipe t d
  = Ok (mk_recipe (translated g (name d)) (translated g (recipe_type d))
          (map (translated g) (ingredients d)) (translated g (prep_time d))
          (translated g (cook_time d)) (translated g (total_time d))
          (map (translated g) (steps d)) (photos d)).
Proof.
  intros H. unfold translate_recipe.
  rewrite !(translate_some t g) by (intros; eapply nonempty_texts_elem; [exact H|set_solver|done]).
  rewrite !(rmapM_map _ (translated g))
    by (intros x Hx; apply translate_some; intros; eapply nonempty_texts_elem; [exact H|set_solver|done]).
  done.
Qed.

(** ** The run of [main] *)

Section MainProps.
Context {Doc El : Type} `{!HtmlQuery Doc El}.
Variable parse_html : str -> Doc.
Variable server : str -> nat -> outcome.

(** The records that the recipes of [links] produce without
    translation, and the CSV rows they are written as. *)
Definition csv_records (links : list str) : list (list str) :=
  omap (fun url => match parse_recipe parse_html server url with
                   | Ok d => Some (csv_fields (normalize_recipe d))
                   | Err _ => None
                   end) links.

Definition csv_rows (links : list str) : list str := map csv_row (csv_records links).

Lemma process_url_no_translator out url s c :
  files s !! path_join out ⟪"recipes.csv"⟫ = Some c ->
  let r := process_url parse_html server None out (path_join out ⟪"recipes.csv"⟫) url s in
  fst r = Ok tt
  /\ files (snd r) !! path_join out ⟪"recipes.csv"⟫ = Some (c ++ concat (csv_rows [url])).
Proof.
  intros Hc r. subst r. unfold process_url, csv_rows.
  destruct (parse_recipe parse_html server url) as [d|e] eqn:Hp; cbn -[export_recipe];
    rewrite Hp; cbn -[export_recipe].
  - pose proof (export_recipe_lookup out (normalize_recipe d) s) as (_ & _ & _ & H).
    rewrite Hc in H. try rewrite app_nil_r. split; [|exact H].
    by rewrite export_recipe_run.
  - by try rewrite app_nil_r.
Qed.

Lemma for_each_no_translator out links s c :
  files s !! path_join out ⟪"recipes.csv"⟫ = Some c ->
  let r := for_each (process_url parse_html server None out (path_join out ⟪"recipes.csv"⟫))
             links s in
  fst r = Ok tt
  /\ files (snd r) !! path_join out ⟪"recipes.csv"⟫ = Some (c ++ concat (csv_rows links)).
Proof.
  revert s c. induction links as [|u links IH]; intros s c Hc; simpl.
  { by rewrite app_nil_r. }
  unfold pbind. pose proof (process_url_no_translator out u s c Hc) as [Hok Hf].
  destruct (process_url _ _ _ _ _ u s) as [r1 s1]. simpl in Hok, Hf. subst r1.
  destruct (IH s1 _ Hf) as [H1 H2]. split; [done|]. rewrite H2, <- app_assoc.
  unfold csv_rows. simpl. destruct (parse_recipe parse_html server u); simpl; by rewrite ?app_nil_r.
Qed.

(** C7: a link whose page fails to parse is printed and skipped: the
    loop body returns normally, writes no file and adds one line to
    the output. *)
Theorem process_url_parse_error tr out csv url e s :
  parse_recipe parse_html server url = Err e ->
  process_url parse_html server tr out csv url s
  = (Ok tt, mk_fs (files s) (dirs s) (stdout s ++ [LogParseFailed url e])).
Proof. intros H. unfold process_url. by rewrite H. Qed.

Lemma main_no_translator_run e start out s links :
  make_translator e = None ->
  extract_recipe_links parse_html server start = Ok links ->
  let r := main parse_html server e start out s in
  fst r = Ok tt
  /\ files (snd r) !! path_join out ⟪"recipes.csv"⟫
     = Some (csv_row csv_header ++ concat (csv_rows links))
  /\ last (stdout (snd r)) = Some (LogSaved (path_join out ⟪"recipes.csv"⟫)).
Proof.
  intros Htr Hlinks r. subst r. unfold main, plift, pbind. rewrite Hlinks, Htr. simpl.
  match goal with |- context [for_each ?f links ?s1] =>
    assert (files s1 !! path_join out ⟪"recipes.csv"⟫ = Some (csv_row csv_header)) as Hc
      by (simpl; by rewrite !lookup_insert_eq);
    destruct (for_each_no_translator out links s1 _ Hc) as [Hok Hf];
    destruct (for_each f links s1) as [r1 s2] end.
  simpl in Hok, Hf. subst r1. simpl. split_and!; [done|done|].
  by rewrite last_snoc.
Qed.

(** C1: without a translator (no key, an empty key, or no deepl
    module), [main] finishes normally, [recipes.csv] holds the header
    and then one row per link whose page parsed, in link order, with
    the untranslated fields and the normalised ingredients, and the
    last line printed is "Saved recipes to ...". *)
Theorem main_no_translator_csv e start out s links :
  make_translator e = None ->
  extract_recipe_links parse_html server start = Ok links ->
  let r := main parse_html server e start out s in
  fst r = Ok tt
  /\ files (snd r) !! path_join out ⟪"recipes.csv"⟫
     = Some (csv_row csv_header ++ concat (csv_rows links))
  /\ last (stdout (snd r)) = Some (LogSaved (path_join out ⟪"recipes.csv"⟫)).
Proof. apply main_no_translator_run. Qed.

(** C32: the file [main] writes reads back: without a translator,
    [recipes.csv] read by the reader of the [csv] dialect it is written
    in is the header followed by the record of every link whose page
    parsed, in link order, with the fields as parsed and the ingredients
    normalised; no field's comma, quote or line break shifts a column. *)
Theorem main_csv_reads_back e start out s links :
  make_translator e = None ->
  extract_recipe_links parse_html server start = Ok links ->
  read_rows <$> files (snd (main parse_html server e start out s)) !! path_join out ⟪"recipes.csv"⟫
  = Some (csv_header :: csv_records links).
Proof.
  intros Htr Hl. destruct (main_no_translator_run e start out s links Htr Hl) as (_ & -> & _).
  unfold read_rows, csv_rows. by rewrite <- (read_go_rows (csv_header :: csv_records links)).
Qed.

Lemma main_translation_abort_run e start out s t l1 u l2 d err :
  make_translator e = Some t ->
  extract_recipe_links parse_html server start = Ok (l1 ++ u :: l2) ->
  (forall x dx, x ∈ l1 -> parse_recipe parse_html server x = Ok dx ->
     exists dx', translate_recipe t (normalize_recipe dx) = Ok dx') ->
  parse_recipe parse_html server u = Ok d ->
  translate_recipe t (normalize_recipe d) = Err err ->
  fst (main parse_html server e start out s) = Err err.
Proof.
  intros Htr Hlinks Hl1 Hu Herr. unfold main, plift, pbind. rewrite Hlinks, Htr. simpl.
  match goal with |- context [for_each ?f _ ?s1] =>
    rewrite (for_each_app f l1 (u :: l2) s1);
    assert (fst (for_each f l1 s1) = Ok tt) as Hok;
    [|destruct (for_each f l1 s1) as [r1 s2]] end.
  - apply for_each_ok. intros x s' Hx. unfold process_url.
    destruct (parse_recipe parse_html server x) as [dx|] eqn:Hp; [|done].
    destruct (Hl1 x dx Hx Hp) as [dx' Hdx]. unfold pbind, plift. rewrite Hdx.
    by rewrite export_recipe_run.
  - simpl in Hok. subst r1. simpl. unfold pbind, process_url, plift.
    by rewrite Hu, Herr.
Qed.

(** C6: a translation that raises ends the whole run: when the links
    before [u] go through and the translation of [u]'s recipe raises
    [err], [main] raises [err] (no later link is processed and
    "Saved recipes" is not printed). *)
Theorem main_translation_abort e start out s t l1 u l2 d err :
  make_translator e = Some t ->
  extract_recipe_links parse_html server start = Ok (l1 ++ u :: l2) ->
  (forall x dx, x ∈ l1 -> parse_recipe parse_html server x = Ok dx ->
     exists dx', translate_recipe t (normalize_recipe dx) = Ok dx') ->
  parse_recipe parse_html server u = Ok d ->
  translate_recipe t (normalize_recipe d) = Err err ->
  fst (main parse_html server e start out s) = Err err.
Proof. apply main_translation_abort_run. Qed.

(** Whatever a link does, [recipes.csv] only grows. *)
Lemma process_url_csv_grows tr out url s c :
  files s !! path_join out ⟪"recipes.csv"⟫ = Some c ->
  exists c', files (snd (process_url parse_html server tr out (path_join out ⟪"recipes.csv"⟫) url s))
               !! path_join out ⟪"recipes.csv"⟫ = Some (c ++ c').
Proof.
  intros Hc. unfold process_url.
  destruct (parse_recipe parse_html server url) as [d|e]; [|exists []; by rewrite app_nil_r].
  unfold pbind, plift.
  destruct (match tr with Some t => translate_recipe t (normalize_recipe d)
            | None => Ok (normalize_recipe d) end) as [d'|e]; [|exists []; by rewrite app_nil_r].
  pose proof (export_recipe_lookup out d' s) as (_ & _ & _ & H). rewrite Hc in H.
  eexists. exact H.
Qed.

Lemma for_each_csv_grows tr out links s c :
  files s !! path_join out ⟪"recipes.csv"⟫ = Some c ->
  exists c', files (snd (for_each (process_url parse_html server tr out (path_join out ⟪"recipes.csv"⟫))
                           links s)) !! path_join out ⟪"recipes.csv"⟫ = Some (c ++ c').
Proof.
  revert s c. induction links as [|u links IH]; intros s c Hc; simpl.
  { exists []. by rewrite app_nil_r. }
  unfold pbind. destruct (process_url_csv_grows tr out u s c Hc) as [c1 H1].
  destruct (process_url _ _ _ _ _ u s) as [[] s1]; simpl in H1; [|by exists c1].
  destruct (IH s1 _ H1) as [c2 H2]. exists (c1 ++ c2). by rewrite app_assoc.
Qed.

(** Once the links are fetched, [recipes.csv] starts with the header,
    whatever the loop does afterwards: the header is written before it. *)
Lemma main_csv_header_first e start out s links :
  extract_recipe_links parse_html server start = Ok links ->
  exists c, files (snd (main parse_html server e start out s)) !! path_join out ⟪"recipes.csv"⟫
            = Some (csv_row csv_header ++ c).
Proof.
  intros Hlinks. unfold main, plift, pbind. rewrite Hlinks. simpl.
  match goal with |- context [for_each ?f links ?s1] =>
    assert (files s1 !! path_join out ⟪"recipes.csv"⟫ = Some (csv_row csv_header)) as Hc
      by (simpl; by rewrite !lookup_insert_eq);
    destruct (for_each_csv_grows (make_translator e) out links s1 _ Hc) as [c Hf];
    destruct (for_each f links s1) as [[] s2] end; simpl in *; [|by exists c].
  exists c. unfold print_line, pmodify. simpl. done.
Qed.

End MainProps.

(** ** Witnesses on the fixture web of [Scrape] *)

Definition empty_fs : fs := mk_fs ∅ ∅ [].

Definition pie1 : recipe := mk_recipe ⟪"Apple Pie!"⟫ [] [] [] [] [] [] [⟪"https://x.test/a.jpg"⟫].
Definition pie2 : recipe := mk_recipe ⟪"apple-pie"⟫ [] [] [] [] [] [] [⟪"https://x.test/b.jpg"⟫].

Lemma export_slug_collision_witness :
  slugify (name pie1) = slugify (name pie2)
  /\ files (snd (export_recipe ⟪"out"⟫ (path_join ⟪"out"⟫ ⟪"recipes.csv"⟫) pie2
                  (snd (export_recipe ⟪"out"⟫ (path_join ⟪"out"⟫ ⟪"recipes.csv"⟫) pie1 empty_fs))))
       !! photos_path ⟪"out"⟫ (name pie1)
     = Some (lines_content [⟪"https://x.test/b.jpg"⟫]).
Proof.
  assert (slugify (name pie1) = slugify (name pie2)) as H by (vm_compute; reflexivity).
  split; [exact H|]. exact (proj1 (export_slug_collision ⟪"out"⟫ pie1 pie2 empty_fs H)).
Defined.

Lemma process_url_parse_error_witness :
  parse_recipe fixture_html fixture_server ⟪"https://x.test/notitle"⟫ = Err AttributeError
  /\ process_url fixture_html fixture_server None ⟪"out"⟫ (path_join ⟪"out"⟫ ⟪"recipes.csv"⟫)
       ⟪"https://x.test/notitle"⟫ empty_fs
     = (Ok tt, mk_fs ∅ ∅ [LogParseFailed ⟪"https://x.test/notitle"⟫ AttributeError]).
Proof.
  assert (parse_recipe fixture_html fixture_server ⟪"https://x.test/notitle"⟫
          = Err AttributeError) as H by (vm_compute; reflexivity).
  split; [exact H|]. exact (process_url_parse_error fixture_html fixture_server _ _ _ _ _ _ H).
Defined.

Definition env_no_key : env := mk_env None None.

Lemma main_no_translator_csv_witness :
  fst (main fixture_html fixture_server env_no_key index_url ⟪"out"⟫ empty_fs) = Ok tt.
Proof.
  refine (proj1 (main_no_translator_csv fixture_html fixture_server env_no_key index_url
                   ⟪"out"⟫ empty_fs [⟪"https://x.test/recipe/1"⟫; ⟪"https://x.test/a/recipe/2"⟫]
                   eq_refl _)).
  vm_compute. reflexivity.
Defined.

Lemma main_csv_reads_back_witness :
  read_rows <$> files (snd (main fixture_html fixture_server env_no_key index_url ⟪"out"⟫ empty_fs))
                  !! path_join ⟪"out"⟫ ⟪"recipes.csv"⟫
  = Some (csv_header :: csv_records fixture_html fixture_server
                          [⟪"https://x.test/recipe/1"⟫; ⟪"https://x.test/a/recipe/2"⟫]).
Proof.
  apply (main_csv_reads_back fixture_html fixture_server env_no_key index_url ⟪"out"⟫ empty_fs
           _ eq_refl).
  vm_compute. reflexivity.
Defined.

(** A DeepL client that fails on the empty text and marks any other. *)
Definition marking_deepl : translator :=
  fun x => match x with [] => Err (DeepLException ⟪"empty"⟫) | _ => Ok (x ++ ⟪"!"⟫) end.

Lemma translate_recipe_spec_witness :
  translate_recipe marking_deepl pie1
  = Ok (mk_recipe ⟪"Apple Pie!!"⟫ [] [] [] [] [] [] [⟪"https://x.test/a.jpg"⟫]).
Proof.
  rewrite (translate_recipe_spec marking_deepl (fun x => x ++ ⟪"!"⟫) pie1).
  - vm_compute. reflexivity.
  - intros x Hx. vm_compute in Hx. by apply list_elem_of_singleton in Hx as ->.
Defined.

(** A DeepL client whose every call raises. *)
Definition failing_deepl (key : str) : translator := fun _ => Err (DeepLException ⟪"quota"⟫).
Definition env_failing : env := mk_env (Some ⟪"key"⟫) (import_deepl true failing_deepl).

Lemma main_translation_abort_witness :
  fst (main fixture_html fixture_server env_failing index_url ⟪"out"⟫ empty_fs)
  = Err (DeepLException ⟪"quota"⟫).
Proof.
  apply (main_translation_abort fixture_html fixture_server env_failing index_url ⟪"out"⟫
           empty_fs (failing_deepl ⟪"key"⟫) [] ⟪"https://x.test/recipe/1"⟫
           [⟪"https://x.test/a/recipe/2"⟫]
           (mk_recipe ⟪"ApplePie"⟫ ⟪"Dessert"⟫ [⟪"Flour"⟫; ⟪"flour"⟫] ⟪"10 min"⟫ [] []
              [⟪"Mix."⟫; ⟪"Bake."⟫]
              [⟪"https://x.test/img/Pie.JPG"⟫; ⟪"https://x.test/recipe/b.png"⟫])).
  - reflexivity.
  - vm_compute. reflexivity.
  - intros x dx Hx. set_solver.
  - vm_compute. reflexivity.
  - vm_compute. reflexivity.
Defined.

Example main_fixture_csv :
  files (snd (main fixture_html fixture_server env_no_key index_url ⟪"out"⟫ empty_fs))
    !! ⟪"out/recipes.csv"⟫
  = Some (csv_row csv_header
          ++ csv_row [⟪"ApplePie"⟫; ⟪"Dessert"⟫; ⟪"Flour"⟫; ⟪"10 min"⟫; []; []]
          ++ csv_row [⟪"Soup"⟫; []; []; []; []; []]).
Proof. vm_compute. reflexivity. Qed.

End Pipeline.
