(* ===== verification/Download.v ===== *)
(** * The image downloader (src/download_images.py)

    [download_images.py] reads the [*_photos.txt] files of a directory
    and downloads every URL listed in them. Its state is the file system
    and its printed lines, [dl_state]; the functions of the script are
    [download_image] (lines 9-23), [download_from_txt] (lines 26-31) and
    [main] (lines 34-38).

    - [requests.get(url, timeout=10)] is one attempt (no [Retry] is
      mounted here): no response, a timeout included, raises
      [ConnectionError]; any status is returned and [raise_for_status]
      raises on 4xx and 5xx. Both are caught, printed and the image
      skipped.
    - [urlparse(url)] runs before the [try]: its [ValueError] is not
      caught and ends the whole run.
    - [for line in f] reads the file in text mode with universal
      newlines: CRLF and CR become LF, and the lines are the pieces
      between LFs ([file_lines]; the terminator, which [strip] removes,
      is left out).
    - [txt_dir.glob("*_photos.txt")] lists the entries whose name ends in
      [_photos.txt]; the listing order of the directory is the parameter
      [entries]. *)

From S2P Require Import Prelude Url Session Scrape Csv Pipeline.

Module Download.
Import Url Session Scrape Csv Pipeline.

Inductive dl_log :=
  | LogDownloadFailed (url : str) (e : exn)   (** [print(f"Failed to download {url}: {exc}")] *)
  | LogDownloaded (url path : str)            (** [print(f"Saved {url} -> {path}")] *)
  | DlUsage.                                  (** [print("Usage: python download_images.py ...")] *)

Record dl_state := mk_dl { dfiles : gmap str str; ddirs : gset str; dout : list dl_log }.

(** [dest_folder.mkdir(parents=True, exist_ok=True)] *)
Definition mkdir (p : str) : PyM dl_state unit :=
  pmodify (fun s => mk_dl (dfiles s) ({[p]} ∪ ddirs s) (dout s)).

(** [with open(path, "wb") as f: f.write(content)] *)
Definition write_bytes (p content : str) : PyM dl_state unit :=
  pmodify (fun s => mk_dl (<[p := content]> (dfiles s)) (ddirs s) (dout s)).

Definition print_dl (l : dl_log) : PyM dl_state unit :=
  pmodify (fun s => mk_dl (dfiles s) (ddirs s) (dout s ++ [l])).

(** [open(path, "r")] and reading it whole. *)
Definition read_file (p : str) : PyM dl_state str :=
  fun s => match dfiles s !! p with
           | Some c => (Ok c, s)
           | None => (Err (FileNotFoundError p), s)
           end.

(** The name of the downloaded file, lines 11-13. *)
Definition image_name (path : str) : str :=
  let name := basename path in
  if bool_decide (name = []) then ⟪"image"⟫ else name.

(** Universal newlines: CRLF and CR read as LF. *)
Fixpoint universal_newlines (s : str) : str :=
  match s with
  | [] => []
  | c :: s' =>
      if bool_decide (c = carriage_return) then
        match s' with
        | d :: s'' => if bool_decide (d = newline) then newline :: universal_newlines s''
                      else newline :: universal_newlines s'
        | [] => [newline]
        end
      else c :: universal_newlines s'
  end.

(** The lines [for line in f] yields, without their terminators. *)
Definition file_lines (content : str) : list str :=
  let ps := split_on newline (universal_newlines content) in
  if bool_decide (last ps = Some []) then removelast ps else ps.

Section Downloader.
(** The web: what one request to [url] receives. *)
Variable server : str -> nat -> outcome.

(** [requests.get(url, timeout=10)]: a single attempt. *)
Definition requests_get (url : str) : result response :=
  match server url 0 with
  | Response st _ body => Ok (mk_response st body)
  | NoResponse => Err ConnectionError
  end.

Definition download_image (url dest : str) : PyM dl_state unit :=
  mkdir dest ;;;
  parts <-- plift (urlparse url []) ;;;
  let path := path_join dest (image_name (pr_path parts)) in
  match (r <- requests_get url ;; _ <- raise_for_status r ;; Ok r) with
  | Err e => print_dl (LogDownloadFailed url e)
  | Ok resp => write_bytes path (text resp) ;;; print_dl (LogDownloaded url path)
  end.

(** One iteration of lines 28-31. *)
Definition download_line (dest line : str) : PyM dl_state unit :=
  let url := strip line in
  if bool_decide (url = []) then pret tt else download_image url dest.

Definition download_from_txt (txt_path dest : str) : PyM dl_state unit :=
  content <-- read_file txt_path ;;;
  for_each (download_line dest) (file_lines content).

(** [txt_dir.glob("*_photos.txt")] on a listing. *)
Definition photo_entries (entries : list str) : list str :=
  List.filter (fun n => endswith n ⟪"_photos.txt"⟫) entries.

Definition main (entries : list str) (txt_dir dest : str) : PyM dl_state unit :=
  for_each (fun n => download_from_txt (path_join txt_dir n) dest) (photo_entries entries).
End Downloader.

(** The URL a printed line reports on. *)
Definition dl_log_url (l : dl_log) : option str :=
  match l with
  | LogDownloadFailed u _ | LogDownloaded u _ => Some u
  | DlUsage => None
  end.

(** The file [download_image(url, dest)] writes to, when [urlparse] accepts [url]. *)
Definition image_path (dest url : str) : option str :=
  match urlparse url [] with
  | Ok p => Some (path_join dest (image_name (pr_path p)))
  | Err _ => None
  end.

(** ** Lemmas *)

Lemma universal_newlines_id s : carriage_return ∉ s -> universal_newlines s = s.
Proof.
  induction s as [|c s IH]; intros Hs; simpl; [done|].
  rewrite bool_decide_false by set_solver. f_equal. apply IH. set_solver.
Qed.

Lemma lines_content_cons p P : lines_content (p :: P) = p ++ newline :: lines_content P.
Proof. unfold lines_content. simpl. by rewrite <- app_assoc. Qed.

Lemma split_lines_content P :
  Forall (fun p => newline ∉ p) P -> split_on newline (lines_content P) = P ++ [[]].
Proof.
  induction 1 as [|p P Hp _ IH]; [done|].
  rewrite lines_content_cons, split_on_app by done. by rewrite IH.
Qed.

Lemma no_cr_lines_content P :
  Forall (fun p => carriage_return ∉ p) P -> carriage_return ∉ lines_content P.
Proof.
  induction 1 as [|p P Hp _ IH]; [set_solver|]. rewrite lines_content_cons.
  rewrite elem_of_app, elem_of_cons. intros [?|[E|?]]; [done| |done]. discriminate E.
Qed.

(** A line of a photo file that reads back as itself. *)
Definition photo_line_ok (p : str) : Prop :=
  p <> [] /\ strip p = p /\ (newline ∉ p) /\ (carriage_return ∉ p).

(** Reading back the lines [lines_content] wrote gives them back. *)
Lemma file_lines_lines_content P :
  Forall (fun p => (newline ∉ p) /\ (carriage_return ∉ p)) P -> file_lines (lines_content P) = P.
Proof.
  intros HP. unfold file_lines.
  rewrite universal_newlines_id
    by (apply no_cr_lines_content; eapply Forall_impl; [exact HP|]; naive_solver).
  rewrite split_lines_content by (eapply Forall_impl; [exact HP|]; naive_solver).
  rewrite last_snoc, bool_decide_true by done. by rewrite removelast_last.
Qed.

Lemma download_from_lines server txt dest P s :
  Forall photo_line_ok P -> dfiles s !! txt = Some (lines_content P) ->
  download_from_txt server txt dest s = for_each (fun u => download_image server u dest) P s.
Proof.
  intros HP Hf. unfold download_from_txt, read_file, pbind. rewrite Hf.
  rewrite file_lines_lines_content
    by (eapply Forall_impl; [exact HP|]; unfold photo_line_ok; naive_solver).
  apply for_each_ext. intros u s' Hu. apply Forall_forall with (x := u) in HP as (Hne & Hs & _);
    [|done].
  unfold download_line. rewrite Hs, bool_decide_false by done. done.
Qed.

(** One download: it returns, prints one line about [url] and writes
    no file but its own. *)
Lemma download_image_attempt server url dest s p :
  urlparse url [] = Ok p ->
  let r := download_image server url dest s in
  fst r = Ok tt /\ omap dl_log_url (dout (snd r)) = omap dl_log_url (dout s) ++ [url]
  /\ forall q, image_path dest url <> Some q -> dfiles (snd r) !! q = dfiles s !! q.
Proof.
  intros Hp r. subst r. unfold image_path. rewrite Hp.
  unfold download_image, pbind, plift, mkdir, pmodify. rewrite Hp. cbn [fst snd dout dfiles].
  destruct (r <- requests_get server url ;; _ <- raise_for_status r ;; Ok r) as [resp|e];
    cbn -[omap]; rewrite omap_app; (split_and!; [done|done|]); intros q Hq; [|done].
  apply lookup_insert_ne. congruence.
Qed.

Lemma for_each_download server P dest s :
  (forall u, u ∈ P -> exists p, urlparse u [] = Ok p) ->
  let r := for_each (fun u => download_image server u dest) P s in
  fst r = Ok tt /\ omap dl_log_url (dout (snd r)) = omap dl_log_url (dout s) ++ P
  /\ forall q, (forall u, u ∈ P -> image_path dest u <> Some q) -> dfiles (snd r) !! q = dfiles s !! q.
Proof.
  revert s. induction P as [|u P IH]; intros s HP r; subst r; simpl.
  { by rewrite app_nil_r. }
  destruct (HP u ltac:(set_solver)) as [p Hp]. unfold pbind.
  destruct (download_image_attempt server u dest s p Hp) as (Hok & Hout & Hfiles).
  destruct (download_image server u dest s) as [r1 s1]. simpl in Hok, Hout, Hfiles. subst r1.
  destruct (IH s1) as (Hok' & Hout' & Hfiles'); [set_solver|].
  split_and!; [done|by rewrite Hout', Hout, <- app_assoc|].
  intros q Hq. rewrite Hfiles', Hfiles; [done| |]; intros; apply Hq; set_solver.
Qed.

(** The photo files one after the other: every URL of every file is
    attempted, as long as no download overwrites a photo file. *)
Lemma photo_files_attempts server L dir dest s urls :
  (forall n, n ∈ L -> dfiles s !! path_join dir n = Some (lines_content (urls n))) ->
  (forall n u, n ∈ L -> u ∈ urls n -> photo_line_ok u /\ exists p, urlparse u [] = Ok p) ->
  (forall n m u, n ∈ L -> m ∈ L -> u ∈ urls n -> image_path dest u <> Some (path_join dir m)) ->
  let r := for_each (fun n => download_from_txt server (path_join dir n) dest) L s in
  fst r = Ok tt /\ omap dl_log_url (dout (snd r)) = omap dl_log_url (dout s) ++ concat (map urls L).
Proof.
  revert s. induction L as [|n L IH]; intros s Hfile Hurl Hsep r; subst r; simpl.
  { by rewrite app_nil_r. }
  unfold pbind. rewrite (download_from_lines server _ dest (urls n));
    [|apply Forall_forall; intros u Hu; apply (Hurl n u); set_solver|apply Hfile; set_solver].
  destruct (for_each_download server (urls n) dest s) as (Hok & Hout & Hfiles);
    [intros u Hu; apply (Hurl n u); set_solver|].
  destruct (for_each _ (urls n) s) as [r1 s1]. simpl in Hok, Hout, Hfiles. subst r1.
  destruct (IH s1) as (Hok' & Hout'); [| |intros n' m u ? ? ?; apply (Hsep n' m u); set_solver|].
  - intros m Hm. rewrite Hfiles; [apply Hfile; set_solver|].
    intros u Hu. apply (Hsep n m u); set_solver.
  - intros m u Hm Hu. apply (Hurl m u); set_solver.
  - split; [done|]. by rewrite Hout', Hout, <- app_assoc.
Qed.

(** [urlparse] runs before the [try]: its error leaves [download_image]. *)
Lemma download_image_parse_error server url dest e s :
  urlparse url [] = Err e ->
  download_image server url dest s = (Err e, mk_dl (dfiles s) ({[dest]} ∪ ddirs s) (dout s)).
Proof. intros He. unfold download_image, pbind, plift, mkdir, pmodify. by rewrite He. Qed.

(** ** Properties of the downloader *)

(** C10: the photo file the scraper writes for a recipe is read back by
    the downloader as exactly the recipe's photo URLs: running
    [download_from_txt] on [text/{slug}_photos.txt] right after
    [export_recipe] downloads [photos d], in order, once each, provided
    every URL is non-empty, stripped and free of line breaks. *)
Theorem scraper_photo_file_downloads server out d s dest ds :
  Forall photo_line_ok (photos d) ->
  let files' := files (snd (export_recipe out (path_join out ⟪"recipes.csv"⟫) d s)) in
  download_from_txt server (photos_path out (name d)) dest (mk_dl files' (ddirs ds) (dout ds))
  = for_each (fun u => download_image server u dest) (photos d) (mk_dl files' (ddirs ds) (dout ds)).
Proof.
  intros HP files'. apply download_from_lines; [done|]. apply export_recipe_lookup.
Qed.

(** C38: liveness of the downloader: every URL of every photo file is
    attempted. When each [*_photos.txt] file of the listing holds URLs
    that are non-empty, stripped, free of line breaks and accepted by
    [urlparse], and no image is saved over a photo file, [main] returns
    and prints exactly one line per URL (saved or failed), for the files
    in listing order and each file's URLs in line order. *)
Theorem download_main_attempts_all server entries dir dest s urls :
  (forall n, n ∈ photo_entries entries ->
     dfiles s !! path_join dir n = Some (lines_content (urls n))) ->
  (forall n u, n ∈ photo_entries entries -> u ∈ urls n ->
     photo_line_ok u /\ exists p, urlparse u [] = Ok p) ->
  (forall n m u, n ∈ photo_entries entries -> m ∈ photo_entries entries -> u ∈ urls n ->
     image_path dest u <> Some (path_join dir m)) ->
  let r := main server entries dir dest s in
  fst r = Ok tt
  /\ omap dl_log_url (dout (snd r))
     = omap dl_log_url (dout s) ++ concat (map urls (photo_entries entries)).
Proof. apply photo_files_attempts. Qed.

(** C23: the name a downloaded image is saved under is never empty and
    has no [/]: the file always lands directly in the destination folder. *)
Theorem image_name_safe path : image_name path <> [] /\ "/"%char ∉ image_name path.
Proof.
  unfold image_name. case_bool_decide as E; [|split; [done|apply basename_no_slash]].
  assert (bool_decide ("/"%char ∈ ⟪"image"⟫) = false) as Hb by (vm_compute; reflexivity).
  split; [unfold lit; discriminate|]. by apply bool_decide_eq_false in Hb.
Qed.

(** C22: a request that gets no response or an error status is printed
    and skipped: nothing is written and the loop goes on. *)
Theorem download_image_failure server url dest parts e s :
  urlparse url [] = Ok parts ->
  (requests_get server url = Err e
   \/ exists r, requests_get server url = Ok r /\ raise_for_status r = Err e) ->
  download_image server url dest s
  = (Ok tt, mk_dl (dfiles s) ({[dest]} ∪ ddirs s) (dout s ++ [LogDownloadFailed url e])).
Proof.
  intros Hp He. unfold download_image, pbind, plift, mkdir, print_dl, pmodify. rewrite Hp. simpl.
  destruct He as [He|(r & Hr & He)]; rewrite ?He, ?Hr; simpl; [done|by rewrite He].
Qed.

(** C24: two downloads whose URL paths have the same last component are
    saved under the same name: the second image replaces the first. *)
Theorem download_name_collision server u1 u2 dest p1 p2 r2 s :
  urlparse u1 [] = Ok p1 -> urlparse u2 [] = Ok p2 ->
  image_name (pr_path p1) = image_name (pr_path p2) ->
  requests_get server u2 = Ok r2 -> raise_for_status r2 = Ok tt ->
  dfiles (snd (download_image server u2 dest (snd (download_image server u1 dest s))))
    !! path_join dest (image_name (pr_path p1)) = Some (text r2).
Proof.
  intros H1 H2 Hn Hr Hs. rewrite Hn.
  unfold download_image at 1. unfold pbind at 1 2, plift, mkdir, pmodify. rewrite H2. simpl.
  rewrite Hr. simpl. rewrite Hs. simpl. apply lookup_insert_eq.
Qed.

(** C25: a line of a photo file that [urlparse] rejects (for instance
    an unbalanced bracket in the host) raises out of [download_image]:
    the exception is raised before the [try], so it ends the whole run.
    The valid lines before it are attempted, one printed line each, and
    neither it nor any line after it is attempted. *)
Theorem download_bad_url_aborts server txt dest P1 u P2 e s :
  Forall photo_line_ok (P1 ++ u :: P2) ->
  dfiles s !! txt = Some (lines_content (P1 ++ u :: P2)) ->
  (forall x, x ∈ P1 -> exists p, urlparse x [] = Ok p) ->
  urlparse u [] = Err e ->
  fst (download_from_txt server txt dest s) = Err e
  /\ omap dl_log_url (dout (snd (download_from_txt server txt dest s)))
     = omap dl_log_url (dout s) ++ P1.
Proof.
  intros HP Hf H1 Hu. rewrite (download_from_lines server txt dest _ s HP Hf), for_each_app.
  destruct (for_each_download server P1 dest s H1) as (Hok & Hout & _).
  destruct (for_each _ P1 s) as [r1 s1]. simpl in Hok, Hout. subst r1.
  simpl. unfold pbind. by rewrite (download_image_parse_error server u dest e s1 Hu).
Qed.

(** ** Witnesses *)

Definition dl_server (url : str) (k : nat) : outcome :=
  if decide (url = ⟪"https://x.test/img/a.jpg"⟫) then Response 200 None ⟪"JPEG-1"⟫
  else if decide (url = ⟪"https://y.test/a.jpg"⟫) then Response 200 None ⟪"JPEG-2"⟫
  else if decide (url = ⟪"https://x.test/missing.jpg"⟫) then Response 404 None []
  else NoResponse.

Definition dl_empty : dl_state := mk_dl ∅ ∅ [].

Lemma download_image_failure_witness :
  download_image dl_server ⟪"https://x.test/missing.jpg"⟫ ⟪"images"⟫ dl_empty
  = (Ok tt, mk_dl ∅ {[⟪"images"⟫]} [LogDownloadFailed ⟪"https://x.test/missing.jpg"⟫ (HTTPError 404)]).
Proof.
  refine (download_image_failure dl_server _ _
            (Url.mk_parse ⟪"https"⟫ ⟪"x.test"⟫ ⟪"/missing.jpg"⟫ [] [] []) _ dl_empty _ _).
  - vm_compute. reflexivity.
  - right. exists (mk_response 404 []). split; vm_compute; reflexivity.
Defined.

Lemma download_name_collision_witness :
  dfiles (snd (download_image dl_server ⟪"https://y.test/a.jpg"⟫ ⟪"images"⟫
                 (snd (download_image dl_server ⟪"https://x.test/img/a.jpg"⟫ ⟪"images"⟫ dl_empty))))
    !! path_join ⟪"images"⟫ (image_name ⟪"/img/a.jpg"⟫) = Some ⟪"JPEG-2"⟫.
Proof.
  apply (download_name_collision dl_server _ _ _
           (Url.mk_parse ⟪"https"⟫ ⟪"x.test"⟫ ⟪"/img/a.jpg"⟫ [] [] [])
           (Url.mk_parse ⟪"https"⟫ ⟪"y.test"⟫ ⟪"/a.jpg"⟫ [] [] [])
           (mk_response 200 ⟪"JPEG-2"⟫)); vm_compute; reflexivity.
Defined.

Definition pie_photos : recipe :=
  mk_recipe ⟪"Pie"⟫ [] [] [] [] [] [] [⟪"https://x.test/img/a.jpg"⟫; ⟪"https://y.test/a.jpg"⟫].

Lemma scraper_photo_file_downloads_witness :
  download_from_txt dl_server (photos_path ⟪"out"⟫ ⟪"Pie"⟫) ⟪"images"⟫
    (mk_dl (files (snd (export_recipe ⟪"out"⟫ (path_join ⟪"out"⟫ ⟪"recipes.csv"⟫) pie_photos
                          empty_fs))) ∅ [])
  = for_each (fun u => download_image dl_server u ⟪"images"⟫) (photos pie_photos)
      (mk_dl (files (snd (export_recipe ⟪"out"⟫ (path_join ⟪"out"⟫ ⟪"recipes.csv"⟫) pie_photos
                            empty_fs))) ∅ []).
Proof.
  apply (scraper_photo_file_downloads dl_server ⟪"out"⟫ pie_photos empty_fs ⟪"images"⟫ dl_empty).
  repeat constructor; first [discriminate|vm_compute; reflexivity|decide_closed].
Defined.

Definition two_urls : list str := [⟪"https://x.test/img/a.jpg"⟫; ⟪"https://x.test/missing.jpg"⟫].

Definition two_urls_dir : dl_state :=
  mk_dl {[⟪"t/x_photos.txt"⟫ := lines_content two_urls]} ∅ [].

Definition urls_of (n : str) : list str := if decide (n = ⟪"x_photos.txt"⟫) then two_urls else [].

Lemma download_main_attempts_all_witness :
  omap dl_log_url (dout (snd (main dl_server [⟪"x_photos.txt"⟫; ⟪"notes.txt"⟫] ⟪"t"⟫ ⟪"images"⟫
                                two_urls_dir)))
  = two_urls.
Proof.
  refine (proj2 (download_main_attempts_all dl_server [⟪"x_photos.txt"⟫; ⟪"notes.txt"⟫]
                   ⟪"t"⟫ ⟪"images"⟫ two_urls_dir urls_of _ _ _)).
  - intros n Hn. vm_compute in Hn. apply list_elem_of_singleton in Hn as ->.
    vm_compute. reflexivity.
  - intros n u Hn Hu. vm_compute in Hn. apply list_elem_of_singleton in Hn as ->.
    vm_compute in Hu. repeat apply elem_of_cons in Hu as [->|Hu];
      [..|by apply not_elem_of_nil in Hu];
      (split; [unfold photo_line_ok; split_and!; [discriminate|vm_compute; reflexivity|
                                                  decide_closed|decide_closed]
              |eexists; vm_compute; reflexivity]).
  - intros n m u Hn Hm Hu. vm_compute in Hn, Hm.
    apply list_elem_of_singleton in Hn as ->. apply list_elem_of_singleton in Hm as ->.
    vm_compute in Hu. repeat apply elem_of_cons in Hu as [->|Hu];
      [..|by apply not_elem_of_nil in Hu]; vm_compute; discriminate.
Defined.

(** A photo file whose second line is not a valid URL. *)
Definition bad_urls : list str :=
  [⟪"https://x.test/img/a.jpg"⟫; ⟪"http://[bad/a.jpg"⟫; ⟪"https://x.test/img/b.jpg"⟫].

Definition bad_file : dl_state := mk_dl {[⟪"t/x_photos.txt"⟫ := lines_content bad_urls]} ∅ [].

Lemma download_bad_url_aborts_witness :
  fst (download_from_txt dl_server ⟪"t/x_photos.txt"⟫ ⟪"images"⟫ bad_file) = Err ValueError
  /\ omap dl_log_url (dout (snd (download_from_txt dl_server ⟪"t/x_photos.txt"⟫ ⟪"images"⟫ bad_file)))
     = [⟪"https://x.test/img/a.jpg"⟫].
Proof.
  refine (download_bad_url_aborts dl_server ⟪"t/x_photos.txt"⟫ ⟪"images"⟫
            [⟪"https://x.test/img/a.jpg"⟫] ⟪"http://[bad/a.jpg"⟫ [⟪"https://x.test/img/b.jpg"⟫]
            ValueError bad_file _ _ _ _).
  - repeat constructor; first [discriminate|vm_compute; reflexivity|decide_closed].
  - vm_compute. reflexivity.
  - intros x Hx. apply list_elem_of_singleton in Hx as ->. eexists. vm_compute. reflexivity.
  - vm_compute. reflexivity.
Defined.

End Download.
