(* ===== verification/Cli.v ===== *)
(** * The command-line entry points

    Each script ends in an [if __name__ == "__main__":] block
    (scrape_recipes.py lines 171-177, download_images.py lines 41-47)
    that reads [sys.argv], program name first. With fewer than two
    entries it prints a usage line and calls [sys.exit(1)]. Otherwise it
    calls the script's [main] with [argv[1]] and with [argv[2]] when
    given, else the default directory: "output" for the scraper,
    "images" for the downloader. Entries after [argv[2]] are ignored.

    [exit_status] is the interpreter's exit status for the outcome of a
    run: 0 when [main] returns, the code of a [SystemExit], and 1 for
    any other exception, which Python reports with a traceback.

    The downloader's [txt_dir.glob(...)] lists a directory; the listing,
    in the order the file system returns it, is the parameter
    [listing]. *)

From S2P Require Import Prelude Html Url Session Scrape Csv Pipeline Download.

Module Cli.
Import Html Session Scrape Csv Pipeline Download.

Definition exit_status (r : result unit) : Z :=
  match r with
  | Ok _ => 0
  | Err (SystemExit c) => c
  | Err _ => 1
  end.

Section ScrapeCli.
Context {Doc El : Type} `{!HtmlQuery Doc El}.
Variable parse_html : str -> Doc.
Variable server : str -> nat -> outcome.

(** scrape_recipes.py, lines 171-177 *)
Definition scrape_recipes_cli (e : env) (argv : list str) : PyM fs unit :=
  if length argv <? 2 then print_line LogUsage ;;; praise (SystemExit 1)
  else
    let start_url := nth 1 argv [] in
    let output_dir := if 2 <? length argv then nth 2 argv [] else ⟪"output"⟫ in
    Pipeline.main parse_html server e start_url output_dir.
End ScrapeCli.

Section DownloadCli.
Variable server : str -> nat -> outcome.
(** The names in a directory, in listing order. *)
Variable listing : str -> list str.

(** download_images.py, lines 41-47 *)
Definition download_images_cli (argv : list str) : PyM dl_state unit :=
  if length argv <? 2 then print_dl DlUsage ;;; praise (SystemExit 1)
  else
    let txt_dir := nth 1 argv [] in
    let images_dir := if 2 <? length argv then nth 2 argv [] else ⟪"images"⟫ in
    Download.main server (listing txt_dir) txt_dir images_dir.
End DownloadCli.

(** ** Lemmas *)

Section CliLemmas.
Context {Doc El : Type} `{!HtmlQuery Doc El}.
Variable parse_html : str -> Doc.
Variable server : str -> nat -> outcome.
Variable listing : str -> list str.

Lemma scrape_cli_dispatch e p u rest :
  scrape_recipes_cli parse_html server e (p :: u :: rest)
  = Pipeline.main parse_html server e u (default ⟪"output"⟫ (head rest)).
Proof. unfold scrape_recipes_cli. by destruct rest. Qed.

Lemma download_cli_dispatch p d rest :
  download_images_cli server listing (p :: d :: rest)
  = Download.main server (listing d) d (default ⟪"images"⟫ (head rest)).
Proof. unfold download_images_cli. by destruct rest. Qed.

Lemma argv_short (argv : list str) : length argv < 2 -> (length argv <? 2) = true.
Proof. apply Nat.ltb_lt. Qed.
End CliLemmas.

(** ** A downloader fixture: a photo file whose second line is malformed *)

Definition dl_listing (d : str) : list str :=
  if decide (d = ⟪"t"⟫) then [⟪"x_photos.txt"⟫; ⟪"notes.txt"⟫] else [].

Definition dl_fixture : dl_state :=
  mk_dl {[⟪"t/x_photos.txt"⟫ := ⟪"https://x.test/img/a.jpg"⟫ ++ [newline]
                                  ++ ⟪"http://[bad/a.jpg"⟫ ++ [newline]]} ∅ [].

(** ** Properties of the entry points *)

Section CliProps.
Context {Doc El : Type} `{!HtmlQuery Doc El}.
Variable parse_html : str -> Doc.
Variable server : str -> nat -> outcome.
Variable listing : str -> list str.

(** C33: both entry points, given fewer than two [argv] entries, print
    their usage line, write nothing and raise [SystemExit(1)], so the
    process exits with status 1. *)
Theorem cli_usage_exit e argv s ds :
  length argv < 2 ->
  scrape_recipes_cli parse_html server e argv s
    = (Err (SystemExit 1), mk_fs (files s) (dirs s) (stdout s ++ [LogUsage]))
  /\ download_images_cli server listing argv ds
    = (Err (SystemExit 1), mk_dl (dfiles ds) (ddirs ds) (dout ds ++ [DlUsage])).
Proof.
  intros H. unfold scrape_recipes_cli, download_images_cli. by rewrite argv_short.
Qed.

(** C34: [python scrape_recipes.py URL] with no translator exits with
    status 0, writes [output/recipes.csv] (the default directory) with
    the header and one row per parsed link, and last prints its path. *)
Theorem scrape_cli_default_output e prog url s links :
  make_translator e = None ->
  extract_recipe_links parse_html server url = Ok links ->
  let r := scrape_recipes_cli parse_html server e [prog; url] s in
  exit_status (fst r) = 0%Z
  /\ files (snd r) !! ⟪"output/recipes.csv"⟫
     = Some (csv_row csv_header ++ concat (csv_rows parse_html server links))
  /\ last (stdout (snd r)) = Some (LogSaved ⟪"output/recipes.csv"⟫).
Proof.
  intros Htr Hl r. subst r. rewrite scrape_cli_dispatch.
  change (default ⟪"output"⟫ (head [])) with ⟪"output"⟫.
  destruct (main_no_translator_run parse_html server e url ⟪"output"⟫ s links Htr Hl)
    as (Hok & Hf & Hlast).
  assert (path_join ⟪"output"⟫ ⟪"recipes.csv"⟫ = ⟪"output/recipes.csv"⟫) as Hp
    by (vm_compute; reflexivity).
  rewrite Hp in Hf, Hlast. by rewrite Hok.
Qed.

(** C35: a run that fails part-way exits with a non-zero status: when
    the translation of a recipe raises (anything but [SystemExit]), the
    process exits with status 1, and [recipes.csv] is left on disk with
    its header and the rows written before the failure. *)
Theorem scrape_cli_translation_failure_status e prog url out s t l1 u l2 d err :
  (forall c, err <> SystemExit c) ->
  make_translator e = Some t ->
  extract_recipe_links parse_html server url = Ok (l1 ++ u :: l2) ->
  (forall x dx, x ∈ l1 -> parse_recipe parse_html server x = Ok dx ->
     exists dx', translate_recipe t (normalize_recipe dx) = Ok dx') ->
  parse_recipe parse_html server u = Ok d ->
  translate_recipe t (normalize_recipe d) = Err err ->
  let r := scrape_recipes_cli parse_html server e [prog; url; out] s in
  exit_status (fst r) = 1%Z
  /\ exists c, files (snd r) !! path_join out ⟪"recipes.csv"⟫ = Some (csv_row csv_header ++ c).
Proof.
  intros Hne Htr Hl Hl1 Hu Herr r. subst r. rewrite scrape_cli_dispatch.
  change (default ⟪"output"⟫ (head [out])) with out.
  split; [|by eapply main_csv_header_first].
  rewrite (main_translation_abort_run parse_html server e url out s t l1 u l2 d err
             Htr Hl Hl1 Hu Herr).
  destruct err; try done. by destruct (Hne code).
Qed.
End CliProps.

(** The downloader also exits with status 1 on a partial failure:
    [python download_images.py t] saves the first image of
    [t/x_photos.txt] to [images/a.jpg], then the malformed second URL
    raises [ValueError] and the process exits with status 1. *)
Theorem download_cli_partial_failure_status :
  let r := download_images_cli dl_server dl_listing [⟪"download_images.py"⟫; ⟪"t"⟫] dl_fixture in
  exit_status (fst r) = 1%Z /\ dfiles (snd r) !! ⟪"images/a.jpg"⟫ = Some ⟪"JPEG-1"⟫.
Proof. vm_compute. split; reflexivity. Qed.

(** ** Witnesses *)

Lemma cli_usage_exit_witness :
  scrape_recipes_cli fixture_html fixture_server env_no_key [⟪"scrape_recipes.py"⟫] empty_fs
    = (Err (SystemExit 1), mk_fs ∅ ∅ [LogUsage])
  /\ download_images_cli dl_server dl_listing [⟪"scrape_recipes.py"⟫] dl_empty
    = (Err (SystemExit 1), mk_dl ∅ ∅ [DlUsage]).
Proof.
  exact (cli_usage_exit fixture_html fixture_server dl_listing env_no_key [⟪"scrape_recipes.py"⟫]
           empty_fs dl_empty
           ltac:(simpl; lia)).
Defined.

Lemma scrape_cli_default_output_witness :
  exit_status (fst (scrape_recipes_cli fixture_html fixture_server env_no_key
                      [⟪"scrape_recipes.py"⟫; index_url] empty_fs)) = 0%Z.
Proof.
  refine (proj1 (scrape_cli_default_output fixture_html fixture_server env_no_key
                   ⟪"scrape_recipes.py"⟫ index_url empty_fs
                   [⟪"https://x.test/recipe/1"⟫; ⟪"https://x.test/a/recipe/2"⟫] eq_refl _)).
  vm_compute. reflexivity.
Defined.

Lemma scrape_cli_translation_failure_status_witness :
  exit_status (fst (scrape_recipes_cli fixture_html fixture_server env_failing
                      [⟪"scrape_recipes.py"⟫; index_url; ⟪"out"⟫] empty_fs)) = 1%Z.
Proof.
  refine (proj1 (scrape_cli_translation_failure_status fixture_html fixture_server env_failing
           ⟪"scrape_recipes.py"⟫ index_url ⟪"out"⟫ empty_fs (failing_deepl ⟪"key"⟫) []
           ⟪"https://x.test/recipe/1"⟫ [⟪"https://x.test/a/recipe/2"⟫]
           (mk_recipe ⟪"ApplePie"⟫ ⟪"Dessert"⟫ [⟪"Flour"⟫; ⟪"flour"⟫] ⟪"10 min"⟫ [] []
              [⟪"Mix."⟫; ⟪"Bake."⟫]
              [⟪"https://x.test/img/Pie.JPG"⟫; ⟪"https://x.test/recipe/b.png"⟫])
           (DeepLException ⟪"quota"⟫) _ eq_refl _ _ _ _)).
  - intros c. discriminate.
  - vm_compute. reflexivity.
  - intros x dx Hx. set_solver.
  - vm_compute. reflexivity.
  - vm_compute. reflexivity.
Defined.

End Cli.
